(** * Audit-management column classifier: a shallow embedding

    The development follows the three Python modules of the repository:

    - [scripts/csv_column_classifier.py]: the taxonomy constants, the Ollama
      client ([classify_column], [classify_department]), and the two
      processing functions [process_column] and [process_department];
    - [scripts/run_classifier.py]: the loops of [main] over the columns and
      the rows, the column mapping, the statistics and the path of the
      report;
    - [scripts/xlsx_parser.py]: the readers, [clean_dataframe], the column
      metadata, the row records and the summary.

    Python values are modelled by the inductive type [pyval]; a Python [dict]
    with string keys is a [gmap string pyval].  Code that may raise returns in
    the monad [M], which threads the log of prompts sent to the language model
    and carries either an exception or a value.  Console output ([print]) is
    not modelled. *)

From Stdlib Require Import QArith.
From stdpp Require Import gmap strings list fin_maps pretty.

#[local] Open Scope string_scope.
#[local] Open Scope list_scope.
#[local] Set Warnings "-register-all".

(** ** Python values *)

(** The values that [json.loads] produces and that the scripts store in their
    result dictionaries.  A JSON number with a fraction or an exponent, a
    Python [float], is modelled by its exact rational value, and so is the
    threshold 0.6: comparisons are those of the rationals, the rounding of
    literals to binary64 and the non-finite floats are left out. *)
Inductive pyval : Type :=
  | PNone
  | PBool (b : bool)
  | PInt (z : Z)
  | PFloat (q : Q)
  | PStr (s : string)
  | PList (l : list pyval)
  | PDict (d : gmap string pyval).

(** The exceptions that the modelled code can meet. *)
Inductive exn : Type :=
  | TypeError
  | KeyError (k : string)
  | ValueError
  | IndexError
  | JSONDecodeError
  | TransportError.

(** ** Strings: [str.strip] and the substring test *)

Module PyStr.

(** [str.isspace] on a single character.  The characters of a Rocq string
    stand for the code points below 256. *)
Definition isspace (c : Ascii.ascii) : bool :=
  let n := Ascii.nat_of_ascii c in
  (((9 <=? n) && (n <=? 13)) || ((28 <=? n) && (n <=? 32))
   || (n =? 133) || (n =? 160))%nat.

Fixpoint lstrip (s : string) : string :=
  match s with
  | EmptyString => EmptyString
  | String c r => if isspace c then lstrip r else s
  end.

Fixpoint rstrip (s : string) : string :=
  match s with
  | EmptyString => EmptyString
  | String c r =>
      match rstrip r with
      | EmptyString => if isspace c then EmptyString else String c EmptyString
      | r' => String c r'
      end
  end.

(** [s.strip()] *)
Definition strip (s : string) : string := rstrip (lstrip s).

(** [needle in hay] for two strings: substring containment. *)
Fixpoint contains (needle hay : string) : bool :=
  String.prefix needle hay ||
  match hay with
  | EmptyString => false
  | String _ r => contains needle r
  end.

(** Truth value of a string: non-empty. *)
Definition truthy (s : string) : bool :=
  match s with EmptyString => false | String _ _ => true end.

End PyStr.

(** ** Python operators on [pyval] *)

(** [v == s] for a string literal [s]. *)
Definition py_eq_str (v : pyval) (s : string) : bool :=
  match v with
  | PStr t => String.eqb t s
  | _ => false
  end.

(** [k in v] for a string literal [k]: key membership on a dict, element
    membership on a list, substring on a string; any other operand is not
    iterable. *)
Definition py_in (k : string) (v : pyval) : exn + bool :=
  match v with
  | PDict d => inr (bool_decide (is_Some (d !! k)))
  | PList l => inr (existsb (fun x => py_eq_str x k) l)
  | PStr s => inr (PyStr.contains k s)
  | _ => inl TypeError
  end.

(** [v[k]] for a string literal [k]. *)
Definition py_getitem (v : pyval) (k : string) : exn + pyval :=
  match v with
  | PDict d =>
      match d !! k with
      | Some x => inr x
      | None => inl (KeyError k)
      end
  | _ => inl TypeError
  end.

(** [v[k] = x] for a string literal [k]. *)
Definition py_setitem (v : pyval) (k : string) (x : pyval) : exn + pyval :=
  match v with
  | PDict d => inr (PDict (<[k := x]> d))
  | _ => inl TypeError
  end.

(** The numeric value of a number; [bool] is a subtype of [int]. *)
Definition py_number (v : pyval) : option Q :=
  match v with
  | PBool b => Some (inject_Z (if b then 1 else 0))
  | PInt z => Some (inject_Z z)
  | PFloat q => Some q
  | _ => None
  end.

Definition Qltb (x y : Q) : bool := negb (Qle_bool y x).

(** [v < t] for a float [t]. *)
Definition py_lt (v : pyval) (t : Q) : exn + bool :=
  match py_number v with
  | Some q => inr (Qltb q t)
  | None => inl TypeError
  end.

(** ** Pure code that may raise *)

#[global] Instance exn_ret : MRet (sum exn) := λ A x, inr x.

#[global] Instance exn_bind : MBind (sum exn) := λ A B f m,
  match m with
  | inr x => f x
  | inl e => inl e
  end.

(** ** The monad of the scripts: a log of model calls, and exceptions *)

(** The state is the list of prompts sent to the model so far, oldest first. *)
Definition M (A : Type) : Type := list string → (exn + A) * list string.

#[global] Instance M_ret : MRet M := λ A x w, (inr x, w).

#[global] Instance M_bind : MBind M := λ A B f m w,
  match m w with
  | (inr x, w') => f x w'
  | (inl e, w') => (inl e, w')
  end.

Definition raise {A} (e : exn) : M A := λ w, (inl e, w).

(** A pure computation that may raise. *)
Definition lift {A} (r : exn + A) : M A := λ w, (r, w).

(** [try: body except Exception as e: handler e] *)
Definition try_except {A} (body : M A) (handler : exn → M A) : M A := λ w,
  match body w with
  | (inl e, w') => handler e w'
  | (inr x, w') => (inr x, w')
  end.

(** ** Global configuration *)

Definition COLUMN_CATEGORIES : list string :=
  [ "ticket_number"; "title"; "description"; "department"; "priority";
    "status"; "due_date"; "assigned_to"; "created_at"; "OTHER" ].

Definition FIXED_DEPARTMENTS : list string :=
  [ "IT"; "Finance"; "HR"; "Operations"; "Legal"; "Compliance"; "Marketing";
    "Sales"; "OTHER" ].

Definition CONFIDENCE_THRESHOLD : Q := 0.6.

(** ** Series helpers *)

(** A column of a data frame: one cell per row, [None] for a missing cell
    (NaN, None or NaT). *)
Definition series : Type := list (option pyval).

(** [Series.dropna()] *)
Definition dropna (s : series) : list pyval := omap id s.

(** Truth value of a Python value. *)
Definition py_truthy (v : pyval) : bool :=
  match v with
  | PNone => false
  | PBool b => b
  | PInt z => negb (z =? 0)%Z
  | PFloat q => negb (Qeq_bool q 0)
  | PStr s => PyStr.truthy s
  | PList l => match l with [] => false | _ => true end
  | PDict d => negb (bool_decide (d = ∅))
  end.

(** Truth value of a field of a row as [main] passes it on: the cell itself,
    whatever its type, or [None] for a missing cell or a column that is not
    mapped. *)
Definition opt_truthy (v : option pyval) : bool :=
  match v with
  | Some x => py_truthy x
  | None => false
  end.

(** [department_value and str(department_value).strip()], as a condition. *)
Definition department_present (py_str : pyval → string)
    (department_value : option pyval) : bool :=
  match department_value with
  | Some x => py_truthy x && PyStr.truthy (PyStr.strip (py_str x))
  | None => false
  end.

(** ** The classifier ([csv_column_classifier.py]) *)

Section Classifier.

(** What the scripts obtain from outside the repository. *)

(** [ollama.chat(...)] followed by [response['message']['content']]: the
    text of the reply, given the prompts sent before and the prompt; [None]
    when the call, or the extraction of the content, raises. *)
Variable ollama_chat : list string → string → option string.

(** [json.loads]; [None] when it raises [JSONDecodeError]. *)
Variable json_loads : string → option pyval.

(** The builtin [str], also used by f-string interpolation. *)
Variable py_str : pyval → string.

(** [str(df_column.dtype)] *)
Variable series_dtype : series → string.

(** [Series.sample(n=n, random_state=1).tolist()] on a series without
    missing values: a seeded draw, hence a function of the values. *)
Variable series_sample : list pyval → nat → list pyval.

(** [list(a_set)]: the order in which a [set] of strings is iterated.  It
    depends on the string hashes of the running interpreter. *)
Variable set_iter : gset string → list string.

(** The two prompt builders only format text; no property below depends on
    the wording, so the rendering is left abstract. *)
Variable create_column_prompt :
  string → string → list string → list string → string.
Variable create_department_prompt :
  option pyval → option pyval → option pyval → list string → string.

(** *** Llama3Client *)

Definition chat (prompt : string) : M string := λ w,
  match ollama_chat w prompt with
  | Some content => (inr content, w ++ [prompt])
  | None => (inl TransportError, w ++ [prompt])
  end.

Definition loads (content : string) : M pyval :=
  lift (from_option inr (inl JSONDecodeError) (json_loads content)).

Definition classify_column (prompt : string) : M pyval :=
  try_except
    (content ← chat prompt;
     result ← loads content;
     has_category ← lift (py_in "category" result);
     if negb has_category then raise ValueError else
     has_confidence ← lift (py_in "confidence" result);
     if negb has_confidence then raise ValueError else
     mret result)
    (λ _, mret (PDict {[ "category" := PStr "OTHER";
                         "confidence" := PFloat 0.0 ]})).

Definition classify_department (prompt : string) : M pyval :=
  try_except
    (content ← chat prompt;
     result ← loads content;
     has_department ← lift (py_in "department" result);
     if negb has_department then raise ValueError else
     has_confidence ← lift (py_in "confidence" result);
     if negb has_confidence then raise ValueError else
     mret result)
    (λ _, mret (PDict {[ "department" := PStr "OTHER";
                         "confidence" := PFloat 0.0 ]})).

(** *** process_column *)

(** The sampling step of [process_column]: the first five values, five
    drawn values, stringified, deduplicated through a [set], cut at ten. *)
Definition column_samples (non_null_column : list pyval) : list string :=
  let first_samples := take 5 non_null_column in
  let sample_size := 5 `min` length non_null_column in
  let random_samples := series_sample non_null_column sample_size in
  let all_samples :=
    set_iter (list_to_set (py_str <$> (first_samples ++ random_samples))) in
  take 10 all_samples.

Definition process_column (df_column : series) (column_name : string)
    (categories : list string) : M pyval :=
  let dtype := series_dtype df_column in
  let non_null_column := dropna df_column in
  if decide (length non_null_column = 0%nat) then
    mret (PDict {[ "category" := PStr "OTHER";
                   "confidence" := PFloat 0.0;
                   "needs_manual_review" := PBool true;
                   "reason" := PStr "Column is empty" ]})
  else
    let sample_values := column_samples non_null_column in
    let prompt :=
      create_column_prompt column_name dtype sample_values categories in
    result ← classify_column prompt;
    confidence ← lift (py_getitem result "confidence");
    needs_review ← lift (py_lt confidence CONFIDENCE_THRESHOLD);
    if (needs_review : bool) then
      result ← lift (py_setitem result "category" (PStr "OTHER"));
      result ← lift (py_setitem result "needs_manual_review" (PBool true));
      confidence ← lift (py_getitem result "confidence");
      lift (py_setitem result "reason"
              (PStr ("Low confidence (" +:+ py_str confidence +:+ ")")))
    else
      lift (py_setitem result "needs_manual_review" (PBool false)).

(** *** process_department *)

(** The three fields are typed [Optional[str]] in the source; [main] passes
    the cells of the row as they are, so they are taken here with any
    type. *)
Definition process_department (row_index : Z)
    (department_value title description : option pyval)
    (departments : list string) : M pyval :=
  let prompt :=
    create_department_prompt department_value title description departments in
  result ← classify_department prompt;
  result ← lift (py_setitem result "row" (PInt row_index));
  result ← lift (py_setitem result "original"
                   (if opt_truthy department_value
                    then default (PStr "") department_value else PStr ""));
  department ← lift (py_getitem result "department");
  result ← lift (py_setitem result "suggested" department);
  result ← lift (py_setitem result "source"
                   (PStr (if department_present py_str department_value
                          then "normalized" else "inferred_from_content")));
  confidence ← lift (py_getitem result "confidence");
  needs_review ← lift (py_lt confidence CONFIDENCE_THRESHOLD);
  if (needs_review : bool) then
    result ← lift (py_setitem result "suggested" (PStr "OTHER"));
    result ← lift (py_setitem result "needs_manual_review" (PBool true));
    confidence ← lift (py_getitem result "confidence");
    lift (py_setitem result "reason"
            (PStr ("Low confidence (" +:+ py_str confidence +:+ ")")))
  else
    lift (py_setitem result "needs_manual_review" (PBool false)).

(** ** The orchestrator ([run_classifier.py]) *)

(** Step 3 of [main]: classify every column and record its original name.
    A column is given by its name and its cells. *)
Fixpoint classify_columns (df_clean : list (string * series)) : M (list pyval) :=
  match df_clean with
  | [] => mret []
  | (col_name, df_column) :: rest =>
      result ← process_column df_column col_name COLUMN_CATEGORIES;
      result ← lift (py_setitem result "original_name" (PStr col_name));
      column_classifications ← classify_columns rest;
      mret (result :: column_classifications)
  end.

End Classifier.

(** A Python [dict] whose keys are arbitrary hashable values, in insertion
    order: the column mapping is keyed by whatever the [category] entry of a
    classification holds. *)
Definition pydict : Type := list (pyval * pyval).

(** Lists and dicts cannot be keys. *)
Definition py_hashable (v : pyval) : bool :=
  match v with
  | PList _ | PDict _ => false
  | _ => true
  end.

(** [a == b] on hashable values: numbers (and booleans) by value, strings and
    [None] by identity of content. *)
Definition py_key_eqb (a b : pyval) : bool :=
  match py_number a, py_number b with
  | Some x, Some y => Qeq_bool x y
  | None, None =>
      match a, b with
      | PNone, PNone => true
      | PStr s, PStr t => String.eqb s t
      | _, _ => false
      end
  | _, _ => false
  end.

(** [d.get(k)] *)
Fixpoint pydict_get (d : pydict) (k : pyval) : option pyval :=
  match d with
  | [] => None
  | (k', v') :: rest => if py_key_eqb k' k then Some v' else pydict_get rest k
  end.

Fixpoint pydict_update (d : pydict) (k v : pyval) : pydict :=
  match d with
  | [] => [(k, v)]
  | (k', v') :: rest =>
      if py_key_eqb k' k then (k', v) :: rest
      else (k', v') :: pydict_update rest k v
  end.

(** [d[k] = v] *)
Definition pydict_setitem (d : pydict) (k v : pyval) : exn + pydict :=
  if py_hashable k then inr (pydict_update d k v) else inl TypeError.

(** Step 4 of [main]: the loop that fills [column_mapping]. *)
Fixpoint build_column_mapping (column_classifications : list pyval)
    (column_mapping : pydict) : exn + pydict :=
  match column_classifications with
  | [] => mret column_mapping
  | classification :: rest =>
      category ← py_getitem classification "category";
      if negb (py_eq_str category "OTHER") then
        original_name ← py_getitem classification "original_name";
        category ← py_getitem classification "category";
        column_mapping ← pydict_setitem column_mapping category original_name;
        build_column_mapping rest column_mapping
      else
        build_column_mapping rest column_mapping
  end.

(** ** The Excel reader ([xlsx_parser.py]) *)

(** A data frame: its column labels and its rows of cells. *)
Record DataFrame : Type := mkDataFrame {
  columns : list pyval;
  rows : list (list (option pyval))
}.

(** [isinstance(val, str)] on a cell *)
Definition is_str (val : option pyval) : bool :=
  match val with
  | Some (PStr _) => true
  | _ => false
  end.

(** [df.dropna(how='all')]: rows whose cells are all missing are dropped. *)
Definition dropna_all (data : list (list (option pyval))) :
    list (list (option pyval)) :=
  filter (λ row, negb (forallb (λ c, bool_decide (c = None)) row) = true) data.

(** The name given to column [idx] when the first row is a header. *)
Definition header_name (idx : nat) (val : option pyval) : pyval :=
  match val with
  | Some (PStr s) =>
      if PyStr.truthy (PyStr.strip s) then PStr (PyStr.strip s)
      else PStr ("Column_" +:+ pretty idx)
  | _ => PStr ("Column_" +:+ pretty idx)
  end.

(** [df_raw.iloc[0]] and the rest, on the rows *)
Definition iloc0 (data : list (list (option pyval))) :
    exn + (list (option pyval) * list (list (option pyval))) :=
  match data with
  | [] => inl IndexError
  | first_row :: rest => inr (first_row, rest)
  end.

(** [read_excel_file], from the frame that [pd.read_excel(..., header=None)]
    returned.  Every exception of the body is turned into a [ValueError]. *)
Definition read_excel_file (df_raw : DataFrame) : exn + DataFrame :=
  let body : exn + DataFrame :=
    let data := dropna_all (rows df_raw) in
    '(first_row, rest) ← iloc0 data;
    let string_count := length (filter (λ val, is_str val = true) first_row) in
    if Qltb (inject_Z (Z.of_nat (length first_row)) * 0.5)
            (inject_Z (Z.of_nat string_count))
    then
      let column_names := imap header_name first_row in
      mret (mkDataFrame column_names rest)
    else
      mret (mkDataFrame (columns df_raw) data)
  in
  match body with
  | inl _ => inl ValueError
  | inr df => inr df
  end.

(** The labels of a frame read without a header: [0, 1, ..., n-1]. *)
Definition range_index (n : nat) : list pyval :=
  (λ i, PInt (Z.of_nat i)) <$> seq 0 n.

(** * More of the three modules *)

(** ** Python helpers *)

(** [s.rsplit('.', 1)[0]]: the text before the last dot, the whole string
    when it holds no dot.  [before_last_dot] is [None] for a string without
    a dot. *)
Fixpoint before_last_dot (s : string) : option string :=
  match s with
  | EmptyString => None
  | String c r =>
      match before_last_dot r with
      | Some p => Some (String c p)
      | None => if Ascii.eqb c (Ascii.ascii_of_nat 46) then Some EmptyString else None
      end
  end.

Definition rsplit_dot_head (s : string) : string :=
  default s (before_last_dot s).

(** ** The rest of the parser ([xlsx_parser.py]) *)

(** The exceptions of the parser that [exn] does not name. *)
Inductive io_exn : Type :=
  | FileNotFoundError
  | AttributeError
  | Raised (e : exn).

#[global] Instance io_exn_ret : MRet (sum io_exn) := λ A x, inr x.

#[global] Instance io_exn_bind : MBind (sum io_exn) := λ A B f m,
  match m with
  | inr x => f x
  | inl e => inl e
  end.

(** A data frame with its index: every row carries its label.  The frames of
    [DataFrame] are those whose index has just been reset. *)
Record Frame : Type := mkFrame {
  frame_columns : list pyval;
  frame_rows : list (Z * list (option pyval))
}.

(** The index [0, 1, ..., n-1] over the rows of a frame without index. *)
Definition range_indexed (df : DataFrame) : Frame :=
  mkFrame (columns df) (imap (λ i row, (Z.of_nat i, row)) (rows df)).

(** The cells of the column at position [j]. *)
Definition frame_column (j : nat) (body : list (Z * list (option pyval))) : series :=
  (λ r, default None (r.2 !! j)) <$> body.

(** Assignment of a series to the column at position [j]. *)
Definition set_frame_column (j : nat) (s : series)
    (body : list (Z * list (option pyval))) : list (Z * list (option pyval)) :=
  zip_with (λ r v, (r.1, <[j := v]> r.2)) body s.

(** The positions of the columns whose label is the string [k]. *)
Fixpoint label_positions_from (i : nat) (labels : list pyval) (k : string) :
    list nat :=
  match labels with
  | [] => []
  | l :: rest =>
      if py_eq_str l k then i :: label_positions_from (S i) rest k
      else label_positions_from (S i) rest k
  end.

Definition label_positions (labels : list pyval) (k : string) : list nat :=
  label_positions_from 0 labels k.

(** [isinstance(col, str)] on a label *)
Definition is_str_label (col : pyval) : bool :=
  match col with
  | PStr _ => true
  | _ => false
  end.

(** [lambda x: x.strip() if isinstance(x, str) else x] on a cell *)
Definition strip_cell (x : option pyval) : option pyval :=
  match x with
  | Some (PStr s) => Some (PStr (PyStr.strip s))
  | _ => x
  end.

(** A row whose cells are all missing. *)
Definition all_missing (row : list (option pyval)) : bool :=
  forallb (λ c, bool_decide (c = None)) row.

(** The outcome of one [pd.read_csv(file_path, encoding=enc)]. *)
Inductive csv_read : Type :=
  | CsvFrame (df : DataFrame)
  | CsvUnicodeDecodeError
  | CsvError.

(** The dictionary returned by [extract_column_info]. *)
Record column_info : Type := mkColumnInfo {
  info_name : string;
  info_dtype : string;
  non_null_count : nat;
  null_count : nat;
  sample_values : list string;
  unique_count : nat
}.

(** The dictionary built for a row by [extract_row_data]. *)
Record row_data : Type := mkRowData {
  row_index : Z;
  row_title : option pyval;
  row_description : option pyval;
  row_department : option pyval
}.

(** The dictionary returned by [get_dataframe_summary]. *)
Record dataframe_summary : Type := mkSummary {
  total_rows : nat;
  total_columns : nat;
  column_names : list pyval;
  memory_usage_mb : Q;
  has_missing_values : bool;
  total_missing_values : nat
}.

Section Parser.

(** The builtin [str]. *)
Variable py_str : pyval → string.

(** [str(series.dtype)] *)
Variable series_dtype : series → string.

(** The series that [Series.apply] returns, given the cells that the
    function has produced: pandas infers the type of the result again, so
    that the numbers of a column may come back with another type (integers
    beside a missing cell come back as floats). *)
Variable apply_result : series → series.

(** Whether the labels of a frame without any column have the [str]
    accessor: an empty index of objects has it, the [RangeIndex] of an
    empty frame has not. *)
Variable empty_index_str : Frame → bool.

(** [Series.sample(n=n, random_state=1).tolist()] *)
Variable series_sample : list pyval → nat → list pyval.

(** [list(a_set)] *)
Variable set_iter : gset string → list string.

(** [Series.nunique()] *)
Variable series_nunique : series → nat.

(** [os.path.exists] *)
Variable path_exists : string → bool.

(** [os.path.splitext(file_path)[1].lower()] *)
Variable splitext_lower : string → string.

(** [pd.read_excel(file_path, sheet_name=0, header=None)]; [None] when it
    raises. *)
Variable pd_read_excel : string → option DataFrame.

(** [pd.read_csv(file_path, encoding=enc)] *)
Variable pd_read_csv : string → string → csv_read.

(** [round(df.memory_usage(deep=True).sum() / 1024**2, 2)] *)
Variable frame_memory_mb : Frame → Q.

Definition detect_file_type (file_path : string) : io_exn + string :=
  if negb (path_exists file_path) then inl FileNotFoundError
  else
    let ext := splitext_lower file_path in
    if bool_decide (ext ∈ [".xlsx"; ".xlsm"]) then inr "xlsx"
    else if String.eqb ext ".xls" then inr "xls"
    else if String.eqb ext ".csv" then inr "csv"
    else inr "unknown".

(** [read_excel_file] from the path: reading the file is inside the [try]. *)
Definition read_excel_path (file_path : string) : exn + DataFrame :=
  match pd_read_excel file_path with
  | None => inl ValueError
  | Some df_raw => read_excel_file df_raw
  end.

(** The loop of [read_csv_file] over the encodings left to try; [None] is
    the end of the loop, where the function returns nothing. *)
Fixpoint read_csv_attempts (file_path last : string) (encodings : list string) :
    option (exn + DataFrame) :=
  match encodings with
  | [] => None
  | enc :: rest =>
      match pd_read_csv file_path enc with
      | CsvFrame df => Some (inr df)
      | CsvUnicodeDecodeError =>
          if String.eqb enc last then Some (inl ValueError)
          else read_csv_attempts file_path last rest
      | CsvError => Some (inl ValueError)
      end
  end.

Definition read_csv_file (file_path encoding : string) :
    option (exn + DataFrame) :=
  let encodings_to_try :=
    [encoding; "latin-1"; "iso-8859-1"; "windows-1252"; "cp1252"] in
  read_csv_attempts file_path (default "" (last encodings_to_try))
    encodings_to_try.

(** [read_file]; the value is [None] when [read_csv_file] returns nothing. *)
Definition read_file (file_path : string) : io_exn + option DataFrame :=
  file_type ← detect_file_type file_path;
  if bool_decide (file_type ∈ ["xlsx"; "xls"]) then
    match read_excel_path file_path with
    | inl e => inl (Raised e)
    | inr df => inr (Some df)
    end
  else if String.eqb file_type "csv" then
    match read_csv_file file_path "utf-8" with
    | Some (inl e) => inl (Raised e)
    | Some (inr df) => inr (Some df)
    | None => inr None
    end
  else inl (Raised ValueError).

(** The column labels after the first step of [clean_dataframe]: strings
    in both branches. *)
Definition clean_names (labels : list pyval) : list string :=
  if forallb is_str_label labels then
    omap (λ col, match col with PStr s => Some (PyStr.strip s) | _ => None end)
      labels
  else
    (λ col, match col with
            | PStr s => PyStr.strip s
            | _ => py_str col
            end) <$> labels.

(** The loop of [clean_dataframe] over the columns: [df_clean[col]] is a
    series when one column bears the label, a frame, which has no [dtype],
    when several do. *)
Fixpoint strip_object_columns (labels : list pyval) (todo : list string)
    (body : list (Z * list (option pyval))) :
    io_exn + list (Z * list (option pyval)) :=
  match todo with
  | [] => inr body
  | col :: rest =>
      match label_positions labels col with
      | [] => inl (Raised (KeyError col))
      | [j] =>
          let s := frame_column j body in
          let body :=
            if String.eqb (series_dtype s) "object"
            then set_frame_column j (apply_result (strip_cell <$> s)) body
            else body in
          strip_object_columns labels rest body
      | _ => inl AttributeError
      end
  end.

(** The first branch of the renaming goes through the [str] accessor of the
    labels, which an index without any label need not have. *)
Definition clean_dataframe (df : Frame) : io_exn + Frame :=
  let names := clean_names (frame_columns df) in
  let labels := PStr <$> names in
  _ ← match frame_columns df with
      | [] => if empty_index_str df then inr () else inl AttributeError
      | _ :: _ => inr ()
      end;
  body ← strip_object_columns labels names (frame_rows df);
  mret (mkFrame labels (filter (λ r, all_missing r.2 = false) body)).

(** [df[column_name]] for a string: the series of the only column with this
    label. *)
Definition extract_column_info (df : Frame) (column_name : string) :
    io_exn + column_info :=
  match label_positions (frame_columns df) column_name with
  | [] => inl (Raised ValueError)
  | [j] =>
      let col_data := frame_column j (frame_rows df) in
      let non_null_data := dropna col_data in
      let sample_values :=
        if decide (0 < length non_null_data)%nat then
          let first_samples := take 5 non_null_data in
          if decide (5 < length non_null_data)%nat then
            let random_samples :=
              series_sample non_null_data (5 `min` length non_null_data) in
            take 10 (set_iter (list_to_set
                       (py_str <$> (first_samples ++ random_samples))))
          else py_str <$> first_samples
        else [] in
      inr (mkColumnInfo column_name (series_dtype col_data)
             (length non_null_data)
             (length (filter (λ c, c = None) col_data))
             sample_values (series_nunique col_data))
  | _ => inl AttributeError
  end.

(** [df.iterrows()] hands each row over as one series, in which pandas may
    have widened the numbers to a common type. *)
Variable iterrows_row : list (option pyval) → list (option pyval).

(** One field of a row of [extract_row_data]: [None] when no column is
    named or the name is not a label; with several columns under the label,
    [row[col]] is a series, whose truth value is ambiguous. *)
Definition row_field (labels : list pyval) (row : list (option pyval))
    (col : option string) : io_exn + option pyval :=
  match col with
  | Some name =>
      if PyStr.truthy name then
        match label_positions labels name with
        | [] => inr None
        | [j] => inr (default None (iterrows_row row !! j))
        | _ => inl (Raised ValueError)
        end
      else inr None
  | None => inr None
  end.

Fixpoint extract_rows (labels : list pyval)
    (title_col description_col department_col : option string)
    (body : list (Z * list (option pyval))) : io_exn + list row_data :=
  match body with
  | [] => mret []
  | (idx, row) :: rest =>
      title ← row_field labels row title_col;
      description ← row_field labels row description_col;
      department ← row_field labels row department_col;
      rows_data ← extract_rows labels title_col description_col department_col
                    rest;
      mret (mkRowData idx title description department :: rows_data)
  end.

Definition extract_row_data (df : Frame)
    (title_col description_col department_col : option string) :
    io_exn + list row_data :=
  extract_rows (frame_columns df) title_col description_col department_col
    (frame_rows df).

Definition get_dataframe_summary (df : Frame) : dataframe_summary :=
  let missing :=
    (λ r, length (filter (λ c, c = None) r.2)) <$> frame_rows df in
  mkSummary (length (frame_rows df)) (length (frame_columns df))
    (frame_columns df) (frame_memory_mb df)
    (existsb (λ r, existsb (λ c, bool_decide (c = None)) r.2) (frame_rows df))
    (foldr Nat.add 0%nat missing).

End Parser.

(** ** The rest of the orchestrator ([run_classifier.py]) *)

(** The counts of the report. *)
Record statistics : Type := mkStatistics {
  stat_total_columns : nat;
  columns_classified : nat;
  columns_needing_review : nat;
  total_rows_processed : nat;
  departments_normalized : nat;
  departments_inferred : nat;
  departments_needing_review : nat
}.

Section Orchestrator.

Variable ollama_chat : list string → string → option string.
Variable json_loads : string → option pyval.
Variable py_str : pyval → string.
Variable create_department_prompt :
  option pyval → option pyval → option pyval → list string → string.

(** The loop of step 5 over the rows it is given: the records that
    [extract_row_data] has built. *)
Fixpoint classify_departments (rows_data : list row_data) :
    M (list pyval) :=
  match rows_data with
  | [] => mret []
  | row_data :: rest =>
      result ← process_department ollama_chat json_loads py_str
                 create_department_prompt (row_index row_data)
                 (row_department row_data) (row_title row_data)
                 (row_description row_data) FIXED_DEPARTMENTS;
      department_classifications ← classify_departments rest;
      mret (result :: department_classifications)
  end.

(** Step 5 of [main]: the first five rows only. *)
Definition classify_department_sample (rows_data : list row_data) :
    M (list pyval) :=
  let sample_size := 5 `min` length rows_data in
  classify_departments (take sample_size rows_data).

End Orchestrator.

(** [[cat for cat in ['title', 'description', 'department']
      if cat not in column_mapping]] *)
Definition unmapped (column_mapping : pydict) : list string :=
  filter (λ cat, pydict_get column_mapping (PStr cat) = None)
    ["title"; "description"; "department"].

(** [len([c for c in l if c[key] != value])] and
    [len([c for c in l if c[key] == value])] *)
Fixpoint count_key_ne (key value : string) (l : list pyval) : exn + nat :=
  match l with
  | [] => mret 0%nat
  | c :: rest =>
      v ← py_getitem c key;
      n ← count_key_ne key value rest;
      mret (if py_eq_str v value then n else S n)
  end.

Fixpoint count_key_eq (key value : string) (l : list pyval) : exn + nat :=
  match l with
  | [] => mret 0%nat
  | c :: rest =>
      v ← py_getitem c key;
      n ← count_key_eq key value rest;
      mret (if py_eq_str v value then S n else n)
  end.

(** [c.get('needs_manual_review', False)], as a condition.  The value on
    something that is not a dictionary is never used: the subscript of the
    entry before has raised. *)
Definition needs_review_flag (c : pyval) : bool :=
  match c with
  | PDict d => from_option py_truthy false (d !! "needs_manual_review")
  | _ => false
  end.

(** The [statistics] entry of the report. *)
Definition report_statistics (column_classifications
    department_classifications : list pyval) : exn + statistics :=
  classified ← count_key_ne "category" "OTHER" column_classifications;
  normalized ← count_key_eq "source" "normalized" department_classifications;
  inferred ← count_key_eq "source" "inferred_from_content"
               department_classifications;
  mret (mkStatistics
          (length column_classifications)
          classified
          (length (filter (λ c, needs_review_flag c = true)
                     column_classifications))
          (length department_classifications)
          normalized
          inferred
          (length (filter (λ c, needs_review_flag c = true)
                     department_classifications))).

(** The path of the report. *)
Definition output_file (file_path : string) : string :=
  rsplit_dot_head file_path +:+ "_classification_results.json".

(** ** Vocabulary of the further statements *)

(** The failures that the client absorbs, for the entry point whose label
    key is [label_key]: the transport raises, the reply is not JSON, or the
    reply is a JSON object that lacks the label key or the confidence. *)
Definition absorbed_failure (ollama_chat : list string → string → option string)
    (json_loads : string → option pyval) (label_key prompt : string)
    (w : list string) : Prop :=
  ollama_chat w prompt = None ∨
  (∃ content, ollama_chat w prompt = Some content ∧
              json_loads content = None) ∨
  (∃ content d, ollama_chat w prompt = Some content ∧
                json_loads content = Some (PDict d) ∧
                (d !! label_key = None ∨ d !! "confidence" = None)).

(** The name that [clean_dataframe] gives to a column label. *)
Definition clean_label (py_str : pyval → string) (col : pyval) : string :=
  match col with
  | PStr s => PyStr.strip s
  | _ => py_str col
  end.

(** What the inference of [Series.apply] leaves as it is: the number of
    cells, which cells are missing, and the strings, of which it makes
    none. *)
Definition kept_cell (c c' : option pyval) : Prop :=
  (c = None ↔ c' = None) ∧
  (is_str c = true ∨ is_str c' = true → c' = c).

Definition keeps_text (apply_result : series → series) : Prop :=
  ∀ s : series, Forall2 kept_cell s (apply_result s).

(** What cleaning makes of a cell: a missing cell stays missing and a value
    stays a value, a string is trimmed, and a string comes from a string
    only; a number may come back with another type. *)
Definition cleaned_cell (c c' : option pyval) : Prop :=
  (c = None ↔ c' = None) ∧
  (∀ s, c = Some (PStr s) → c' = Some (PStr (PyStr.strip s))) ∧
  (∀ s', c' = Some (PStr s') → ∃ s, c = Some (PStr s) ∧ s' = PyStr.strip s).

(** A row and the row cleaned: the same index label, each cell cleaned. *)
Definition cleaned_row (r r' : Z * list (option pyval)) : Prop :=
  r'.1 = r.1 ∧ Forall2 cleaned_cell r.2 r'.2.

(** A row in which the cells of the first [j] columns have been cleaned. *)
Definition cleaned_upto (j : nat) (r r' : Z * list (option pyval)) : Prop :=
  r'.1 = r.1 ∧ length r'.2 = length r.2 ∧
  ∀ i c c', r.2 !! i = Some c → r'.2 !! i = Some c' →
            if decide (i < j)%nat then cleaned_cell c c' else c' = c.

(** A frame whose rows all have one cell per column. *)
Definition rectangular (df : Frame) : Prop :=
  Forall (λ r, length r.2 = length (frame_columns df)) (frame_rows df).

(** Frames read with the default dtypes of pandas, without a dedicated string
    dtype: a series whose dtype is not [object] holds no string. *)
Definition strings_are_objects (series_dtype : series → string) : Prop :=
  ∀ s : series, series_dtype s ≠ "object" → Forall (λ c, is_str c = false) s.

(** The field that [extract_row_data] reads in a row for the column name
    [col]: nothing when no name is given, the name is empty or it is not a
    label; otherwise the cell under the label, in the row as [iterrows]
    hands it over. *)
Definition field_read (iterrows_row : list (option pyval) → list (option pyval))
    (labels : list pyval) (row : list (option pyval)) (col : option string)
    (v : option pyval) : Prop :=
  match col with
  | None => v = None
  | Some name =>
      (name = "" ∨ PStr name ∉ labels → v = None) ∧
      (name ≠ "" → ∀ j, labels !! j = Some (PStr name) →
                   v = default None (iterrows_row row !! j))
  end.

(** [l.endswith(a)] *)
Fixpoint endswith (a l : string) : bool :=
  String.eqb a l ||
  match l with
  | EmptyString => false
  | String _ r => endswith a r
  end.

(** ** The prompt builders ([csv_column_classifier.py]) *)

Module Prompts.

(** The double quote. *)
Definition dq : string := String (Ascii.ascii_of_nat 34) EmptyString.

(** An f-string: the concatenation of its literal pieces and of its
    interpolated values. *)
Definition fstring (pieces : list string) : string :=
  foldr String.append EmptyString pieces.

(** [sep.join(l)] *)
Fixpoint join (sep : string) (l : list string) : string :=
  match l with
  | [] => EmptyString
  | [x] => x
  | x :: rest => x +:+ sep +:+ join sep rest
  end.

(** [", ".join([f"'{x}'" for x in l])] *)
Definition quoted_list (l : list string) : string :=
  join ", " ((λ x, fstring ["'"; x; "'"]) <$> l).

Section Builders.

(** [json.dumps(sample_values, indent=2)] *)
Variable json_dumps : list string → string.

(** The builtin [str], by which an f-string renders a value. *)
Variable py_str : pyval → string.

(** [{value or 'N/A'}] in an f-string *)
Definition or_na (value : option pyval) : string :=
  if opt_truthy value then from_option py_str EmptyString value else "N/A".

Definition create_column_prompt (header dtype : string)
    (sample_values categories : list string) : string :=
  let categories_str := quoted_list categories in
  let samples_str := json_dumps sample_values in
  fstring
    [ "**TASK:** You are an expert data classification engine. Your task is to analyze a column's header and sampled data to assign it to one of the provided fixed categories.

**CONTEXT:**
1.  **FIXED CATEGORIES:** The only valid categories you can return are: ";
    categories_str;
    ". You MUST select one of these. Use 'OTHER' only if the column does not fit any other category.
2.  **DATA DOMAIN:** The data is related to governmental audits and compliance tracking.
3.  **CATEGORY DESCRIPTIONS:**
    - ticket_number: Unique identifier for the audit finding/ticket
    - title: Main title or name of the audit finding
    - description: Detailed description of the audit finding, is usually detailed long text describing the audit finding or observation
    - department: Department or organizational unit
    - priority: Priority, risk level, severity rating, or impact level (examples: low/medium/high/critical, or minor/moderate/major/severe, or 1-5 numeric scale)
    - status: Current status (open, in_progress, resolved, closed, pending, etc.)
    - due_date: Due date, deadline, or target date
    - assigned_to: Person or team assigned to handle the finding
    - created_at: Creation date/timestamp
    - OTHER: Anything that doesn't fit the above categories

**IMPORTANT INSTRUCTIONS:**
- Use SEMANTIC UNDERSTANDING: Recognize synonyms and similar concepts (e.g., 'Rating' can mean 'Priority', 'Moderate' equals 'Medium', 'Severity' equals 'Priority', 'Target Date' equals 'Due Date')
- Focus on the PATTERN and MEANING of the sampled values, not exact word matches
- Prioritize sample data content over header name when making classification decisions
- If sample values clearly indicate a category (e.g., low/high/moderate values indicate priority), classify accordingly even if the header name differs

**INPUT DATA:**
* Original Header: ";
    dq;
    header;
    dq;
    "
* Inferred Data Type: ";
    dq;
    dtype;
    dq;
    "
* Sampled Values: ";
    samples_str;
    "

**OUTPUT REQUIREMENTS (STRICT):**
1.  **Classification:** Select the SINGLE best-fit category based on semantic meaning.
2.  **Confidence Score:** Provide a score from 0.0 to 1.0 (float).
3.  **Format:** You MUST return the output as a single, valid JSON object with the keys 'category' and 'confidence'. DO NOT include any other text, explanation, or markdown formatting outside of the JSON block.

**EXAMPLE OUTPUT:**
{";
    dq;
    "category";
    dq;
    ": ";
    dq;
    "title";
    dq;
    ", ";
    dq;
    "confidence";
    dq;
    ": 0.95}
" ].

Definition create_department_prompt
    (department_value title description : option pyval)
    (departments : list string) : string :=
  let departments_str := quoted_list departments in
  let task_type :=
    if department_present py_str department_value then "normalize and map"
    else "infer from content" in
  let input_section :=
    if department_present py_str department_value then
      fstring
        [ "* Original Department Value: ";
        dq;
        from_option py_str EmptyString department_value;
        dq;
        "
* Audit Title: ";
        dq;
        or_na title;
        dq;
        "
* Audit Description: ";
        dq;
        or_na description;
        dq;
        "

**YOUR TASK:** Map the original department value to one of the fixed departments. If the original value clearly matches or is similar to one of the fixed departments, map it. Otherwise, use the title and description as context." ]
    else
      fstring
        [ "* Original Department Value: [EMPTY]
* Audit Title: ";
        dq;
        or_na title;
        dq;
        "
* Audit Description: ";
        dq;
        or_na description;
        dq;
        "

**YOUR TASK:** The department field is empty. Analyze the audit title and description to infer the most appropriate department from the fixed list." ] in
  fstring
    [ "**TASK:** You are an expert department classification engine. Your task is to ";
    task_type;
    " a department for audit findings.

**CONTEXT:**
1.  **FIXED DEPARTMENTS:** The only valid departments you can return are: ";
    departments_str;
    ". You MUST select one of these. Use 'OTHER' only if you cannot confidently determine the department.
2.  **DATA DOMAIN:** The data is related to governmental audits and compliance.
3.  **DEPARTMENT DESCRIPTIONS:**
    - IT: Information Technology, systems, software, infrastructure
    - Finance: Accounting, budgets, financial controls, procurement
    - HR: Human Resources, personnel, recruitment, training
    - Operations: Business operations, processes, logistics
    - Legal: Legal compliance, contracts, regulations
    - Compliance: Regulatory compliance, audit controls, risk management
    - Marketing: Marketing, communications, public relations
    - Sales: Sales, revenue, customer relations
    - OTHER: Cannot determine or doesn't fit above categories

**INPUT DATA:**
";
    input_section;
    "

**OUTPUT REQUIREMENTS (STRICT):**
1.  **Classification:** Select the SINGLE best-fit department.
2.  **Confidence Score:** Provide a score from 0.0 to 1.0 (float).
3.  **Format:** You MUST return the output as a single, valid JSON object with the keys 'department' and 'confidence'. DO NOT include any other text, explanation, or markdown formatting outside of the JSON block.

**EXAMPLE OUTPUT:**
{";
    dq;
    "department";
    dq;
    ": ";
    dq;
    "IT";
    dq;
    ", ";
    dq;
    "confidence";
    dq;
    ": 0.88}
" ].

End Builders.

End Prompts.

(** ** Instances used in the examples *)

(** A rendering that agrees with Python's [str] on [None], booleans,
    integers, strings and non-negative floats with one decimal digit. *)
Definition demo_str (v : pyval) : string :=
  match v with
  | PNone => "None"
  | PBool b => if b then "True" else "False"
  | PInt z => pretty z
  | PFloat q =>
      match Qden q with
      | 10%positive =>
          pretty (Qnum q `div` 10)%Z +:+ "." +:+ pretty (Qnum q `mod` 10)%Z
      | _ => "<float>"
      end
  | PStr s => s
  | PList _ => "<list>"
  | PDict _ => "<dict>"
  end.

Definition demo_dtype (s : series) : string := "object".

(** A draw that takes the last [n] values. *)
Definition demo_sample (l : list pyval) (n : nat) : list pyval :=
  drop (length l - n) l.

Definition demo_column_prompt (header dtype : string)
    (sample_values categories : list string) : string :=
  "column:" +:+ header.

Definition demo_department_prompt (department_value title description :
    option pyval) (departments : list string) : string :=
  "department:" +:+ from_option demo_str "[EMPTY]" department_value.

(** What [json.loads] makes of the reply texts of the examples.  A reply is
    given by a name, which stands for the text:
    - confident-unknown-label: {"category": "severity", "confidence": 0.9}
    - unsure-title: {"category": "title", "confidence": 0.3}
    - confident-title: {"category": "title", "confidence": 0.9}
    - unsure-finance: {"department": "Finance", "confidence": 0.3}
    - confident-finance: {"department": "Finance", "confidence": 0.9}
    - array-of-key-names: ["category", "confidence"]
    - array-of-department-key-names: ["department", "confidence"]
    - no-confidence: {"category": "title"}
    Any other text is not JSON. *)
Definition demo_loads (content : string) : option pyval :=
  if String.eqb content "confident-unknown-label" then
    Some (PDict {[ "category" := PStr "severity"; "confidence" := PFloat 0.9 ]})
  else if String.eqb content "unsure-title" then
    Some (PDict {[ "category" := PStr "title"; "confidence" := PFloat 0.3 ]})
  else if String.eqb content "confident-title" then
    Some (PDict {[ "category" := PStr "title"; "confidence" := PFloat 0.9 ]})
  else if String.eqb content "unsure-finance" then
    Some (PDict {[ "department" := PStr "Finance"; "confidence" := PFloat 0.3 ]})
  else if String.eqb content "confident-finance" then
    Some (PDict {[ "department" := PStr "Finance"; "confidence" := PFloat 0.9 ]})
  else if String.eqb content "array-of-key-names" then
    Some (PList [PStr "category"; PStr "confidence"])
  else if String.eqb content "array-of-department-key-names" then
    Some (PList [PStr "department"; PStr "confidence"])
  else if String.eqb content "no-confidence" then
    Some (PDict {[ "category" := PStr "title" ]})
  else None.

(** A model that always answers with the same text. *)
Definition demo_chat (content : string) (w : list string) (prompt : string) :
    option string := Some content.

(** A model that cannot be reached. *)
Definition demo_chat_down (w : list string) (prompt : string) : option string :=
  None.

(** What [json.loads] makes of a reply that carries a key of its own beside
    the two expected ones:
    {"category": "title", "confidence": 0.9, "reason": "header says title"} *)
Definition demo_loads_reason (content : string) : option pyval :=
  Some (PDict {[ "category" := PStr "title"; "confidence" := PFloat 0.9;
                 "reason" := PStr "header says title" ]}).

(** ** Vocabulary of the statements *)

(** The dictionary left by the low-confidence branch of the gate, from the
    dictionary [d] that entered it: [label_key] is ["category"] in
    [process_column] and ["suggested"] in [process_department]. *)
Definition low_confidence (py_str : pyval → string) (label_key : string)
    (confidence : pyval) (d : gmap string pyval) : gmap string pyval :=
  <["reason" := PStr ("Low confidence (" +:+ py_str confidence +:+ ")")]>
    (<["needs_manual_review" := PBool true]>
       (<[label_key := PStr "OTHER"]> d)).

(** The dictionary of [process_department] when it reaches the gate: the
    payload [d] of the client with the four metadata entries. *)
Definition department_metadata (py_str : pyval → string) (row_index : Z)
    (department_value : option pyval) (department : pyval)
    (d : gmap string pyval) : gmap string pyval :=
  <["source" := PStr (if department_present py_str department_value
                      then "normalized" else "inferred_from_content")]>
    (<["suggested" := department]>
       (<["original" := if opt_truthy department_value
                        then default (PStr "") department_value else PStr ""]>
          (<["row" := PInt row_index]> d))).

(** The original department value is there and its text is not blank. *)
Definition trimmed_nonempty (py_str : pyval → string)
    (department_value : option pyval) : Prop :=
  ∃ x, department_value = Some x ∧ PyStr.strip (py_str x) ≠ "".

(** A department value as the annotation of [process_department] has it: a
    string or nothing. *)
Definition optional_str (department_value : option pyval) : Prop :=
  department_value = None ∨ ∃ s, department_value = Some (PStr s).

(** A label of the column taxonomy. *)
Definition in_column_taxonomy (v : pyval) : Prop :=
  ∃ s, v = PStr s ∧ s ∈ COLUMN_CATEGORIES.

(** A payload that holds both expected keys: a JSON object with an entry for
    the label and one for the confidence. *)
Definition has_expected_keys (label_key : string) (v : pyval) : Prop :=
  ∃ d, v = PDict d ∧ is_Some (d !! label_key) ∧ is_Some (d !! "confidence").

(** A classification as [main] stores it: a dictionary with a hashable
    category and an original name. *)
Definition well_classified (classification : pyval) : Prop :=
  ∃ d category original_name,
    classification = PDict d ∧
    d !! "category" = Some category ∧
    py_hashable category = true ∧
    d !! "original_name" = Some original_name.

(** The original name of the last classification of the list whose category
    is the string [label]. *)
Fixpoint last_original_name (label : string) (column_classifications : list pyval) :
    option pyval :=
  match column_classifications with
  | [] => None
  | classification :: rest =>
      match last_original_name label rest with
      | Some original_name => Some original_name
      | None =>
          match py_getitem classification "category",
                py_getitem classification "original_name" with
          | inr (PStr l), inr original_name =>
              if String.eqb l label then Some original_name else None
          | _, _ => None
          end
      end
  end.

(** The number of distinct strings among the stringified values. *)
Definition distinct_strings (py_str : pyval → string) (values : list pyval) : nat :=
  size (list_to_set (py_str <$> values) : gset string).

(** A column of eleven values, the first five alike. *)
Definition repeated_head_column : list pyval :=
  PStr <$> ["a"; "a"; "a"; "a"; "a"; "b"; "c"; "d"; "e"; "f"; "g"].

(** A sheet of numbers, as read without a header. *)
Definition numeric_sheet : DataFrame :=
  mkDataFrame (range_index 2)
    [ [Some (PInt 1); Some (PInt 2)]; [Some (PInt 3); Some (PInt 4)] ].

(** A sheet whose first row holds two blank strings and a number. *)
Definition blank_header_sheet : DataFrame :=
  mkDataFrame (range_index 3)
    [ [Some (PStr " "); Some (PStr " "); Some (PInt 7)];
      [Some (PInt 3); Some (PInt 4); Some (PInt 5)] ].

(** A header cell that is replaced by a synthesized name: missing, not a
    string, or a blank string. *)
Definition blank_or_not_string (val : option pyval) : Prop :=
  ∀ s, val = Some (PStr s) → PyStr.strip s = "".

(** ** Instances used in the further examples *)

(** The columns of an audit sheet, classified. *)
Definition demo_classifications : list pyval :=
  [ PDict {[ "category" := PStr "title"; "confidence" := PFloat 0.9;
             "needs_manual_review" := PBool false;
             "original_name" := PStr "Summary" ]};
    PDict {[ "category" := PStr "OTHER"; "confidence" := PFloat 0.3;
             "needs_manual_review" := PBool true;
             "reason" := PStr "Low confidence (0.3)";
             "original_name" := PStr "Notes" ]};
    PDict {[ "category" := PStr "title"; "confidence" := PFloat 0.9;
             "needs_manual_review" := PBool false;
             "original_name" := PStr "Headline" ]} ].

(** Two columns of a cleaned sheet, the second one empty. *)
Definition demo_columns : list (string * series) :=
  [ ("Summary", [Some (PStr "Server down"); Some (PStr "Budget review")]);
    ("Notes", [None; None]) ].

(** Three rows, as step 5 takes them. *)
Definition demo_rows : list row_data :=
  [ mkRowData 0 (Some (PStr "Budget review")) None (Some (PStr "finance dept"));
    mkRowData 1 (Some (PStr "Ledger audit")) None None;
    mkRowData 2 None (Some (PStr "Invoices unpaid")) (Some (PInt 0)) ].

(** An audit sheet as read from a file: padded labels and cells, a label
    that is a number, and a row without any value.  The columns of numbers
    hold floats, as a column of numbers with a missing cell does. *)
Definition demo_frame : Frame :=
  mkFrame [PStr " Issue ID"; PStr "Summary "; PStr "Dept"; PInt 2024]
    [ (0%Z, [Some (PFloat 1.0); Some (PStr " Server down "); Some (PStr "IT");
             Some (PFloat 3.0)]);
      (1%Z, [None; None; None; None]);
      (2%Z, [Some (PFloat 2.0); Some (PStr "Budget review"); None; None]) ].

(** The same sheet, cleaned. *)
Definition demo_clean_frame : Frame :=
  mkFrame [PStr "Issue ID"; PStr "Summary"; PStr "Dept"; PStr "2024"]
    [ (0%Z, [Some (PFloat 1.0); Some (PStr "Server down"); Some (PStr "IT");
             Some (PFloat 3.0)]);
      (2%Z, [Some (PFloat 2.0); Some (PStr "Budget review"); None; None]) ].


(** The dtype of a series: [object] when it holds a string. *)
Definition demo_series_dtype (s : series) : string :=
  if existsb is_str s then "object" else "float64".

(** The inference on series of strings, integers and missing cells: a
    series with a string is left as it is, and so is a series of integers;
    integers beside a missing cell come back as floats. *)
Definition demo_apply_result (s : series) : series :=
  if existsb is_str s then s
  else if existsb (λ c, bool_decide (c = None)) s then
    (λ c, match c with
          | Some (PInt z) => Some (PFloat (inject_Z z))
          | _ => c
          end) <$> s
  else s.

(** The labels of a frame without columns are a [RangeIndex]. *)
Definition demo_empty_index_str (df : Frame) : bool := false.

(** The number of distinct values, counted on their renderings. *)
Definition demo_nunique (s : series) : nat :=
  distinct_strings demo_str (dropna s).

(** Rows that [iterrows] hands over unchanged. *)
Definition demo_iterrows (row : list (option pyval)) : list (option pyval) :=
  row.

Definition demo_memory_mb (df : Frame) : Q := 0.01%Q.

(** A CSV file that only decodes as latin-1. *)
Definition demo_read_csv (file_path enc : string) : csv_read :=
  if String.eqb enc "latin-1" then
    CsvFrame (mkDataFrame [PStr "Issue ID"] [[Some (PInt 1)]])
  else CsvUnicodeDecodeError.

(** A sheet that holds the header row and one finding. *)
Definition demo_sheet : DataFrame :=
  mkDataFrame (range_index 2)
    [ [None; None];
      [Some (PStr " Issue ID"); Some (PStr "Summary")];
      [Some (PInt 1); Some (PStr "Server down")] ].

(** A sheet without any value. *)
Definition demo_empty_sheet : DataFrame :=
  mkDataFrame (range_index 2) [ [None; None] ].

(** [json.dumps] without the indentation. *)
Definition demo_dumps (l : list string) : string :=
  "[" +:+ Prompts.join ", " l +:+ "]".

(** * Properties *)

#[local] Open Scope nat_scope.

(** ** Strings and numbers *)

Lemma truthy_true (s : string) : PyStr.truthy s = true ↔ s ≠ "".
Proof. destruct s; simpl; split; congruence. Qed.

(** The test on the department value: the value is true and its text is
    not blank. *)
Lemma department_present_spec (py_str : pyval → string)
    (department_value : option pyval) :
  department_present py_str department_value = true
  ↔ opt_truthy department_value = true ∧
    trimmed_nonempty py_str department_value.
Proof.
  unfold department_present, trimmed_nonempty.
  destruct department_value as [x|]; simpl.
  - rewrite andb_true_iff, truthy_true. split.
    + intros [Hx Hs]. eauto.
    + by intros (Hx & x' & [= <-] & Hs).
  - split; [done|]. by intros [? _].
Qed.

(** For a string or nothing, the test is on the trimmed text alone. *)
Lemma department_present_str (py_str : pyval → string)
    (department_value : option pyval) :
  (∀ s, py_str (PStr s) = s) →
  optional_str department_value →
  department_present py_str department_value = true
  ↔ trimmed_nonempty py_str department_value.
Proof.
  intros Hstr Hvalue. rewrite department_present_spec.
  split; [by intros [_ ?]|]. intros Htrim. split; [|done].
  destruct Htrim as (x & -> & Hx).
  destruct Hvalue as [? | [s [= ->]]]; [done|]. simpl.
  apply truthy_true. intros ->. by rewrite Hstr in Hx.
Qed.

Lemma Qltb_lt (x y : Q) : Qltb x y = true ↔ (x < y)%Q.
Proof.
  unfold Qltb. rewrite negb_true_iff, <- not_true_iff_false, Qle_bool_iff.
  split; [apply Qnot_le_lt | apply Qlt_not_le].
Qed.

Lemma Qltb_ge (x y : Q) : Qltb x y = false ↔ (y <= x)%Q.
Proof. unfold Qltb. by rewrite negb_false_iff, Qle_bool_iff. Qed.

Lemma py_lt_number (v : pyval) (t : Q) (b : bool) :
  py_lt v t = inr b → ∃ q, py_number v = Some q ∧ b = Qltb q t.
Proof.
  unfold py_lt. destruct (py_number v) as [q|]; [|done].
  intros [= <-]. eauto.
Qed.

Lemma py_getitem_dict (v x : pyval) (k : string) :
  py_getitem v k = inr x → ∃ d, v = PDict d ∧ d !! k = Some x.
Proof.
  destruct v as [| | | | | |d]; try done. simpl.
  destruct (d !! k) as [y|] eqn:Hk; [|done]. intros [= <-]. eauto.
Qed.

(** ** The client *)

Ltac run_client :=
  unfold classify_column, classify_department, try_except, chat, loads, lift,
    raise, mbind, M_bind, mret, M_ret.

Ltac run_process :=
  unfold process_column, process_department, lift, mbind, M_bind, mret, M_ret.

(** Reading a key through assignments to other keys. *)
Ltac skip_inserts :=
  repeat (rewrite (lookup_insert_ne (M:=gmap string)) by done).

Section Facts.

Context (ollama_chat : list string → string → option string)
        (json_loads : string → option pyval)
        (py_str : pyval → string)
        (series_dtype : series → string)
        (series_sample : list pyval → nat → list pyval)
        (set_iter : gset string → list string)
        (create_column_prompt :
           string → string → list string → list string → string)
        (create_department_prompt :
           option pyval → option pyval → option pyval → list string →
           string).

#[local] Abbreviation classify_column_ :=
  (classify_column ollama_chat json_loads).
#[local] Abbreviation classify_department_ :=
  (classify_department ollama_chat json_loads).
#[local] Abbreviation process_column_ :=
  (process_column ollama_chat json_loads py_str series_dtype series_sample
     set_iter create_column_prompt).
#[local] Abbreviation process_department_ :=
  (process_department ollama_chat json_loads py_str create_department_prompt).
#[local] Abbreviation column_prompt df_column column_name categories :=
  (create_column_prompt column_name (series_dtype df_column)
     (column_samples py_str series_sample set_iter (dropna df_column))
     categories).

(** The label key and the fallback payload of the two entry points. *)
#[local] Abbreviation fallback label_key :=
  (PDict {[ label_key := PStr "OTHER"; "confidence" := PFloat 0.0 ]}).

(** Both entry points return a value and log the prompt, whatever the
    transport and the parser do. *)
Lemma classify_column_returns (prompt : string) (w : list string) :
  ∃ v, classify_column_ prompt w = (inr v, w ++ [prompt]).
Proof.
  run_client.
  destruct (ollama_chat w prompt) as [content|]; [|eauto].
  destruct (json_loads content) as [result|]; simpl; [|eauto].
  destruct (py_in "category" result) as [?|[]]; simpl; eauto.
  destruct (py_in "confidence" result) as [?|[]]; simpl; eauto.
Qed.

Lemma classify_department_returns (prompt : string) (w : list string) :
  ∃ v, classify_department_ prompt w = (inr v, w ++ [prompt]).
Proof.
  run_client.
  destruct (ollama_chat w prompt) as [content|]; [|eauto].
  destruct (json_loads content) as [result|]; simpl; [|eauto].
  destruct (py_in "department" result) as [?|[]]; simpl; eauto.
  destruct (py_in "confidence" result) as [?|[]]; simpl; eauto.
Qed.

(** A transport failure yields the fallback payload. *)
Lemma classify_column_transport_failure (prompt : string) (w : list string) :
  ollama_chat w prompt = None →
  classify_column_ prompt w = (inr (fallback "category"), w ++ [prompt]).
Proof. intros H. run_client. by rewrite H. Qed.

(** A reply that is not JSON yields the fallback payload. *)
Lemma classify_column_malformed (prompt content : string) (w : list string) :
  ollama_chat w prompt = Some content →
  json_loads content = None →
  classify_column_ prompt w = (inr (fallback "category"), w ++ [prompt]).
Proof. intros H1 H2. run_client. by rewrite H1, H2. Qed.

(** A JSON object that lacks one of the two keys yields the fallback
    payload. *)
Lemma classify_column_missing_key (prompt content : string) (w : list string)
    (d : gmap string pyval) :
  ollama_chat w prompt = Some content →
  json_loads content = Some (PDict d) →
  d !! "category" = None ∨ d !! "confidence" = None →
  classify_column_ prompt w = (inr (fallback "category"), w ++ [prompt]).
Proof.
  intros H1 H2 Hk. run_client. rewrite H1, H2. simpl.
  destruct (d !! "category") as [x|] eqn:Hcat; simpl; [|done].
  destruct Hk as [?|Hk]; [done|]. by rewrite Hk.
Qed.

(** A JSON object with both keys is returned as it is. *)
Lemma classify_column_object (prompt content : string) (w : list string)
    (d : gmap string pyval) :
  ollama_chat w prompt = Some content →
  json_loads content = Some (PDict d) →
  is_Some (d !! "category") → is_Some (d !! "confidence") →
  classify_column_ prompt w = (inr (PDict d), w ++ [prompt]).
Proof.
  intros H1 H2 [x Hx] [y Hy]. run_client. rewrite H1, H2. simpl.
  by rewrite Hx, Hy.
Qed.

(** A dictionary that comes out of the client holds both keys. *)
Lemma classify_column_dict (prompt : string) (w w' : list string)
    (d : gmap string pyval) :
  classify_column_ prompt w = (inr (PDict d), w') →
  has_expected_keys "category" (PDict d).
Proof.
  unfold has_expected_keys. run_client.
  destruct (ollama_chat w prompt) as [content|];
    [|intros [= <- _]; eexists; split_and!; by eauto].
  destruct (json_loads content) as [result|]; simpl;
    [|intros [= <- _]; eexists; split_and!; by eauto].
  destruct (py_in "category" result) as [?|[]] eqn:Hcat; simpl;
    try (intros [= <- _]; eexists; split_and!; by eauto).
  destruct (py_in "confidence" result) as [?|[]] eqn:Hconf; simpl;
    try (intros [= <- _]; eexists; split_and!; by eauto).
  intros [= -> _]. simpl in *.
  injection Hcat as Hcat. injection Hconf as Hconf.
  apply bool_decide_eq_true in Hcat, Hconf. eauto.
Qed.

Lemma classify_department_dict (prompt : string) (w w' : list string)
    (d : gmap string pyval) :
  classify_department_ prompt w = (inr (PDict d), w') →
  has_expected_keys "department" (PDict d).
Proof.
  unfold has_expected_keys. run_client.
  destruct (ollama_chat w prompt) as [content|];
    [|intros [= <- _]; eexists; split_and!; by eauto].
  destruct (json_loads content) as [result|]; simpl;
    [|intros [= <- _]; eexists; split_and!; by eauto].
  destruct (py_in "department" result) as [?|[]] eqn:Hcat; simpl;
    try (intros [= <- _]; eexists; split_and!; by eauto).
  destruct (py_in "confidence" result) as [?|[]] eqn:Hconf; simpl;
    try (intros [= <- _]; eexists; split_and!; by eauto).
  intros [= -> _]. simpl in *.
  injection Hcat as Hcat. injection Hconf as Hconf.
  apply bool_decide_eq_true in Hcat, Hconf. eauto.
Qed.

(** ** The processing functions *)

(** What [process_column] returns on a column with values, from the payload
    of the client. *)
Lemma process_column_gate (df_column : series) (column_name : string)
    (categories : list string) (w w' : list string) (d : gmap string pyval)
    (c : pyval) (q : Q) :
  dropna df_column ≠ [] →
  classify_column_ (column_prompt df_column column_name categories) w
    = (inr (PDict d), w') →
  d !! "confidence" = Some c →
  py_number c = Some q →
  process_column_ df_column column_name categories w
    = (inr (PDict (if Qltb q CONFIDENCE_THRESHOLD
                   then low_confidence py_str "category" c d
                   else <["needs_manual_review" := PBool false]> d)), w').
Proof.
  intros Hne Hcall Hc Hq. run_process.
  destruct (decide _) as [Hlen|_].
  { destruct (dropna df_column); [done | discriminate Hlen]. }
  rewrite Hcall. simpl. rewrite Hc. unfold py_lt. rewrite Hq.
  destruct (Qltb q CONFIDENCE_THRESHOLD); simpl; [|done].
  skip_inserts. by rewrite Hc.
Qed.

(** Every result of [process_column] on a column with values comes from
    such a payload. *)
Lemma process_column_inv (df_column : series) (column_name : string)
    (categories : list string) (w w' : list string) (r : pyval) :
  dropna df_column ≠ [] →
  process_column_ df_column column_name categories w = (inr r, w') →
  ∃ d c q,
    classify_column_ (column_prompt df_column column_name categories) w
      = (inr (PDict d), w') ∧
    d !! "confidence" = Some c ∧ py_number c = Some q.
Proof.
  intros Hne. run_process.
  destruct (decide _) as [Hlen|_].
  { destruct (dropna df_column); [done | discriminate Hlen]. }
  destruct (classify_column_ _ w) as [[e|result] w1]; [done|].
  simpl.
  destruct (py_getitem result "confidence") as [e|c] eqn:Hget; [done|].
  apply py_getitem_dict in Hget as (d & -> & Hc).
  destruct (py_lt c CONFIDENCE_THRESHOLD) as [e|b] eqn:Hlt; [done|].
  apply py_lt_number in Hlt as (q & Hq & ->).
  destruct (Qltb q CONFIDENCE_THRESHOLD); simpl.
  - skip_inserts. rewrite Hc.
    intros [= _ <-]. by exists d, c, q.
  - intros [= _ <-]. by exists d, c, q.
Qed.

(** What [process_department] returns, from the payload of the client. *)
Lemma process_department_gate (row_index : Z)
    (department_value title description : option pyval)
    (departments : list string) (w w' : list string) (d : gmap string pyval)
    (department c : pyval) (q : Q) :
  classify_department_
    (create_department_prompt department_value title description departments) w
    = (inr (PDict d), w') →
  d !! "department" = Some department →
  d !! "confidence" = Some c →
  py_number c = Some q →
  process_department_ row_index department_value title description departments w
    = (inr (PDict
         (let r := department_metadata py_str row_index department_value
                     department d in
          if Qltb q CONFIDENCE_THRESHOLD
          then low_confidence py_str "suggested" c r
          else <["needs_manual_review" := PBool false]> r)), w').
Proof.
  intros Hcall Hdep Hc Hq. run_process. rewrite Hcall. simpl.
  skip_inserts. rewrite Hdep. simpl.
  skip_inserts. rewrite Hc. simpl.
  unfold py_lt. rewrite Hq.
  by destruct (Qltb q CONFIDENCE_THRESHOLD).
Qed.

(** Every result of [process_department] comes from such a payload. *)
Lemma process_department_inv (row_index : Z)
    (department_value title description : option pyval)
    (departments : list string) (w w' : list string) (r : pyval) :
  process_department_ row_index department_value title description departments w
    = (inr r, w') →
  ∃ d department c q,
    classify_department_
      (create_department_prompt department_value title description departments)
      w = (inr (PDict d), w') ∧
    d !! "department" = Some department ∧
    d !! "confidence" = Some c ∧ py_number c = Some q.
Proof.
  run_process.
  destruct (classify_department_ _ w) as [[e|result] w1]; [done|].
  simpl.
  destruct result as [| | | | | |d]; try done. simpl.
  skip_inserts.
  destruct (d !! "department") as [department|] eqn:Hdep; [|done]. simpl.
  skip_inserts.
  destruct (d !! "confidence") as [c|] eqn:Hc; [|done]. simpl.
  destruct (py_lt c CONFIDENCE_THRESHOLD) as [e|b] eqn:Hlt; [done|].
  apply py_lt_number in Hlt as (q & Hq & ->).
  destruct (Qltb q CONFIDENCE_THRESHOLD); simpl.
  - intros [= _ <-]. by exists d, department, c, q.
  - intros [= _ <-]. by exists d, department, c, q.
Qed.

(** The source written before the gate is the source of the result. *)
Lemma gate_source_entry (row_index : Z) (department_value : option pyval)
    (department c : pyval) (q : Q) (d : gmap string pyval) :
  (if Qltb q CONFIDENCE_THRESHOLD
   then low_confidence py_str "suggested" c
          (department_metadata py_str row_index department_value department d)
   else <["needs_manual_review" := PBool false]>
          (department_metadata py_str row_index department_value department d))
    !! "source"
  = Some (PStr (if department_present py_str department_value
                then "normalized" else "inferred_from_content")).
Proof.
  unfold department_metadata, low_confidence.
  by destruct (Qltb q CONFIDENCE_THRESHOLD); simplify_map_eq.
Qed.

(** ** The confidence gate *)

(** C1, as amended.  On a payload of the client whose confidence is a
    number [q]: when [q] is strictly below 0.6 the category (for a
    department: the suggested department) of the result is "OTHER",
    needs_manual_review is true and the reason is "Low confidence
    (<value>)"; when [q] is at least 0.6 the category (the suggested
    department) is the label of the payload, needs_manual_review is false
    and the gate writes no reason: the entry under "reason" is the one of
    the payload, absent when the payload has none and present when the
    reply carried one. *)
Theorem confidence_gate_results :
  (∀ (df_column : series) (column_name : string) (categories : list string)
     (w w' : list string) (d : gmap string pyval) (label c : pyval) (q : Q),
     dropna df_column ≠ [] →
     classify_column_ (column_prompt df_column column_name categories) w
       = (inr (PDict d), w') →
     d !! "category" = Some label →
     d !! "confidence" = Some c →
     py_number c = Some q →
     ∃ r, process_column_ df_column column_name categories w
            = (inr (PDict r), w') ∧
       ((q < CONFIDENCE_THRESHOLD)%Q →
          r !! "category" = Some (PStr "OTHER") ∧
          r !! "needs_manual_review" = Some (PBool true) ∧
          r !! "reason"
            = Some (PStr ("Low confidence (" +:+ py_str c +:+ ")"))) ∧
       ((CONFIDENCE_THRESHOLD <= q)%Q →
          r !! "category" = Some label ∧
          r !! "needs_manual_review" = Some (PBool false) ∧
          r !! "reason" = d !! "reason"))
  ∧
  (∀ (row_index : Z) (department_value title description : option pyval)
     (departments : list string) (w w' : list string) (d : gmap string pyval)
     (label c : pyval) (q : Q),
     classify_department_
       (create_department_prompt department_value title description departments)
       w = (inr (PDict d), w') →
     d !! "department" = Some label →
     d !! "confidence" = Some c →
     py_number c = Some q →
     ∃ r, process_department_ row_index department_value title description
            departments w = (inr (PDict r), w') ∧
       ((q < CONFIDENCE_THRESHOLD)%Q →
          r !! "suggested" = Some (PStr "OTHER") ∧
          r !! "needs_manual_review" = Some (PBool true) ∧
          r !! "reason"
            = Some (PStr ("Low confidence (" +:+ py_str c +:+ ")"))) ∧
       ((CONFIDENCE_THRESHOLD <= q)%Q →
          r !! "suggested" = Some label ∧
          r !! "needs_manual_review" = Some (PBool false) ∧
          r !! "reason" = d !! "reason")).
Proof.
  split.
  - intros * Hne Hcall Hlabel Hc Hq. eexists. split.
    { by eapply process_column_gate. }
    split.
    + intros Hlt%Qltb_lt. rewrite Hlt. unfold low_confidence.
      by simplify_map_eq.
    + intros Hge%Qltb_ge. rewrite Hge. by simplify_map_eq.
  - intros * Hcall Hlabel Hc Hq. eexists. split.
    { by eapply process_department_gate. }
    unfold department_metadata. split.
    + intros Hlt%Qltb_lt. simpl. rewrite Hlt. unfold low_confidence.
      by simplify_map_eq.
    + intros Hge%Qltb_ge. simpl. rewrite Hge. by simplify_map_eq.
Qed.

(** C3.  A column without any non-missing value gets exactly the result
    {category: "OTHER", confidence: 0.0, needs_manual_review: true,
    reason: "Column is empty"}, and the log of prompts sent to the model is
    left as it was: no call is made. *)
Theorem empty_column_result (df_column : series) (column_name : string)
    (categories : list string) (w : list string) :
  dropna df_column = [] →
  process_column_ df_column column_name categories w
    = (inr (PDict {[ "category" := PStr "OTHER";
                     "confidence" := PFloat 0.0;
                     "needs_manual_review" := PBool true;
                     "reason" := PStr "Column is empty" ]}), w).
Proof. intros Hempty. run_process. by rewrite Hempty. Qed.

(** C4, as amended.  In every result of [process_department] the source is
    "normalized" exactly when the department value is true and its text is
    not blank once trimmed; it is "inferred_from_content" otherwise.  For a
    value that is a string or nothing, as the function is annotated, the
    source is "normalized" exactly when the value is there and is not blank
    once trimmed.  A value that is false, such as the number 0, counts as
    absent whatever its text. *)
Theorem department_source (row_index : Z)
    (department_value title description : option pyval)
    (departments : list string) (w w' : list string) (r : pyval) :
  process_department_ row_index department_value title description departments w
    = (inr r, w') →
  ∃ d, r = PDict d ∧
    (d !! "source" = Some (PStr "normalized")
       ↔ opt_truthy department_value = true ∧
         trimmed_nonempty py_str department_value) ∧
    (¬ (opt_truthy department_value = true ∧
        trimmed_nonempty py_str department_value) →
       d !! "source" = Some (PStr "inferred_from_content")) ∧
    ((∀ s, py_str (PStr s) = s) →
     optional_str department_value →
       (d !! "source" = Some (PStr "normalized")
          ↔ trimmed_nonempty py_str department_value)).
Proof.
  intros Hrun.
  destruct (process_department_inv _ _ _ _ _ _ _ _ Hrun)
    as (d & department & c & q & Hcall & Hdep & Hc & Hq).
  rewrite (process_department_gate _ _ _ _ _ _ _ _ _ _ _ Hcall Hdep Hc Hq)
    in Hrun.
  injection Hrun as <-. eexists. split; [done|].
  cbv zeta. rewrite gate_source_entry.
  split_and!.
  - rewrite <- department_present_spec.
    by destruct (department_present py_str department_value).
  - rewrite <- department_present_spec.
    by destruct (department_present py_str department_value).
  - intros Hstr Hvalue. rewrite <- (department_present_str _ _ Hstr Hvalue).
    by destruct (department_present py_str department_value).
Qed.

(** C9, as amended.  The category of a column result lies in the taxonomy
    exactly when the confidence of the client's payload is strictly below
    0.6 (the category is then "OTHER") or the label of the payload itself
    lies in the taxonomy: at a confidence of at least 0.6 the label is
    carried over without any check.  For a column without values the
    category is "OTHER". *)
Theorem column_category_taxonomy (df_column : series) (column_name : string)
    (categories : list string) (w : list string) :
  (dropna df_column = [] →
   ∃ r category,
     process_column_ df_column column_name categories w = (inr (PDict r), w) ∧
     r !! "category" = Some category ∧ in_column_taxonomy category)
  ∧
  (∀ (w' : list string) (d : gmap string pyval) (label c : pyval) (q : Q),
     dropna df_column ≠ [] →
     classify_column_ (column_prompt df_column column_name categories) w
       = (inr (PDict d), w') →
     d !! "category" = Some label →
     d !! "confidence" = Some c →
     py_number c = Some q →
     ∃ r category,
       process_column_ df_column column_name categories w
         = (inr (PDict r), w') ∧
       r !! "category" = Some category ∧
       (in_column_taxonomy category
          ↔ (q < CONFIDENCE_THRESHOLD)%Q ∨ in_column_taxonomy label)).
Proof.
  clear create_department_prompt.
  assert (Hother : in_column_taxonomy (PStr "OTHER")).
  { exists "OTHER". split; [done|]. unfold COLUMN_CATEGORIES. set_solver. }
  split.
  - intros Hempty. eexists _, _. split.
    { run_process. by rewrite Hempty. }
    by simplify_map_eq.
  - intros * Hne Hcall Hlabel Hc Hq.
    rewrite (process_column_gate _ _ _ _ _ _ _ _ Hne Hcall Hc Hq).
    destruct (Qltb q CONFIDENCE_THRESHOLD) eqn:Hlt.
    + eexists _, _. split; [done|]. unfold low_confidence.
      split; [by simplify_map_eq|].
      apply Qltb_lt in Hlt. tauto.
    + eexists _, _. split; [done|]. split; [by simplify_map_eq|].
      apply Qltb_ge in Hlt. split; [tauto|].
      intros [Hlt'|?]; [|done].
      by apply Qlt_not_le in Hlt'.
Qed.

(** C10.  When a department result is downgraded for a low confidence, the
    gate changes the entries "suggested", "needs_manual_review" and "reason"
    and no other: every other key reads as in the dictionary that entered
    the gate.  The "department" and "confidence" entries are those of the
    client's payload, next to a "suggested" entry equal to "OTHER". *)
Theorem department_downgrade_frame (row_index : Z)
    (department_value title description : option pyval)
    (departments : list string) (w w' : list string) (d : gmap string pyval)
    (department c : pyval) (q : Q) :
  classify_department_
    (create_department_prompt department_value title description departments) w
    = (inr (PDict d), w') →
  d !! "department" = Some department →
  d !! "confidence" = Some c →
  py_number c = Some q →
  (q < CONFIDENCE_THRESHOLD)%Q →
  ∃ r,
    process_department_ row_index department_value title description
      departments w = (inr (PDict r), w') ∧
    r !! "department" = Some department ∧
    r !! "confidence" = Some c ∧
    r !! "suggested" = Some (PStr "OTHER") ∧
    ∀ k : string,
      k ∉ ["suggested"; "needs_manual_review"; "reason"] →
      r !! k
      = department_metadata py_str row_index department_value department d
          !! k.
Proof.
  intros Hcall Hdep Hc Hq Hlt%Qltb_lt. eexists. split.
  { by eapply process_department_gate. }
  simpl. rewrite Hlt. unfold low_confidence, department_metadata.
  split_and!; try by simplify_map_eq.
  intros k Hk. rewrite !not_elem_of_cons in Hk.
  destruct Hk as (? & ? & ? & _).
  by rewrite !(lookup_insert_ne (M:=gmap string)) by done.
Qed.

(** ** The classifications that [main] collects *)

(** Every classification collected by step 3 of [main] is a dictionary with
    a category and the original name of its column. *)
Lemma classify_columns_entries (df_clean : list (string * series))
    (w w' : list string) (column_classifications : list pyval) :
  classify_columns ollama_chat json_loads py_str series_dtype series_sample
    set_iter create_column_prompt df_clean w
    = (inr column_classifications, w') →
  Forall (λ classification,
            ∃ d category original_name,
              classification = PDict d ∧
              d !! "category" = Some category ∧
              d !! "original_name" = Some (PStr original_name))
         column_classifications.
Proof.
  revert w w' column_classifications.
  induction df_clean as [|[col_name df_column] rest IH];
    intros w w' cls; simpl.
  - intros [= <- _]. constructor.
  - unfold mbind, M_bind, lift, mret, M_ret.
    destruct (process_column_ df_column col_name COLUMN_CATEGORIES w)
      as [[e|result] w1] eqn:Hrun; [done|].
    assert (Hresult : ∃ d category,
              result = PDict d ∧ d !! "category" = Some category).
    { destruct (decide (dropna df_column = [])) as [Hempty|Hne].
      - revert Hrun. run_process. rewrite Hempty. simpl.
        intros [= <- _]. eexists _, _. split; [done|]. by simplify_map_eq.
      - destruct (process_column_inv _ _ _ _ _ _ Hne Hrun)
          as (d & c & q & Hcall & Hc & Hq).
        rewrite (process_column_gate _ _ _ _ _ _ _ _ Hne Hcall Hc Hq) in Hrun.
        injection Hrun as <-.
        destruct (classify_column_dict _ _ _ _ Hcall)
          as (d' & [= <-] & [category Hcat] & _).
        destruct (Qltb q CONFIDENCE_THRESHOLD); eexists _, _;
          (split; [done|]); unfold low_confidence; by simplify_map_eq. }
    destruct Hresult as (d & category & -> & Hcat). simpl.
    destruct (classify_columns _ _ _ _ _ _ _ rest w1)
      as [[e|results] w2] eqn:Hrest; [done|].
    intros [= <- _]. constructor.
    + eexists _, _, _. split; [done|]. by simplify_map_eq.
    + by eapply IH.
Qed.

End Facts.

(** ** The sampling step *)

Lemma size_list_to_set_le (l : list string) :
  size (list_to_set l : gset string) ≤ length l.
Proof.
  induction l as [|x l IH].
  - rewrite list_to_set_nil, size_empty. simpl. lia.
  - rewrite list_to_set_cons, size_union_alt, size_singleton. simpl.
    assert (size (list_to_set l ∖ {[x]} : gset string)
            ≤ size (list_to_set l : gset string)).
    { apply subseteq_size. intros y Hy. by apply elem_of_difference in Hy as [? _]. }
    lia.
Qed.

Lemma distinct_strings_mono (py_str : pyval → string) (l1 l2 : list pyval) :
  l1 ⊆ l2 → distinct_strings py_str l1 ≤ distinct_strings py_str l2.
Proof.
  intros Hsub. apply subseteq_size. intros s.
  rewrite !elem_of_list_to_set, !list_elem_of_fmap.
  intros (x & -> & Hx). eauto.
Qed.

Section Sampling.

Context (py_str : pyval → string)
        (series_sample : list pyval → nat → list pyval).

(** The draw returns [n] values of the series when the series holds at least
    [n]. *)
Hypothesis series_sample_length :
  ∀ l n, n ≤ length l → length (series_sample l n) = n.
Hypothesis series_sample_values :
  ∀ l n, series_sample l n ⊆ l.

(** The strings that enter the set, for a series of at least five values. *)
Lemma sampled_strings_length (non_null : list pyval) :
  length (py_str <$> (take 5 non_null
                      ++ series_sample non_null (5 `min` length non_null)))
  ≤ 10.
Proof.
  rewrite length_fmap, length_app, length_take, series_sample_length; lia.
Qed.

(** Whatever the order in which the set is iterated, the cut at ten removes
    nothing: the sample lists the set. *)
Lemma column_samples_perm (set_iter : gset string → list string)
    (non_null : list pyval) :
  (∀ X, set_iter X ≡ₚ elements X) →
  column_samples py_str series_sample set_iter non_null
  ≡ₚ elements (list_to_set
       (py_str <$> (take 5 non_null
                    ++ series_sample non_null (5 `min` length non_null)))
       : gset string).
Proof.
  intros Hiter. unfold column_samples.
  rewrite take_ge; [apply Hiter|].
  rewrite (Permutation_length (Hiter _)).
  etrans; [apply size_list_to_set_le | apply sampled_strings_length].
Qed.

(** C6, as amended.  For a column with at least five non-missing values the
    sample has as many entries as there are distinct strings among the first
    five values and the five drawn values; this number is at least the
    number of distinct strings among the first five values and at most
    min(10, number of distinct stringified non-missing values). *)
Theorem sample_size_bounds (set_iter : gset string → list string)
    (df_column : series) :
  (∀ X, set_iter X ≡ₚ elements X) →
  5 ≤ length (dropna df_column) →
  let non_null := dropna df_column in
  let samples := column_samples py_str series_sample set_iter non_null in
  length samples
    = distinct_strings py_str (take 5 non_null ++ series_sample non_null 5) ∧
  distinct_strings py_str (take 5 non_null) ≤ length samples ∧
  length samples ≤ 10 `min` distinct_strings py_str non_null.
Proof.
  intros Hiter Hlen non_null samples.
  assert (Hsize : length samples
    = distinct_strings py_str (take 5 non_null ++ series_sample non_null 5)).
  { unfold samples. rewrite (Permutation_length (column_samples_perm _ _ Hiter)).
    fold non_null. replace (5 `min` length non_null) with 5 by (unfold non_null; lia).
    done. }
  split; [done|]. rewrite Hsize. split.
  - apply distinct_strings_mono. intros x Hx. set_solver.
  - apply Nat.min_glb.
    + unfold distinct_strings. etrans; [apply size_list_to_set_le|].
      pose proof (sampled_strings_length non_null) as H10.
      replace (5 `min` length non_null) with 5 in H10
        by (unfold non_null; lia).
      done.
    + apply distinct_strings_mono. intros x [Hx|Hx]%elem_of_app.
      * by eapply subseteq_take.
      * by eapply series_sample_values.
Qed.

End Sampling.

(** C7.  The sample set is a function of the values and of the seeded draw:
    two runs of the sampling step on the same values, whatever the orders in
    which their interpreters iterate the set, produce lists that are
    permutations of each other, hence the same set of strings. *)
Theorem sample_set_deterministic (py_str : pyval → string)
    (series_sample : list pyval → nat → list pyval)
    (set_iter1 set_iter2 : gset string → list string) (df_column : series) :
  (∀ l n, n ≤ length l → length (series_sample l n) = n) →
  (∀ X, set_iter1 X ≡ₚ elements X) →
  (∀ X, set_iter2 X ≡ₚ elements X) →
  let samples1 :=
    column_samples py_str series_sample set_iter1 (dropna df_column) in
  let samples2 :=
    column_samples py_str series_sample set_iter2 (dropna df_column) in
  samples1 ≡ₚ samples2 ∧
  (list_to_set samples1 : gset string) = list_to_set samples2.
Proof.
  intros Hlen H1 H2 samples1 samples2.
  assert (Hperm : samples1 ≡ₚ samples2).
  { unfold samples1, samples2.
    rewrite (column_samples_perm py_str series_sample Hlen _ _ H1).
    by rewrite (column_samples_perm py_str series_sample Hlen _ _ H2). }
  split; [done|].
  apply set_eq. intros s. rewrite !elem_of_list_to_set. by rewrite Hperm.
Qed.

(** ** The column mapping *)

Lemma py_key_eqb_str_r (a : pyval) (l : string) :
  py_key_eqb a (PStr l) = true ↔ a = PStr l.
Proof.
  destruct a; simpl; split; try done.
  - intros ->%String.eqb_eq. done.
  - intros [= ->]. apply String.eqb_refl.
Qed.

Lemma py_key_eqb_str_l (a : pyval) (l : string) :
  py_key_eqb (PStr l) a = true ↔ a = PStr l.
Proof.
  destruct a; simpl; split; try done.
  - intros ->%String.eqb_eq. done.
  - intros [= ->]. apply String.eqb_refl.
Qed.

Lemma py_key_eqb_str_refl (l : string) : py_key_eqb (PStr l) (PStr l) = true.
Proof. by apply py_key_eqb_str_r. Qed.

(** Reading a string key after an assignment. *)
Lemma pydict_get_update_str (d : pydict) (k v : pyval) (l : string) :
  pydict_get (pydict_update d k v) (PStr l)
  = if py_key_eqb k (PStr l) then Some v else pydict_get d (PStr l).
Proof.
  induction d as [|[k' v'] d IH]; simpl.
  - done.
  - destruct (py_key_eqb k' k) eqn:Hk'; simpl.
    + destruct (py_key_eqb k' (PStr l)) eqn:Hl.
      * apply py_key_eqb_str_r in Hl as ->.
        apply py_key_eqb_str_l in Hk' as ->.
        by rewrite py_key_eqb_str_refl.
      * destruct (py_key_eqb k (PStr l)) eqn:Hkl; [|done].
        apply py_key_eqb_str_r in Hkl. rewrite Hkl in Hk'. congruence.
    + destruct (py_key_eqb k' (PStr l)) eqn:Hl; [|done].
      destruct (py_key_eqb k (PStr l)) eqn:Hkl; [|done].
      apply py_key_eqb_str_r in Hl, Hkl. subst k k'.
      by rewrite py_key_eqb_str_refl in Hk'.
Qed.

Lemma py_eq_str_true (v : pyval) (s : string) :
  py_eq_str v s = true ↔ v = PStr s.
Proof.
  destruct v; simpl; split; try done.
  - by intros ->%String.eqb_eq.
  - intros [= ->]. apply String.eqb_refl.
Qed.

(** The loop, from any mapping built so far. *)
Lemma build_column_mapping_lookup (column_classifications : list pyval)
    (column_mapping0 : pydict) :
  Forall well_classified column_classifications →
  ∃ column_mapping,
    build_column_mapping column_classifications column_mapping0
      = inr column_mapping ∧
    ∀ label,
      pydict_get column_mapping (PStr label)
      = if String.eqb label "OTHER"
        then pydict_get column_mapping0 (PStr label)
        else from_option Some (pydict_get column_mapping0 (PStr label))
               (last_original_name label column_classifications).
Proof.
  intros Hwf. revert column_mapping0.
  induction Hwf as [|c rest (d & category & name & -> & Hcat & Hhash & Hname)
                      _ IH]; intros m0.
  - exists m0. split; [done|]. intros label. simpl. by destruct (_ =? _)%string.
  - simpl. unfold mbind, exn_bind. rewrite Hcat.
    destruct (py_eq_str category "OTHER") eqn:Hother; simpl.
    + destruct (IH m0) as (m & -> & Hm). exists m. split; [done|].
      intros label. rewrite Hm.
      apply py_eq_str_true in Hother as ->.
      destruct (label =? "OTHER")%string eqn:Hl; [done|].
      destruct (last_original_name label rest); [done|].
      rewrite Hname, String.eqb_sym, Hl. done.
    + rewrite Hname. unfold pydict_setitem. rewrite Hhash.
      destruct (IH (pydict_update m0 category name)) as (m & -> & Hm).
      exists m. split; [done|].
      intros label. rewrite Hm, pydict_get_update_str.
      destruct (label =? "OTHER")%string eqn:Hl.
      * apply String.eqb_eq in Hl as ->.
        destruct (py_key_eqb category (PStr "OTHER")) eqn:Hk; [|done].
        apply py_key_eqb_str_r in Hk as ->.
        simpl in Hother. done.
      * destruct (last_original_name label rest); [done|].
        destruct (py_key_eqb category (PStr label)) eqn:Hk.
        -- apply py_key_eqb_str_r in Hk as ->.
           by rewrite String.eqb_refl.
        -- destruct category as [| | | |l| |]; try done.
           destruct (l =? label)%string eqn:Hll; [|done].
           apply String.eqb_eq in Hll as ->.
           by rewrite py_key_eqb_str_refl in Hk.
Qed.

(** A label that occurs has a last occurrence. *)
Lemma last_original_name_is_Some (label : string)
    (column_classifications : list pyval) (classification : pyval) :
  Forall well_classified column_classifications →
  classification ∈ column_classifications →
  py_getitem classification "category" = inr (PStr label) →
  is_Some (last_original_name label column_classifications).
Proof.
  intros Hwf Hin Hcat.
  induction Hwf as [|c rest (d & category & name & -> & Hc & _ & Hname) _ IH].
  - by apply elem_of_nil in Hin.
  - simpl. destruct (last_original_name label rest) as [n|] eqn:Hlast; [done|].
    apply elem_of_cons in Hin as [->|Hin].
    + simpl in Hcat. rewrite Hc in Hcat. injection Hcat as ->.
      rewrite Hc, Hname, String.eqb_refl. done.
    + destruct (IH Hin) as [? [=]].
Qed.

(** C5.  The column mapping built from a list of classifications holds no
    key "OTHER"; it holds a key for every other category label that occurs
    in a classification, and its value for a label is the original name of
    the last classification with that label. *)
Theorem column_mapping_last_write_wins (column_classifications : list pyval) :
  Forall well_classified column_classifications →
  ∃ column_mapping,
    build_column_mapping column_classifications [] = inr column_mapping ∧
    pydict_get column_mapping (PStr "OTHER") = None ∧
    ∀ label, label ≠ "OTHER" →
      pydict_get column_mapping (PStr label)
        = last_original_name label column_classifications ∧
      ∀ classification,
        classification ∈ column_classifications →
        py_getitem classification "category" = inr (PStr label) →
        is_Some (pydict_get column_mapping (PStr label)).
Proof.
  intros Hwf.
  destruct (build_column_mapping_lookup _ [] Hwf) as (m & Hm & Hget).
  exists m. split; [done|]. split.
  - by rewrite Hget.
  - intros label Hlabel%String.eqb_neq.
    assert (Heq : pydict_get m (PStr label)
                  = last_original_name label column_classifications).
    { rewrite Hget, Hlabel. by destruct (last_original_name _ _). }
    split; [done|].
    intros c Hin Hcat. rewrite Heq.
    by eapply last_original_name_is_Some.
Qed.

(** ** Header detection *)

(** The test [string_count > len(first_row) * 0.5], on the counts. *)
Lemma more_than_half (n string_count : nat) :
  Qltb (inject_Z (Z.of_nat n) * 0.5) (inject_Z (Z.of_nat string_count)) = true
  ↔ n < 2 * string_count.
Proof.
  rewrite Qltb_lt. unfold Qlt. simpl. lia.
Qed.

Lemma header_name_spec (idx : nat) (val : option pyval) :
  (∀ s, val = Some (PStr s) → PyStr.strip s ≠ "" →
        header_name idx val = PStr (PyStr.strip s)) ∧
  (blank_or_not_string val →
        header_name idx val = PStr ("Column_" +:+ pretty idx)).
Proof.
  unfold header_name, blank_or_not_string. split.
  - intros s -> Hs%truthy_true. by rewrite Hs.
  - intros Hblank. destruct val as [[| | | |s| |]|]; try done.
    by rewrite (Hblank s eq_refl).
Qed.

(** C8, as amended.  When strictly more than half of the cells of the first
    row are strings, empty and blank ones included, the first row is the
    header: a cell that is a non-blank string names its column (trimmed),
    any other cell is replaced by "Column_<index>".  Otherwise the first row
    stays a
    row of data and the frame keeps its labels: read without a header, each
    column is labelled by its index, an integer, not by "Column_<index>". *)
Theorem excel_header_detection (df_raw : DataFrame)
    (first_row : list (option pyval)) (rest : list (list (option pyval))) :
  dropna_all (rows df_raw) = first_row :: rest →
  let string_count := length (filter (λ val, is_str val = true) first_row) in
  (length first_row < 2 * string_count →
     ∃ column_names,
       read_excel_file df_raw = inr (mkDataFrame column_names rest) ∧
       length column_names = length first_row ∧
       ∀ idx val, first_row !! idx = Some val →
         (∀ s, val = Some (PStr s) → PyStr.strip s ≠ "" →
               column_names !! idx = Some (PStr (PyStr.strip s))) ∧
         (blank_or_not_string val →
               column_names !! idx = Some (PStr ("Column_" +:+ pretty idx))))
  ∧
  (2 * string_count ≤ length first_row →
     read_excel_file df_raw
       = inr (mkDataFrame (columns df_raw) (first_row :: rest)) ∧
     (columns df_raw = range_index (length first_row) →
      ∀ idx, idx < length first_row →
        columns df_raw !! idx = Some (PInt (Z.of_nat idx)))).
Proof.
  intros Hrows string_count. unfold read_excel_file. rewrite Hrows. simpl.
  fold string_count. split.
  - intros Hhalf%more_than_half. rewrite Hhalf.
    eexists. split; [done|]. split; [by rewrite length_imap|].
    intros idx val Hidx. rewrite list_lookup_imap, Hidx. simpl.
    destruct (header_name_spec idx val) as [Hname Hblank].
    split.
    + intros s Hs Hstrip. by rewrite (Hname s Hs Hstrip).
    + intros Hb. by rewrite (Hblank Hb).
  - intros Hhalf.
    destruct (Qltb _ _) eqn:Hlt.
    { apply more_than_half in Hlt. fold string_count in Hlt. lia. }
    split; [done|].
    intros -> idx Hidx. unfold range_index.
    rewrite list_lookup_fmap, lookup_seq_lt by done. done.
Qed.

(** * Examples and counterexamples *)

(** ** A reply that is a JSON array *)

(** C2.  The reply [["category", "confidence"]] is valid JSON and holds no
    key at all, yet [classify_column] returns the parsed list and not the
    fallback payload: on a list, [in] tests the elements.  The caller,
    [process_column], then raises on [result['confidence']].  The same
    happens in [classify_department] on [["department", "confidence"]]. *)
Theorem classify_column_array_reply :
  classify_column (demo_chat "array-of-key-names") demo_loads "prompt" []
    = (inr (PList [PStr "category"; PStr "confidence"]), ["prompt"]) ∧
  ¬ has_expected_keys "category" (PList [PStr "category"; PStr "confidence"]) ∧
  process_column (demo_chat "array-of-key-names") demo_loads demo_str
    demo_dtype demo_sample elements demo_column_prompt
    [Some (PStr "Server down")] "Summary" COLUMN_CATEGORIES []
    = (inl TypeError, ["column:Summary"]) ∧
  classify_department (demo_chat "array-of-department-key-names") demo_loads
    "prompt" []
    = (inr (PList [PStr "department"; PStr "confidence"]), ["prompt"]) ∧
  process_department (demo_chat "array-of-department-key-names") demo_loads
    demo_str demo_department_prompt 0 (Some (PStr "IT")) None None
    FIXED_DEPARTMENTS []
    = (inl TypeError, ["department:IT"]).
Proof.
  split; [reflexivity|]. split; [|by split_and!].
  by intros (d & [=] & _).
Qed.

(** The three failures that the client absorbs: a model that cannot be
    reached, a reply that is not JSON, an object without confidence. *)
Example classify_column_fallbacks :
  let fallback :=
    PDict {[ "category" := PStr "OTHER"; "confidence" := PFloat 0.0 ]} in
  classify_column demo_chat_down demo_loads "prompt" []
    = (inr fallback, ["prompt"]) ∧
  classify_column (demo_chat "Sure! Here is the JSON") demo_loads "prompt" []
    = (inr fallback, ["prompt"]) ∧
  classify_column (demo_chat "no-confidence") demo_loads "prompt" []
    = (inr fallback, ["prompt"]).
Proof. by split_and!. Qed.

(** ** The confidence gate on concrete replies *)

Lemma confidence_gate_results_witness :
  (∃ r,
     process_column (demo_chat "unsure-title") demo_loads demo_str demo_dtype
       demo_sample elements demo_column_prompt
       [Some (PStr "Server down")] "Summary" COLUMN_CATEGORIES []
       = (inr (PDict r), ["column:Summary"]) ∧
     r !! "category" = Some (PStr "OTHER") ∧
     r !! "needs_manual_review" = Some (PBool true) ∧
     r !! "reason" = Some (PStr "Low confidence (0.3)"))
  ∧
  (∃ r,
     process_department (demo_chat "confident-finance") demo_loads demo_str
       demo_department_prompt 0 (Some (PStr "finance dept"))
       (Some (PStr "Budget review")) None FIXED_DEPARTMENTS []
       = (inr (PDict r), ["department:finance dept"]) ∧
     r !! "suggested" = Some (PStr "Finance") ∧
     r !! "needs_manual_review" = Some (PBool false) ∧
     r !! "reason" = None).
Proof.
  split.
  - destruct (confidence_gate_results (demo_chat "unsure-title") demo_loads
                demo_str demo_dtype demo_sample elements demo_column_prompt
                demo_department_prompt) as [Hcolumn _].
    destruct (Hcolumn [Some (PStr "Server down")] "Summary" COLUMN_CATEGORIES
                [] ["column:Summary"]
                {[ "category" := PStr "title"; "confidence" := PFloat 0.3 ]}
                (PStr "title") (PFloat 0.3) 0.3%Q)
      as (r & Hrun & Hlow & _); try reflexivity.
    { discriminate. }
    exists r. split; [exact Hrun|]. apply Hlow. reflexivity.
  - destruct (confidence_gate_results (demo_chat "confident-finance")
                demo_loads demo_str demo_dtype demo_sample elements
                demo_column_prompt demo_department_prompt) as [_ Hdepartment].
    destruct (Hdepartment 0%Z (Some (PStr "finance dept"))
                (Some (PStr "Budget review"))
                None FIXED_DEPARTMENTS [] ["department:finance dept"]
                {[ "department" := PStr "Finance"; "confidence" := PFloat 0.9 ]}
                (PStr "Finance") (PFloat 0.9) 0.9%Q)
      as (r & Hrun & _ & Hhigh); try reflexivity.
    exists r. split; [exact Hrun|]. apply Hhigh. discriminate.
Defined.

(** The client answers {category: "title", confidence: 0.9, reason: "header
    says title"}: the confidence passes the gate, and the result carries the
    reason of the payload. *)
Lemma confident_reply_keeps_reason :
  ∃ r,
    process_column (demo_chat "confident-title-with-reason") demo_loads_reason
      demo_str demo_dtype demo_sample elements demo_column_prompt
      [Some (PStr "Server down")] "Summary" COLUMN_CATEGORIES []
      = (inr (PDict r), ["column:Summary"]) ∧
    r !! "confidence" = Some (PFloat 0.9) ∧
    (CONFIDENCE_THRESHOLD <= 0.9)%Q ∧
    r !! "needs_manual_review" = Some (PBool false) ∧
    r !! "reason" = Some (PStr "header says title") ∧
    r !! "reason" ≠ None.
Proof.
  exists (<["needs_manual_review" := PBool false]>
            {[ "category" := PStr "title"; "confidence" := PFloat 0.9;
               "reason" := PStr "header says title" ]}).
  split; [reflexivity|]. split; [reflexivity|]. split; [discriminate|].
  split; [reflexivity|]. split; [reflexivity | discriminate].
Qed.

(** ** An empty column *)

Lemma empty_column_result_witness :
  process_column demo_chat_down demo_loads demo_str demo_dtype demo_sample
    elements demo_column_prompt [None; None] "Notes" COLUMN_CATEGORIES []
  = (inr (PDict {[ "category" := PStr "OTHER";
                   "confidence" := PFloat 0.0;
                   "needs_manual_review" := PBool true;
                   "reason" := PStr "Column is empty" ]}), []).
Proof.
  apply (empty_column_result demo_chat_down demo_loads demo_str demo_dtype
           demo_sample elements demo_column_prompt [None; None] "Notes"
           COLUMN_CATEGORIES []).
  reflexivity.
Defined.

(** ** The source of a department *)

Lemma department_source_witness :
  ∃ d : gmap string pyval,
    (d !! "source" = Some (PStr "normalized")
       ↔ opt_truthy (Some (PStr "   ")) = true ∧
         trimmed_nonempty demo_str (Some (PStr "   "))) ∧
    (¬ (opt_truthy (Some (PStr "   ")) = true ∧
        trimmed_nonempty demo_str (Some (PStr "   "))) →
       d !! "source" = Some (PStr "inferred_from_content")) ∧
    (d !! "source" = Some (PStr "normalized")
       ↔ trimmed_nonempty demo_str (Some (PStr "   "))).
Proof.
  destruct (department_source (demo_chat "confident-finance") demo_loads
              demo_str demo_department_prompt 4%Z (Some (PStr "   "))
              (Some (PStr "Budget review")) None FIXED_DEPARTMENTS []
              ["department:   "]
              (PDict (<["needs_manual_review" := PBool false]>
                 (department_metadata demo_str 4 (Some (PStr "   "))
                    (PStr "Finance")
                    {[ "department" := PStr "Finance";
                       "confidence" := PFloat 0.9 ]}))))
    as (d & _ & Hsource & Hother & Hstr); [reflexivity|].
  exists d. split; [exact Hsource|]. split; [exact Hother|].
  apply Hstr; [reflexivity|]. right. by exists "   ".
Defined.

(** The department cell holds the number 0: its text is "0", which is not
    blank, and the source is "inferred_from_content". *)
Lemma department_source_of_zero :
  ∃ d : gmap string pyval,
    process_department (demo_chat "confident-finance") demo_loads demo_str
      demo_department_prompt 7 (Some (PInt 0)) (Some (PStr "Budget review"))
      None FIXED_DEPARTMENTS []
      = (inr (PDict d), ["department:0"]) ∧
    trimmed_nonempty demo_str (Some (PInt 0)) ∧
    d !! "source" = Some (PStr "inferred_from_content") ∧
    ¬ (d !! "source" = Some (PStr "normalized")
         ↔ trimmed_nonempty demo_str (Some (PInt 0))).
Proof.
  exists (<["needs_manual_review" := PBool false]>
            (department_metadata demo_str 7 (Some (PInt 0)) (PStr "Finance")
               {[ "department" := PStr "Finance";
                  "confidence" := PFloat 0.9 ]})).
  assert (Htext : trimmed_nonempty demo_str (Some (PInt 0))).
  { exists (PInt 0). split; [reflexivity | discriminate]. }
  split; [reflexivity|]. split; [exact Htext|]. split; [reflexivity|].
  intros [_ Hsource]. specialize (Hsource Htext). discriminate Hsource.
Qed.

(** ** A label outside the taxonomy *)

(** The client answers {category: "severity", confidence: 0.9}: the result
    carries "severity", which is not one of the ten categories. *)
Lemma column_category_outside_taxonomy :
  ∃ r,
    process_column (demo_chat "confident-unknown-label") demo_loads demo_str
      demo_dtype demo_sample elements demo_column_prompt
      [Some (PStr "high"); Some (PStr "low")] "Rating" COLUMN_CATEGORIES []
      = (inr (PDict r), ["column:Rating"]) ∧
    r !! "category" = Some (PStr "severity") ∧
    ¬ in_column_taxonomy (PStr "severity").
Proof.
  exists (<["needs_manual_review" := PBool false]>
            {[ "category" := PStr "severity"; "confidence" := PFloat 0.9 ]}).
  split; [reflexivity|]. split; [reflexivity|].
  intros (s & [= <-] & Hin). unfold COLUMN_CATEGORIES in Hin.
  repeat (apply elem_of_cons in Hin as [?|Hin]; [done|]).
  by apply elem_of_nil in Hin.
Qed.

Lemma column_category_taxonomy_witness :
  ∃ r category,
    process_column (demo_chat "confident-title") demo_loads demo_str
      demo_dtype demo_sample elements demo_column_prompt
      [Some (PStr "Server down")] "Summary" COLUMN_CATEGORIES []
      = (inr (PDict r), ["column:Summary"]) ∧
    r !! "category" = Some category ∧
    (in_column_taxonomy category
       ↔ (0.9 < CONFIDENCE_THRESHOLD)%Q ∨ in_column_taxonomy (PStr "title")).
Proof.
  destruct (column_category_taxonomy (demo_chat "confident-title") demo_loads
              demo_str demo_dtype demo_sample elements demo_column_prompt
              [Some (PStr "Server down")] "Summary" COLUMN_CATEGORIES [])
    as [_ Hvalues].
  apply (Hvalues ["column:Summary"]
           {[ "category" := PStr "title"; "confidence" := PFloat 0.9 ]}
           (PStr "title") (PFloat 0.9) 0.9%Q); try reflexivity.
  discriminate.
Defined.

(** ** A downgraded department *)

Lemma department_downgrade_frame_witness :
  ∃ r,
    process_department (demo_chat "unsure-finance") demo_loads demo_str
      demo_department_prompt 2 None (Some (PStr "Budget review")) None
      FIXED_DEPARTMENTS []
      = (inr (PDict r), ["department:[EMPTY]"]) ∧
    r !! "department" = Some (PStr "Finance") ∧
    r !! "confidence" = Some (PFloat 0.3) ∧
    r !! "suggested" = Some (PStr "OTHER").
Proof.
  destruct (department_downgrade_frame (demo_chat "unsure-finance") demo_loads
              demo_str demo_department_prompt 2%Z None
              (Some (PStr "Budget review"))
              None FIXED_DEPARTMENTS [] ["department:[EMPTY]"]
              {[ "department" := PStr "Finance"; "confidence" := PFloat 0.3 ]}
              (PStr "Finance") (PFloat 0.3) 0.3%Q)
    as (r & Hrun & Hdep & Hconf & Hsug & _); try reflexivity.
  exists r. by split_and!.
Defined.

(** ** Two columns with the same category *)

Lemma column_mapping_last_write_wins_witness :
  ∃ column_mapping,
    build_column_mapping
      [ PDict {[ "category" := PStr "title"; "original_name" := PStr "Summary" ]};
        PDict {[ "category" := PStr "OTHER"; "original_name" := PStr "Notes" ]};
        PDict {[ "category" := PStr "title"; "original_name" := PStr "Headline" ]} ]
      [] = inr column_mapping ∧
    pydict_get column_mapping (PStr "OTHER") = None ∧
    pydict_get column_mapping (PStr "title") = Some (PStr "Headline").
Proof.
  destruct (column_mapping_last_write_wins
    [ PDict {[ "category" := PStr "title"; "original_name" := PStr "Summary" ]};
      PDict {[ "category" := PStr "OTHER"; "original_name" := PStr "Notes" ]};
      PDict {[ "category" := PStr "title"; "original_name" := PStr "Headline" ]} ])
    as (m & Hbuild & Hother & Hlabels).
  { repeat constructor; eexists _, _, _; split_and!; reflexivity. }
  exists m. split; [exact Hbuild|]. split; [exact Hother|].
  destruct (Hlabels "title") as [Hget _]; [discriminate|].
  exact Hget.
Defined.

(** ** Sampling *)

Lemma demo_sample_length (l : list pyval) (n : nat) :
  n ≤ length l → length (demo_sample l n) = n.
Proof. intros Hn. unfold demo_sample. rewrite length_drop. lia. Qed.

Lemma demo_sample_values (l : list pyval) (n : nat) : demo_sample l n ⊆ l.
Proof. apply subseteq_drop. Qed.

Lemma sample_size_bounds_witness :
  let samples :=
    column_samples demo_str demo_sample elements repeated_head_column in
  length samples = 6 ∧ 1 ≤ length samples ∧ length samples ≤ 7.
Proof.
  destruct (sample_size_bounds demo_str demo_sample demo_sample_length
              demo_sample_values elements (Some <$> repeated_head_column))
    as (Hsize & Hlow & Hhigh).
  { intros X. reflexivity. }
  { vm_compute. lia. }
  split_and!; [exact Hsize | exact Hlow | exact Hhigh].
Defined.

(** C6 fails on the column [a a a a a b c d e f g]: it holds eleven values
    and seven distinct strings, so the claimed size is min(10, 7) = 7; the
    first five values give one string and any draw of five values gives at
    most five more, so the sample never has more than six entries. *)
Lemma sample_size_counterexample :
  5 ≤ length repeated_head_column ∧
  10 `min` distinct_strings demo_str repeated_head_column = 7 ∧
  ¬ ∃ (series_sample : list pyval → nat → list pyval)
      (set_iter : gset string → list string),
      (∀ l n, n ≤ length l → length (series_sample l n) = n) ∧
      (∀ X, set_iter X ≡ₚ elements X) ∧
      length (column_samples demo_str series_sample set_iter
                repeated_head_column)
      = 10 `min` distinct_strings demo_str repeated_head_column.
Proof.
  split; [vm_compute; lia|]. split; [by vm_compute|].
  intros (series_sample & set_iter & Hlen & Hiter & Hsize).
  rewrite (Permutation_length
             (column_samples_perm demo_str series_sample Hlen _ _ Hiter))
    in Hsize.
  replace (10 `min` distinct_strings demo_str repeated_head_column) with 7
    in Hsize by by vm_compute.
  change (5 `min` length repeated_head_column) with 5 in Hsize.
  rewrite fmap_app, list_to_set_app_L in Hsize.
  change (list_to_set (demo_str <$> take 5 repeated_head_column) : gset string)
    with (list_to_set ["a"; "a"; "a"; "a"; "a"] : gset string) in Hsize.
  assert (Hhead : (list_to_set ["a"; "a"; "a"; "a"; "a"] : gset string)
                  = {["a"]}) by set_solver.
  rewrite Hhead in Hsize.
  assert (Hunion :
    size ({["a"]} ∪ list_to_set
            (demo_str <$> series_sample repeated_head_column 5) : gset string)
    = 7) by exact Hsize.
  rewrite size_union_alt, size_singleton in Hunion.
  assert (size (list_to_set (demo_str <$> series_sample repeated_head_column 5)
                  ∖ {["a"]} : gset string) ≤ 5); [|lia].
  etrans; [apply subseteq_size|].
  { intros y Hy. apply elem_of_difference in Hy as [Hy _]. exact Hy. }
  etrans; [apply size_list_to_set_le|].
  rewrite length_fmap, Hlen; [done|]. vm_compute. lia.
Qed.

Lemma sample_set_deterministic_witness :
  let samples1 :=
    column_samples demo_str demo_sample elements repeated_head_column in
  let samples2 :=
    column_samples demo_str demo_sample (λ X, reverse (elements X))
      repeated_head_column in
  samples1 ≡ₚ samples2 ∧
  (list_to_set samples1 : gset string) = list_to_set samples2.
Proof.
  assert (Helements : ∀ X : gset string, elements X ≡ₚ elements X)
    by (intros X; reflexivity).
  assert (Hreverse : ∀ X : gset string, reverse (elements X) ≡ₚ elements X)
    by (intros X; apply reverse_Permutation).
  exact (sample_set_deterministic demo_str demo_sample elements
           (λ X, reverse (elements X)) (Some <$> repeated_head_column)
           demo_sample_length Helements Hreverse).
Defined.

(** ** Sheets with and without a header *)

(** C8 fails on a sheet of numbers: no cell of the first row is a string, so
    no header is detected, and the columns are labelled by the integers 0
    and 1, not by "Column_0" and "Column_1". *)
Lemma numeric_sheet_labels :
  length (filter (λ val, is_str val = true) [Some (PInt 1); Some (PInt 2)]) = 0
  ∧
  ∃ df,
    read_excel_file numeric_sheet = inr df ∧
    rows df = rows numeric_sheet ∧
    columns df = [PInt 0; PInt 1] ∧
    columns df ≠ [PStr "Column_0"; PStr "Column_1"].
Proof.
  split; [reflexivity|].
  eexists. split; [reflexivity|]. by split_and!.
Qed.

Lemma excel_header_detection_witness :
  (∃ column_names,
     read_excel_file blank_header_sheet
       = inr (mkDataFrame column_names
                [[Some (PInt 3); Some (PInt 4); Some (PInt 5)]]) ∧
     column_names !! 2 = Some (PStr "Column_2"))
  ∧
  read_excel_file numeric_sheet
    = inr (mkDataFrame (columns numeric_sheet) (rows numeric_sheet)) ∧
  columns numeric_sheet !! 1 = Some (PInt 1).
Proof.
  split.
  - destruct (excel_header_detection blank_header_sheet
                [Some (PStr " "); Some (PStr " "); Some (PInt 7)]
                [[Some (PInt 3); Some (PInt 4); Some (PInt 5)]] eq_refl)
      as [Hheader _].
    destruct Hheader as (column_names & Hread & _ & Hnames);
      [vm_compute; lia|].
    exists column_names. split; [exact Hread|].
    destruct (Hnames 2 (Some (PInt 7)) eq_refl) as [_ Hblank].
    apply Hblank. intros s [=].
  - destruct (excel_header_detection numeric_sheet
                [Some (PInt 1); Some (PInt 2)]
                [[Some (PInt 3); Some (PInt 4)]] eq_refl)
      as [_ Hdata].
    destruct Hdata as [Hread Hlabels]; [vm_compute; lia|].
    split; [exact Hread|].
    apply (Hlabels eq_refl 1). vm_compute. lia.
Defined.

(** * Further properties *)

(** ** The client and the two processing functions *)

Section ClientFacts.

Context (ollama_chat : list string → string → option string)
        (json_loads : string → option pyval)
        (py_str : pyval → string)
        (series_dtype : series → string)
        (series_sample : list pyval → nat → list pyval)
        (set_iter : gset string → list string)
        (create_column_prompt :
           string → string → list string → list string → string)
        (create_department_prompt :
           option pyval → option pyval → option pyval → list string →
           string).

#[local] Abbreviation classify_column_ :=
  (classify_column ollama_chat json_loads).
#[local] Abbreviation classify_department_ :=
  (classify_department ollama_chat json_loads).
#[local] Abbreviation process_column_ :=
  (process_column ollama_chat json_loads py_str series_dtype series_sample
     set_iter create_column_prompt).
#[local] Abbreviation process_department_ :=
  (process_department ollama_chat json_loads py_str create_department_prompt).
#[local] Abbreviation fallback label_key :=
  (PDict {[ label_key := PStr "OTHER"; "confidence" := PFloat 0.0 ]}).

(** X1.  Both entry points of the client return a value, never an exception,
    and each adds exactly its prompt to the log of prompts sent. *)
Theorem client_always_answers (prompt : string) (w : list string) :
  (∃ v, classify_column ollama_chat json_loads prompt w
        = (inr v, w ++ [prompt])) ∧
  (∃ v, classify_department ollama_chat json_loads prompt w
        = (inr v, w ++ [prompt])).
Proof.
  split; [apply classify_column_returns | apply classify_department_returns].
Qed.

(** What either entry point returns, for its label key. *)
Lemma classify_outcome (label_key prompt : string) (w : list string) :
  try_except
    (content ← chat ollama_chat prompt;
     result ← loads json_loads content;
     has_label ← lift (py_in label_key result);
     if negb has_label then raise ValueError else
     has_confidence ← lift (py_in "confidence" result);
     if negb has_confidence then raise ValueError else
     mret result)
    (λ _, mret (fallback label_key)) w
  = (inr (match ollama_chat w prompt with
          | Some content =>
              match json_loads content with
              | Some result =>
                  match py_in label_key result, py_in "confidence" result with
                  | inr true, inr true => result
                  | _, _ => fallback label_key
                  end
              | None => fallback label_key
              end
          | None => fallback label_key
          end), w ++ [prompt]).
Proof.
  unfold try_except, chat, loads, lift, raise, mbind, M_bind, mret, M_ret.
  destruct (ollama_chat w prompt) as [content|]; [|done].
  destruct (json_loads content) as [result|]; simpl; [|done].
  destruct (py_in label_key result) as [?|[]]; simpl; try done.
  by destruct (py_in "confidence" result) as [?|[]].
Qed.

(** X2.  The client never makes a payload up: what it returns is either the
    fallback {label: "OTHER", confidence: 0.0} or the very value parsed from
    the reply, and then both membership tests have succeeded on it.  A
    dictionary that it returns always holds both keys. *)
Theorem client_payload_origin (prompt : string) (w w' : list string)
    (v : pyval) :
  classify_column_ prompt w = (inr v, w') →
  (v = fallback "category" ∨
   ∃ content,
     ollama_chat w prompt = Some content ∧
     json_loads content = Some v ∧
     py_in "category" v = inr true ∧ py_in "confidence" v = inr true)
  ∧ (∀ d, v = PDict d → is_Some (d !! "category") ∧ is_Some (d !! "confidence")).
Proof.
  intros Hrun. split.
  - revert Hrun. unfold classify_column. rewrite classify_outcome.
    intros [= <- _].
    destruct (ollama_chat w prompt) as [content|]; [|by left].
    destruct (json_loads content) as [result|] eqn:Hloads; [|by left].
    destruct (py_in "category" result) as [?|[]] eqn:Hcat; try by left.
    destruct (py_in "confidence" result) as [?|[]] eqn:Hconf; try by left.
    right. by exists content.
  - intros d ->.
    destruct (classify_column_dict _ _ _ _ _ _ Hrun) as (d' & [= <-] & ? & ?).
    done.
Qed.

(** X3.  Each failure that the client absorbs gives the fallback payload,
    for either entry point: a transport that raises, a reply that is not
    JSON, a JSON object without the label key or without the confidence. *)
Theorem client_fallback (prompt : string) (w : list string) :
  (absorbed_failure ollama_chat json_loads "category" prompt w →
   classify_column_ prompt w = (inr (fallback "category"), w ++ [prompt])) ∧
  (absorbed_failure ollama_chat json_loads "department" prompt w →
   classify_department_ prompt w
     = (inr (fallback "department"), w ++ [prompt])).
Proof.
  unfold classify_column, classify_department, absorbed_failure.
  rewrite !classify_outcome.
  split;
    (intros [-> | [(content & -> & ->) | (content & d & -> & -> & Hd)]];
       try done;
     simpl; destruct Hd as [-> | Hconf]; simpl; [done|];
     rewrite Hconf; simpl; by destruct (bool_decide _)).
Qed.

(** The gate after a payload, for a label key: the common shape of what the
    two processing functions return. *)
Lemma process_column_outcome (df_column : series) (column_name : string)
    (categories : list string) (w : list string) :
  dropna df_column ≠ [] →
  ∃ v,
    classify_column_
      (create_column_prompt column_name (series_dtype df_column)
         (column_samples py_str series_sample set_iter (dropna df_column))
         categories) w
    = (inr v, w ++ [create_column_prompt column_name (series_dtype df_column)
         (column_samples py_str series_sample set_iter (dropna df_column))
         categories]) ∧
    process_column_ df_column column_name categories w
    = (match v with
       | PDict d =>
           match d !! "confidence" with
           | Some c =>
               match py_number c with
               | Some q =>
                   inr (PDict (if Qltb q CONFIDENCE_THRESHOLD
                               then low_confidence py_str "category" c d
                               else <["needs_manual_review" := PBool false]> d))
               | None => inl TypeError
               end
           | None => inl (KeyError "confidence")
           end
       | _ => inl TypeError
       end,
       w ++ [create_column_prompt column_name (series_dtype df_column)
         (column_samples py_str series_sample set_iter (dropna df_column))
         categories]).
Proof.
  intros Hne.
  set (prompt := create_column_prompt _ _ _ _).
  destruct (classify_column_returns ollama_chat json_loads prompt w)
    as [v Hcall].
  exists v. split; [done|].
  unfold process_column. fold prompt.
  destruct (decide _) as [Hlen|_].
  { destruct (dropna df_column); [done | discriminate Hlen]. }
  unfold lift, mbind, M_bind, mret, M_ret. rewrite Hcall. simpl.
  destruct v as [| | | | | |d]; try done. simpl.
  destruct (d !! "confidence") as [c|] eqn:Hc; [|done]. simpl.
  unfold py_lt. destruct (py_number c) as [q|]; [|done]. simpl.
  destruct (Qltb q CONFIDENCE_THRESHOLD); simpl; [|done].
  skip_inserts. by rewrite Hc.
Qed.

Lemma process_department_outcome (row_index : Z)
    (department_value title description : option pyval)
    (departments : list string) (w : list string) :
  ∃ v,
    classify_department_
      (create_department_prompt department_value title description
         departments) w
    = (inr v, w ++ [create_department_prompt department_value title
                      description departments]) ∧
    process_department_ row_index department_value title description
      departments w
    = (match v with
       | PDict d =>
           match d !! "department", d !! "confidence" with
           | Some department, Some c =>
               match py_number c with
               | Some q =>
                   let r := department_metadata py_str row_index department_value
                              department d in
                   inr (PDict (if Qltb q CONFIDENCE_THRESHOLD
                               then low_confidence py_str "suggested" c r
                               else <["needs_manual_review" := PBool false]> r))
               | None => inl TypeError
               end
           | None, _ => inl (KeyError "department")
           | _, None => inl (KeyError "confidence")
           end
       | _ => inl TypeError
       end,
       w ++ [create_department_prompt department_value title description
               departments]).
Proof.
  set (prompt := create_department_prompt _ _ _ _).
  destruct (classify_department_returns ollama_chat json_loads prompt w)
    as [v Hcall].
  exists v. split; [done|].
  unfold process_department. fold prompt.
  unfold lift, mbind, M_bind, mret, M_ret. rewrite Hcall. simpl.
  destruct v as [| | | | | |d]; try done. simpl.
  skip_inserts.
  destruct (d !! "department") as [department|] eqn:Hdep; [|done]. simpl.
  skip_inserts.
  destruct (d !! "confidence") as [c|] eqn:Hc; [|done]. simpl.
  unfold py_lt. destruct (py_number c) as [q|]; [|done]. simpl.
  by destruct (Qltb q CONFIDENCE_THRESHOLD).
Qed.

(** X4.  Neither processing function ever raises a KeyError: whatever the
    model replies, each returns a dictionary or raises a TypeError.
    [process_column] sends no prompt for a column without values and exactly
    one otherwise; [process_department] always sends exactly one. *)
Theorem processing_errors :
  (∀ (df_column : series) (column_name : string) (categories : list string)
     (w : list string),
     ∃ r w',
       process_column_ df_column column_name categories w = (r, w') ∧
       (r = inl TypeError ∨ ∃ d, r = inr (PDict d)) ∧
       (dropna df_column = [] → w' = w) ∧
       (dropna df_column ≠ [] → ∃ prompt, w' = w ++ [prompt]))
  ∧
  (∀ (row_index : Z) (department_value title description : option pyval)
     (departments : list string) (w : list string),
     ∃ r prompt,
       process_department_ row_index department_value title description
         departments w = (r, w ++ [prompt]) ∧
       (r = inl TypeError ∨ ∃ d, r = inr (PDict d))).
Proof.
  split.
  - intros df_column column_name categories w.
    destruct (decide (dropna df_column = [])) as [Hempty|Hne].
    + eexists _, _. split.
      { unfold process_column. by rewrite Hempty. }
      split_and!; [right; by eexists | done | done].
    + destruct (process_column_outcome df_column column_name categories w Hne)
        as (v & Hcall & ->).
      eexists _, _. split; [done|]. split_and!; [|done|by eexists].
      destruct v as [| | | | | |d]; try by left.
      destruct (classify_column_dict _ _ _ _ _ _ Hcall)
        as (d' & [= <-] & _ & [c Hc]).
      rewrite Hc. destruct (py_number c); [right; by eexists | by left].
  - intros row_index department_value title description departments w.
    destruct (process_department_outcome row_index department_value title
                description departments w) as (v & Hcall & ->).
    eexists _, _. split; [done|].
    destruct v as [| | | | | |d]; try by left.
    destruct (classify_department_dict _ _ _ _ _ _ Hcall)
      as (d' & [= <-] & [department Hdep] & [c Hc]).
    rewrite Hdep, Hc. destruct (py_number c); [right; by eexists | by left].
Qed.

(** The entries of a dictionary returned by [process_column]. *)
Lemma process_column_entries (df_column : series)
    (column_name : string) (categories : list string) (w w' : list string)
    (r : pyval) :
  process_column_ df_column column_name categories w = (inr r, w') →
  ∃ d category confidence flag,
    r = PDict d ∧
    d !! "category" = Some category ∧
    d !! "confidence" = Some confidence ∧
    d !! "needs_manual_review" = Some (PBool flag) ∧
    (flag = true →
       category = PStr "OTHER" ∧ ∃ reason, d !! "reason" = Some (PStr reason)).
Proof.
  intros Hrun.
  destruct (decide (dropna df_column = [])) as [Hempty|Hne].
  - revert Hrun. unfold process_column. rewrite Hempty. simpl.
    intros [= <- _]. eexists _, _, _, _.
    split_and!; try done; try (by simplify_map_eq).
    intros _. split; [done|]. eexists. by simplify_map_eq.
  - destruct (process_column_outcome df_column column_name categories w Hne)
      as (v & Hcall & Hout).
    rewrite Hout in Hrun. clear Hout.
    destruct v as [| | | | | |d]; try done.
    destruct (classify_column_dict _ _ _ _ _ _ Hcall)
      as (d' & [= <-] & [category Hcat] & [c Hc]).
    rewrite Hc in Hrun. destruct (py_number c) as [q|]; [|done].
    injection Hrun as <- _. unfold low_confidence.
    destruct (Qltb q CONFIDENCE_THRESHOLD); eexists _, _, _, _;
      (split_and!; try done; try (by simplify_map_eq)).
    intros _. split; [done|]. eexists. by simplify_map_eq.
Qed.

(** X5.  Every dictionary returned by [process_column] holds a category, a
    confidence and a boolean needs_manual_review; when the flag is true the
    category is "OTHER" and a reason is given.  A result flagged for review
    thus never counts as a classified column. *)
Theorem process_column_result_shape (df_column : series)
    (column_name : string) (categories : list string) (w w' : list string)
    (r : pyval) :
  process_column_ df_column column_name categories w = (inr r, w') →
  ∃ d category confidence flag,
    r = PDict d ∧
    d !! "category" = Some category ∧
    d !! "confidence" = Some confidence ∧
    d !! "needs_manual_review" = Some (PBool flag) ∧
    (flag = true →
       category = PStr "OTHER" ∧ ∃ reason, d !! "reason" = Some (PStr reason)).
Proof. apply process_column_entries. Qed.

(** The entries of a dictionary returned by [process_department]. *)
Lemma process_department_entries (row_index : Z)
    (department_value title description : option pyval)
    (departments : list string) (w w' : list string) (r : pyval) :
  process_department_ row_index department_value title description
    departments w = (inr r, w') →
  ∃ d source flag suggested,
    r = PDict d ∧
    d !! "row" = Some (PInt row_index) ∧
    (opt_truthy department_value = true →
     ∃ x, department_value = Some x ∧ d !! "original" = Some x) ∧
    (opt_truthy department_value = false →
     d !! "original" = Some (PStr "")) ∧
    d !! "source" = Some (PStr source) ∧
    (source = "normalized" ∨ source = "inferred_from_content") ∧
    (source = "normalized" → opt_truthy department_value = true) ∧
    d !! "needs_manual_review" = Some (PBool flag) ∧
    d !! "suggested" = Some suggested ∧
    (flag = true → suggested = PStr "OTHER").
Proof.
  intros Hrun.
  destruct (process_department_outcome row_index department_value title
              description departments w) as (v & Hcall & Hout).
  rewrite Hout in Hrun. clear Hout.
  destruct v as [| | | | | |d]; try done.
  destruct (d !! "department") as [department|]; [|done].
  destruct (d !! "confidence") as [c|]; [|done].
  destruct (py_number c) as [q|]; [|done].
  injection Hrun as <- _.
  unfold low_confidence, department_metadata. simpl.
  set (original := if opt_truthy department_value
                   then default (PStr "") department_value else PStr "").
  assert (Hvalue : opt_truthy department_value = true →
                   ∃ x, department_value = Some x ∧ original = x).
  { unfold original. intros Hv. rewrite Hv.
    destruct department_value; [eauto | done]. }
  assert (Hempty : opt_truthy department_value = false →
                   original = PStr "").
  { unfold original. by intros ->. }
  set (source := if department_present py_str department_value
                 then "normalized" else "inferred_from_content").
  assert (Hsource : source = "normalized" ∨ source = "inferred_from_content").
  { unfold source. destruct (department_present py_str department_value);
      [by left | by right]. }
  assert (Hnormalized : source = "normalized" →
                        opt_truthy department_value = true).
  { unfold source.
    destruct (department_present py_str department_value) eqn:Hpresent;
      [|done].
    intros _. by apply department_present_spec in Hpresent as [? _]. }
  clearbody original source.
  destruct (Qltb q CONFIDENCE_THRESHOLD).
  - eexists _, source, true, (PStr "OTHER").
    split_and!; try done; try (by simplify_map_eq).
    + intros (x & -> & ->)%Hvalue. exists x. by simplify_map_eq.
    + intros ->%Hempty. by simplify_map_eq.
  - eexists _, source, false, department.
    split_and!; try done; try (by simplify_map_eq).
    + intros (x & -> & ->)%Hvalue. exists x. by simplify_map_eq.
    + intros ->%Hempty. by simplify_map_eq.
Qed.

(** X6.  The bookkeeping entries of a department result cannot be set by the
    model: whatever the payload carries under these keys, the result holds
    the row index given, the original value as it was passed when it is
    true and the empty string when it is false (nothing, an empty string,
    the number 0), one of the two sources, "normalized" only for a value
    that is true, a boolean flag, and a suggestion that is "OTHER" when the
    flag is true. *)
Theorem department_result_shape (row_index : Z)
    (department_value title description : option pyval)
    (departments : list string) (w w' : list string) (r : pyval) :
  process_department_ row_index department_value title description
    departments w = (inr r, w') →
  ∃ d source flag suggested,
    r = PDict d ∧
    d !! "row" = Some (PInt row_index) ∧
    (opt_truthy department_value = true →
     ∃ x, department_value = Some x ∧ d !! "original" = Some x) ∧
    (opt_truthy department_value = false →
     d !! "original" = Some (PStr "")) ∧
    d !! "source" = Some (PStr source) ∧
    (source = "normalized" ∨ source = "inferred_from_content") ∧
    (source = "normalized" → opt_truthy department_value = true) ∧
    d !! "needs_manual_review" = Some (PBool flag) ∧
    d !! "suggested" = Some suggested ∧
    (flag = true → suggested = PStr "OTHER").
Proof. apply process_department_entries. Qed.

End ClientFacts.

(** ** The orchestrator *)

Lemma pydict_update_length (d : pydict) (k v : pyval) :
  length (pydict_update d k v) ≤ S (length d).
Proof.
  induction d as [|[k' v'] d IH]; simpl; [lia|].
  destruct (py_key_eqb k' k); simpl; lia.
Qed.

Lemma build_column_mapping_length (column_classifications : list pyval)
    (column_mapping0 column_mapping : pydict) (n : nat) :
  build_column_mapping column_classifications column_mapping0
    = inr column_mapping →
  count_key_ne "category" "OTHER" column_classifications = inr n →
  length column_mapping ≤ length column_mapping0 + n.
Proof.
  revert column_mapping0 n.
  induction column_classifications as [|c rest IH]; intros m0 n; simpl.
  - intros [= <-] [= <-]. lia.
  - unfold mbind, exn_bind, mret, exn_ret.
    destruct (py_getitem c "category") as [e|category]; [done|].
    destruct (count_key_ne "category" "OTHER" rest) as [e|n'] eqn:Hcount;
      [done|].
    destruct (py_eq_str category "OTHER"); simpl.
    + intros Hbuild [= <-]. by eapply IH.
    + destruct (py_getitem c "original_name") as [e|name]; [done|].
      destruct (pydict_setitem m0 category name) as [e|m1] eqn:Hset; [done|].
      intros Hbuild [= <-].
      pose proof (IH _ _ Hbuild eq_refl) as Hlen.
      unfold pydict_setitem in Hset.
      destruct (py_hashable category); [|done]. injection Hset as <-.
      pose proof (pydict_update_length m0 category name). lia.
Qed.

(** X7.  The column mapping never holds more entries than the report counts
    classified columns: two columns with one category share an entry. *)
Theorem column_mapping_size (column_classifications
    department_classifications : list pyval) (column_mapping : pydict)
    (stats : statistics) :
  build_column_mapping column_classifications [] = inr column_mapping →
  report_statistics column_classifications department_classifications
    = inr stats →
  length column_mapping ≤ columns_classified stats ∧
  columns_classified stats ≤ stat_total_columns stats.
Proof.
  intros Hbuild. unfold report_statistics, mbind, exn_bind, mret, exn_ret.
  destruct (count_key_ne _ _ column_classifications) as [e|n] eqn:Hn; [done|].
  destruct (count_key_eq _ _ _) as [e|n1]; [done|].
  destruct (count_key_eq _ _ _) as [e|n2]; [done|].
  intros [= <-]. simpl. split.
  - by apply (build_column_mapping_length _ [] _ _ Hbuild).
  - clear Hbuild. revert n Hn.
    induction column_classifications as [|c rest IH]; intros n; simpl.
    + intros [= <-]. lia.
    + unfold mbind, exn_bind, mret, exn_ret.
      destruct (py_getitem c "category") as [e|category]; [done|].
      destruct (count_key_ne _ _ rest) as [e|n'] eqn:Hcount; [done|].
      intros [= <-]. specialize (IH _ eq_refl).
      destruct (py_eq_str category "OTHER"); lia.
Qed.

(** No classification of the list carries the string [label] as category
    exactly when the label has no last occurrence. *)
Lemma last_original_name_None (label : string)
    (column_classifications : list pyval) :
  Forall well_classified column_classifications →
  last_original_name label column_classifications = None
  ↔ ∀ c, c ∈ column_classifications →
         py_getitem c "category" ≠ inr (PStr label).
Proof.
  intros Hwf. split.
  - intros Hnone c Hin Hcat.
    destruct (last_original_name_is_Some label _ c Hwf Hin Hcat) as [? Hsome].
    by rewrite Hsome in Hnone.
  - intros Hall.
    induction Hwf as [|c rest (d & category & name & -> & Hc & _ & Hname) _ IH].
    + done.
    + simpl. rewrite IH.
      * rewrite Hc, Hname.
        destruct category as [| | | |l| |]; try done.
        destruct (l =? label)%string eqn:Hl; [|done].
        apply String.eqb_eq in Hl as ->.
        exfalso. apply (Hall (PDict d)); [by left|]. simpl. by rewrite Hc.
      * intros c' Hin. apply Hall. by right.
Qed.

(** X8.  The warning of step 4 lists exactly the required categories, among
    title, description and department, that no column was classified as. *)
Theorem unmapped_required_fields (column_classifications : list pyval)
    (column_mapping : pydict) (cat : string) :
  Forall well_classified column_classifications →
  build_column_mapping column_classifications [] = inr column_mapping →
  cat ∈ unmapped column_mapping
  ↔ cat ∈ ["title"; "description"; "department"] ∧
    ∀ c, c ∈ column_classifications →
         py_getitem c "category" ≠ inr (PStr cat).
Proof.
  intros Hwf Hbuild.
  destruct (build_column_mapping_lookup _ [] Hwf) as (m & Hm & Hget).
  rewrite Hbuild in Hm. injection Hm as <-.
  unfold unmapped. rewrite list_elem_of_filter.
  rewrite <- (last_original_name_None cat _ Hwf).
  split; intros [H1 H2]; split; try done.
  - rewrite Hget in H1.
    destruct (cat =? "OTHER")%string eqn:Hother.
    { apply String.eqb_eq in Hother as ->.
      repeat (apply elem_of_cons in H2 as [?|H2]; [done|]).
      by apply elem_of_nil in H2. }
    by destruct (last_original_name cat column_classifications).
  - rewrite Hget.
    destruct (cat =? "OTHER")%string eqn:Hother; [done|]. by rewrite H2.
Qed.

Lemma before_last_dot_app (root ext : string) :
  before_last_dot ext = None →
  before_last_dot (root +:+ "." +:+ ext) = Some root.
Proof.
  intros Hext. induction root as [|c root IH]; simpl.
  - change ("" +:+ ext) with ext. by rewrite Hext.
  - by rewrite IH.
Qed.

(** X9.  The report is written next to the input under the name of the input
    with its extension, the text after the last dot, replaced by
    "_classification_results.json"; a path without any dot gets the suffix
    appended.  Two inputs that differ by their extension only share their
    report file. *)
Theorem output_file_replaces_extension (root ext ext' : string) :
  before_last_dot ext = None →
  before_last_dot ext' = None →
  output_file (root +:+ "." +:+ ext)
    = root +:+ "_classification_results.json" ∧
  output_file (root +:+ "." +:+ ext) = output_file (root +:+ "." +:+ ext') ∧
  output_file ext = ext +:+ "_classification_results.json".
Proof.
  intros Hext Hext'. unfold output_file, rsplit_dot_head.
  rewrite !before_last_dot_app by done. by rewrite Hext.
Qed.

Lemma count_key_eq_length (key value : string) (l : list pyval) (n : nat) :
  count_key_eq key value l = inr n → n ≤ length l.
Proof.
  revert n. induction l as [|c rest IH]; intros n; simpl.
  - intros [= <-]. lia.
  - unfold mbind, exn_bind, mret, exn_ret.
    destruct (py_getitem c key) as [e|v]; [done|].
    destruct (count_key_eq key value rest) as [e|n'] eqn:Hcount; [done|].
    intros [= <-]. specialize (IH _ eq_refl).
    destruct (py_eq_str v value); simpl; lia.
Qed.

Section OrchestratorFacts.

Context (ollama_chat : list string → string → option string)
        (json_loads : string → option pyval)
        (py_str : pyval → string)
        (series_dtype : series → string)
        (series_sample : list pyval → nat → list pyval)
        (set_iter : gset string → list string)
        (create_column_prompt :
           string → string → list string → list string → string)
        (create_department_prompt :
           option pyval → option pyval → option pyval → list string →
           string).

#[local] Abbreviation classify_columns_ :=
  (classify_columns ollama_chat json_loads py_str series_dtype series_sample
     set_iter create_column_prompt).
#[local] Abbreviation classify_departments_ :=
  (classify_departments ollama_chat json_loads py_str
     create_department_prompt).
#[local] Abbreviation classify_department_sample_ :=
  (classify_department_sample ollama_chat json_loads py_str
     create_department_prompt).
#[local] Abbreviation department_prompt row_data :=
  (create_department_prompt (row_department row_data) (row_title row_data)
     (row_description row_data) FIXED_DEPARTMENTS).

(** The loop over any rows: one prompt per row reached, in order. *)
Lemma classify_departments_log (rows_data : list row_data)
    (w : list string) :
  ∃ r prompts,
    classify_departments_ rows_data w = (r, w ++ prompts) ∧
    prompts `prefix_of` (λ row_data, department_prompt row_data) <$> rows_data ∧
    ∀ results, r = inr results →
      prompts = (λ row_data, department_prompt row_data) <$> rows_data ∧
      Forall2 (λ row_data result,
                 ∃ d source,
                   result = PDict d ∧
                   d !! "row" = Some (PInt (row_index row_data)) ∧
                   d !! "source" = Some (PStr source) ∧
                   (source = "normalized" ∨ source = "inferred_from_content"))
        rows_data results.
Proof.
  revert w. induction rows_data as [|row_data rest IH]; intros w; simpl.
  - exists (inr []), []. rewrite app_nil_r. split; [done|]. split; [done|].
    intros results [= <-]. split; [done|]. constructor.
  - unfold mbind, M_bind, mret, M_ret.
    destruct (process_department_outcome ollama_chat json_loads py_str
                create_department_prompt (row_index row_data)
                (row_department row_data) (row_title row_data)
                (row_description row_data) FIXED_DEPARTMENTS w)
      as (v & _ & Hrun).
    apply (f_equal snd) in Hrun. simpl in Hrun.
    destruct (process_department ollama_chat json_loads py_str
                create_department_prompt (row_index row_data)
                (row_department row_data) (row_title row_data)
                (row_description row_data) FIXED_DEPARTMENTS w)
      as [[e|result] w1] eqn:Hprocess; simpl in Hrun; subst w1.
    + exists (inl e), [department_prompt row_data].
      split; [done|]. split; [|done].
      by apply (prefix_cons _ []), prefix_nil.
    + destruct (process_department_entries _ _ _ _ _ _ _ _ _ _ _ _ Hprocess)
        as (d & source & flag & suggested & -> & Hrow & _ & _ & Hsource & Hs
            & _).
      destruct (IH (w ++ [department_prompt row_data]))
        as (r & prompts & Hrest & Hprefix & Hok).
      rewrite Hrest.
      destruct r as [e|results].
      * exists (inl e), (department_prompt row_data :: prompts).
        rewrite <- app_assoc. split; [done|]. split; [|done].
        by apply prefix_cons.
      * exists (inr (PDict d :: results)),
               (department_prompt row_data :: prompts).
        rewrite <- app_assoc. split; [done|].
        split; [by apply prefix_cons|].
        intros results' [= <-].
        destruct (Hok results eq_refl) as [-> Hall].
        split; [done|]. constructor; [|done]. by exists d, source.
Qed.

Lemma take_min_length {A} (n : nat) (l : list A) :
  take (n `min` length l) l = take n l.
Proof.
  destruct (decide (n ≤ length l)) as [Hle|Hgt].
  - by rewrite Nat.min_l.
  - rewrite Nat.min_r by lia. by rewrite !take_ge by lia.
Qed.

(** X10.  Step 5 sends at most five prompts, those of the first rows in
    order, and never one for a row beyond the fifth, also when a row makes
    it raise.  When it returns, there is one result per row among the first
    five, in the order of the rows, each carrying the index of its row. *)
Theorem department_sample_bounded (rows_data : list row_data)
    (w : list string) :
  ∃ r prompts,
    classify_department_sample_ rows_data w = (r, w ++ prompts) ∧
    length prompts ≤ 5 ∧
    prompts `prefix_of`
      (λ row_data, department_prompt row_data) <$> take 5 rows_data ∧
    ∀ results, r = inr results →
      length results = 5 `min` length rows_data ∧
      Forall2 (λ row_data result,
                 ∃ d, result = PDict d ∧
                      d !! "row" = Some (PInt (row_index row_data)))
        (take 5 rows_data) results.
Proof.
  unfold classify_department_sample. rewrite take_min_length.
  destruct (classify_departments_log (take 5 rows_data) w)
    as (r & prompts & Hrun & Hprefix & Hok).
  exists r, prompts. split; [done|]. split_and!.
  - apply prefix_length in Hprefix.
    rewrite length_fmap, length_take in Hprefix. lia.
  - done.
  - intros results ->. destruct (Hok results eq_refl) as [_ Hall]. split.
    + rewrite <- (Forall2_length _ _ _ Hall), length_take. lia.
    + eapply Forall2_impl; [exact Hall|].
      intros row_data result (d & source & -> & Hrow & _). by exists d.
Qed.

Lemma count_sources (results : list pyval) :
  Forall (λ result,
            ∃ d source,
              result = PDict d ∧ d !! "source" = Some (PStr source) ∧
              (source = "normalized" ∨ source = "inferred_from_content"))
    results →
  ∃ n1 n2,
    count_key_eq "source" "normalized" results = inr n1 ∧
    count_key_eq "source" "inferred_from_content" results = inr n2 ∧
    n1 + n2 = length results.
Proof.
  induction 1 as [|result rest (d & source & -> & Hsource & Hs) _
                    (n1 & n2 & H1 & H2 & Hsum)].
  - by exists 0, 0.
  - simpl. unfold mbind, exn_bind, mret, exn_ret. rewrite Hsource, H1, H2.
    destruct Hs as [-> | ->]; simpl; eexists _, _; split_and!; try done; lia.
Qed.

(** X11.  In the report of a run, the departments normalized and the
    departments inferred add up to the rows processed: every department
    result counts in exactly one of the two. *)
Theorem department_counts_partition (rows_data : list row_data)
    (w w' : list string) (column_classifications
    department_classifications : list pyval) (stats : statistics) :
  classify_departments_ rows_data w = (inr department_classifications, w') →
  report_statistics column_classifications department_classifications
    = inr stats →
  departments_normalized stats + departments_inferred stats
    = total_rows_processed stats ∧
  total_rows_processed stats = length rows_data ∧
  departments_needing_review stats ≤ total_rows_processed stats.
Proof.
  intros Hrun.
  destruct (classify_departments_log rows_data w)
    as (r & prompts & Hrun' & _ & Hok).
  rewrite Hrun in Hrun'. injection Hrun' as <- _.
  destruct (Hok _ eq_refl) as [_ Hall].
  assert (Hsources : Forall (λ result,
            ∃ d source,
              result = PDict d ∧ d !! "source" = Some (PStr source) ∧
              (source = "normalized" ∨ source = "inferred_from_content"))
            department_classifications).
  { clear -Hall. induction Hall as [|? ? ? ? (d & source & ? & _ & ? & ?) _ IH];
      constructor; [by exists d, source | done]. }
  destruct (count_sources _ Hsources) as (n1 & n2 & H1 & H2 & Hsum).
  unfold report_statistics, mbind, exn_bind, mret, exn_ret.
  destruct (count_key_ne _ _ _) as [e|n]; [done|].
  rewrite H1, H2. intros [= <-]. simpl.
  split_and!; [done | by rewrite (Forall2_length _ _ _ Hall) |].
  apply length_filter.
Qed.

(** X12.  In the report of a run, a column flagged for review is never
    counted as classified: the columns classified and the columns needing
    review together never exceed the columns. *)
Theorem column_counts_disjoint (df_clean : list (string * series))
    (w w' : list string) (column_classifications
    department_classifications : list pyval) (stats : statistics) :
  classify_columns_ df_clean w = (inr column_classifications, w') →
  report_statistics column_classifications department_classifications
    = inr stats →
  stat_total_columns stats = length df_clean ∧
  columns_classified stats + columns_needing_review stats
    ≤ stat_total_columns stats.
Proof.
  intros Hrun.
  assert (Hall : length column_classifications = length df_clean ∧
    ∃ n, count_key_ne "category" "OTHER" column_classifications = inr n ∧
         n + length (filter (λ c, needs_review_flag c = true)
                       column_classifications)
         ≤ length column_classifications).
  { revert w w' column_classifications Hrun.
    induction df_clean as [|[col_name df_column] rest IH];
      intros w w' cls; simpl.
    - intros [= <- _]. split; [done|]. by exists 0.
    - unfold mbind, M_bind, lift, mret, M_ret.
      destruct (process_column ollama_chat json_loads py_str series_dtype
                  series_sample set_iter create_column_prompt df_column
                  col_name COLUMN_CATEGORIES w)
        as [[e|result] w1] eqn:Hprocess; [done|].
      destruct (process_column_entries _ _ _ _ _ _ _ _ _ _ _ _ _ Hprocess)
        as (d & category & confidence & flag & -> & Hcat & _ & Hflag & Hother).
      simpl.
      destruct (classify_columns_ rest w1) as [[e|results] w2] eqn:Hrest;
        [done|].
      intros [= <- _].
      destruct (IH _ _ _ Hrest) as (Hlen & n & Hn & Hle).
      split; [simpl; by rewrite Hlen|].
      simpl. unfold mbind, exn_bind, mret, exn_ret.
      assert (Hcat' : <["original_name" := PStr col_name]> d !! "category"
                      = Some category) by (by simplify_map_eq).
      assert (Hflag' : <["original_name" := PStr col_name]> d
                         !! "needs_manual_review" = Some (PBool flag))
        by (by simplify_map_eq).
      assert (Hreview :
        needs_review_flag (PDict (<["original_name" := PStr col_name]> d))
        = flag).
      { unfold needs_review_flag. by rewrite Hflag'. }
      eexists. split; [by rewrite Hcat', Hn|].
      rewrite filter_cons.
      destruct (decide _) as [Htrue|Hfalse]; simpl.
      + rewrite Hreview in Htrue. destruct (Hother Htrue) as [-> _].
        simpl. lia.
      + destruct (py_eq_str category "OTHER"); lia. }
  destruct Hall as (Hlen & n & Hn & Hle).
  unfold report_statistics, mbind, exn_bind, mret, exn_ret. rewrite Hn.
  destruct (count_key_eq _ _ _) as [e|n1]; [done|].
  destruct (count_key_eq _ _ _) as [e|n2]; [done|].
  intros [= <-]. simpl. split; [done|]. lia.
Qed.

(** X13.  Step 3 returns one classification per column, in the order of the
    columns and under the name of its column, and sends one prompt per
    column that holds at least one value: none for an empty column. *)
Theorem classify_columns_prompts (df_clean : list (string * series))
    (w w' : list string) (column_classifications : list pyval) :
  classify_columns_ df_clean w = (inr column_classifications, w') →
  Forall2 (λ column classification,
             ∃ d, classification = PDict d ∧
                  d !! "original_name" = Some (PStr column.1))
    df_clean column_classifications ∧
  ∃ prompts,
    w' = w ++ prompts ∧
    length prompts
      = length (filter (λ column, dropna column.2 ≠ []) df_clean).
Proof.
  revert w w' column_classifications.
  induction df_clean as [|[col_name df_column] rest IH];
    intros w w' cls; simpl.
  - intros [= <- <-]. split; [constructor|]. exists []. by rewrite app_nil_r.
  - unfold mbind, M_bind, lift, mret, M_ret.
    destruct (process_column ollama_chat json_loads py_str series_dtype
                series_sample set_iter create_column_prompt df_column
                col_name COLUMN_CATEGORIES w)
      as [[e|result] w1] eqn:Hprocess; [done|].
    destruct (process_column_entries _ _ _ _ _ _ _ _ _ _ _ _ _ Hprocess)
      as (d & category & confidence & flag & -> & _).
    simpl.
    destruct (classify_columns_ rest w1) as [[e|results] w2] eqn:Hrest;
      [done|].
    intros [= <- <-].
    destruct (IH _ _ _ Hrest) as (Hall & prompts & -> & Hlen).
    split.
    { constructor; [|done]. eexists. split; [done|]. by simplify_map_eq. }
    rewrite filter_cons. simpl.
    destruct (decide (dropna df_column = [])) as [Hempty|Hne].
    + rewrite decide_False by (by intros ?).
      revert Hprocess. unfold process_column. rewrite Hempty. simpl.
      intros [= _ <-]. by exists prompts.
    + rewrite decide_True by done.
      destruct (process_column_outcome ollama_chat json_loads py_str
                  series_dtype series_sample set_iter create_column_prompt
                  df_column col_name COLUMN_CATEGORIES w Hne)
        as (v & _ & Hout).
      rewrite Hout in Hprocess. injection Hprocess as _ <-.
      eexists (_ :: prompts). rewrite <- app_assoc. split; [done|].
      simpl. by rewrite Hlen.
Qed.

End OrchestratorFacts.

(** ** Trimming *)

Lemma rstrip_cons (c : Ascii.ascii) (r : string) :
  PyStr.rstrip (String c r)
  = if PyStr.truthy (PyStr.rstrip r) then String c (PyStr.rstrip r)
    else if PyStr.isspace c then "" else String c "".
Proof. simpl. by destruct (PyStr.rstrip r). Qed.

Lemma rstrip_idem (s : string) :
  PyStr.rstrip (PyStr.rstrip s) = PyStr.rstrip s.
Proof.
  induction s as [|c r IH]; [done|].
  rewrite rstrip_cons.
  destruct (PyStr.truthy (PyStr.rstrip r)) eqn:Hr.
  - rewrite rstrip_cons, IH. by rewrite Hr.
  - destruct (PyStr.isspace c) eqn:Hc; [done|].
    rewrite rstrip_cons. simpl. by rewrite Hc.
Qed.

Lemma lstrip_head (c : Ascii.ascii) (r : string) :
  PyStr.isspace c = false → PyStr.lstrip (String c r) = String c r.
Proof. intros Hc. simpl. by rewrite Hc. Qed.

Lemma lstrip_cases (s : string) :
  PyStr.lstrip s = ""
  ∨ ∃ c r, PyStr.lstrip s = String c r ∧ PyStr.isspace c = false.
Proof.
  induction s as [|c r IH]; [by left|]. simpl.
  destruct (PyStr.isspace c) eqn:Hc; [done|]. right. by exists c, r.
Qed.

Lemma rstrip_head (c : Ascii.ascii) (r : string) :
  PyStr.isspace c = false →
  PyStr.rstrip (String c r) = String c (PyStr.rstrip r).
Proof.
  intros Hc. rewrite rstrip_cons, Hc.
  destruct (PyStr.rstrip r); done.
Qed.

(** Trimming a trimmed string changes nothing. *)
Lemma strip_idem (s : string) : PyStr.strip (PyStr.strip s) = PyStr.strip s.
Proof.
  unfold PyStr.strip.
  destruct (lstrip_cases s) as [-> | (c & r & -> & Hc)]; [done|].
  rewrite (rstrip_head c r Hc), (lstrip_head c _ Hc).
  by rewrite <- (rstrip_head c r Hc), rstrip_idem.
Qed.

(** ** The readers *)

Lemma read_excel_file_error (df_raw : DataFrame) (e : exn) :
  read_excel_file df_raw = inl e → e = ValueError.
Proof.
  unfold read_excel_file.
  destruct (dropna_all (rows df_raw)) as [|first_row rest]; simpl.
  - by intros [= <-].
  - by destruct (Qltb _ _).
Qed.

(** X14.  [read_excel_file] raises, and then a ValueError, exactly when the
    sheet holds no row with a value; otherwise it returns a frame. *)
Theorem read_excel_file_empty_sheet (df_raw : DataFrame) :
  (dropna_all (rows df_raw) = [] → read_excel_file df_raw = inl ValueError) ∧
  (dropna_all (rows df_raw) ≠ [] → ∃ df, read_excel_file df_raw = inr df) ∧
  (∀ e, read_excel_file df_raw = inl e →
        e = ValueError ∧ dropna_all (rows df_raw) = []).
Proof.
  unfold read_excel_file.
  destruct (dropna_all (rows df_raw)) as [|first_row rest] eqn:Hrows; simpl.
  - split_and!; [done | done |]. by intros e [= <-].
  - split_and!; [done | |].
    + intros _. destruct (Qltb _ _); by eexists.
    + intros e. by destruct (Qltb _ _).
Qed.

Lemma dropna_all_keeps (data : list (list (option pyval))) :
  Forall (λ row, all_missing row = false) (dropna_all data).
Proof.
  unfold dropna_all. apply Forall_forall. intros row Hrow.
  apply list_elem_of_filter in Hrow as [Hrow _].
  unfold all_missing. by apply negb_true_iff.
Qed.

(** X15.  The rows of the frame that [read_excel_file] returns are rows of
    the sheet, in their order, and none of them is entirely missing; in
    header mode the first row with a value is left out and there is one
    column name per cell of that row, each a non-empty string. *)
Theorem read_excel_file_rows (df_raw df : DataFrame) :
  read_excel_file df_raw = inr df →
  rows df `sublist_of` rows df_raw ∧
  Forall (λ row, all_missing row = false) (rows df) ∧
  ((columns df = columns df_raw ∧ rows df = dropna_all (rows df_raw)) ∨
   (∃ first_row,
      dropna_all (rows df_raw) = first_row :: rows df ∧
      length (columns df) = length first_row ∧
      Forall (λ name, ∃ s, name = PStr s ∧ s ≠ "") (columns df))).
Proof.
  unfold read_excel_file.
  pose proof (dropna_all_keeps (rows df_raw)) as Hkeep.
  assert (Hsub : dropna_all (rows df_raw) `sublist_of` rows df_raw)
    by apply sublist_filter.
  destruct (dropna_all (rows df_raw)) as [|first_row rest] eqn:Hrows;
    simpl; [done|].
  destruct (Qltb _ _); intros [= <-]; simpl.
  - split_and!.
    + etrans; [|exact Hsub]. by apply sublist_cons.
    + by inversion Hkeep.
    + right. exists first_row. split_and!; [done | by rewrite length_imap |].
      apply Forall_forall. intros name Hname.
      apply list_elem_of_lookup in Hname as [idx Hname].
      rewrite list_lookup_imap in Hname.
      destruct (first_row !! idx) as [val|]; [|done].
      injection Hname as <-. unfold header_name.
      destruct val as [[| | | |s| |]|]; try (by eexists).
      destruct (PyStr.truthy (PyStr.strip s)) eqn:Hs; [|by eexists].
      eexists. split; [done|]. by apply truthy_true.
  - split_and!; [done | done | by left].
Qed.

Section ReaderFacts.

Context (path_exists : string → bool)
        (splitext_lower : string → string)
        (pd_read_excel : string → option DataFrame)
        (pd_read_csv : string → string → csv_read).

#[local] Abbreviation read_csv_file_ := (read_csv_file pd_read_csv).
#[local] Abbreviation read_file_ :=
  (read_file path_exists splitext_lower pd_read_excel pd_read_csv).

(** The loop over encodings none of which bears the name of the last one:
    the first read that does not raise a decoding error decides. *)
Lemma read_csv_attempts_first (file_path last : string)
    (failed rest : list string) (enc : string) :
  Forall (λ e, pd_read_csv file_path e = CsvUnicodeDecodeError ∧ e ≠ last)
    failed →
  pd_read_csv file_path enc ≠ CsvUnicodeDecodeError →
  read_csv_attempts pd_read_csv file_path last (failed ++ enc :: rest)
  = Some (match pd_read_csv file_path enc with
          | CsvFrame df => inr df
          | _ => inl ValueError
          end).
Proof.
  intros Hfailed Henc.
  induction Hfailed as [|e failed [He Hlast] _ IH]; simpl.
  - by destruct (pd_read_csv file_path enc).
  - rewrite He. apply String.eqb_neq in Hlast. by rewrite Hlast.
Qed.

Lemma read_csv_file_total (file_path encoding : string) :
  (∃ df, read_csv_file_ file_path encoding = Some (inr df)) ∨
  read_csv_file_ file_path encoding = Some (inl ValueError).
Proof.
  unfold read_csv_file. simpl.
  destruct (pd_read_csv file_path encoding); [left; by eexists | | by right].
  destruct (encoding =? "cp1252")%string; [by right|].
  destruct (pd_read_csv file_path "latin-1");
    [left; by eexists | | by right].
  simpl.
  destruct (pd_read_csv file_path "iso-8859-1");
    [left; by eexists | | by right].
  simpl.
  destruct (pd_read_csv file_path "windows-1252");
    [left; by eexists | | by right].
  simpl.
  destruct (pd_read_csv file_path "cp1252");
    [left; by eexists | by right | by right].
Qed.

(** X16.  [read_csv_file] always ends with a frame or with a ValueError: it
    never returns nothing and lets no other exception through. *)
Theorem read_csv_file_outcomes (file_path encoding : string) :
  (∃ df, read_csv_file pd_read_csv file_path encoding = Some (inr df)) ∨
  read_csv_file pd_read_csv file_path encoding = Some (inl ValueError).
Proof. apply read_csv_file_total. Qed.

(** X17.  With an encoding other than "cp1252", the encodings are tried in
    the order encoding, latin-1, iso-8859-1, windows-1252, cp1252, and the
    first whose read does not raise a decoding error decides: its frame is
    returned, and any other error of it becomes a ValueError without a
    further attempt. *)
Theorem read_csv_file_first_decodable (file_path encoding : string)
    (failed rest : list string) (enc : string) :
  encoding ≠ "cp1252" →
  [encoding; "latin-1"; "iso-8859-1"; "windows-1252"; "cp1252"]
    = failed ++ enc :: rest →
  Forall (λ e, pd_read_csv file_path e = CsvUnicodeDecodeError) failed →
  pd_read_csv file_path enc ≠ CsvUnicodeDecodeError →
  read_csv_file pd_read_csv file_path encoding
  = Some (match pd_read_csv file_path enc with
          | CsvFrame df => inr df
          | _ => inl ValueError
          end).
Proof.
  intros Hencoding Hsplit Hfailed Henc.
  unfold read_csv_file. rewrite Hsplit.
  apply read_csv_attempts_first; [|done].
  replace (default "" (last (failed ++ enc :: rest))) with "cp1252"
    by (by rewrite <- Hsplit).
  apply Forall_forall. intros e He. split.
  { by eapply Forall_forall in Hfailed. }
  intros ->.
  assert (Hin : "cp1252" ∈ [encoding; "latin-1"; "iso-8859-1"; "windows-1252"]).
  { destruct rest as [|r rest' _] using rev_ind.
    - (* enc would be the last: the failed ones are the first four *)
      assert (Hfour : failed ++ [enc]
                = [encoding; "latin-1"; "iso-8859-1"; "windows-1252"]
                  ++ ["cp1252"]) by (by rewrite <- Hsplit).
      apply app_inj_2 in Hfour as [<- _]; [done|done].
    - assert (Hfour : (failed ++ enc :: rest') ++ [r]
                = [encoding; "latin-1"; "iso-8859-1"; "windows-1252"]
                  ++ ["cp1252"]).
      { rewrite <- app_assoc. simpl. by rewrite <- Hsplit. }
      apply app_inj_2 in Hfour as [<- _]; [|done].
      apply elem_of_app. by left. }
  repeat (apply elem_of_cons in Hin as [Hin|Hin]; [done|]).
  by apply elem_of_nil in Hin.
Qed.

(** X18.  Called with the encoding "cp1252", [read_csv_file] has no
    fallback: a decoding error of the first read ends it with a ValueError,
    whatever the other encodings would have given. *)
Theorem read_csv_file_cp1252_no_fallback (file_path : string) :
  pd_read_csv file_path "cp1252" = CsvUnicodeDecodeError →
  read_csv_file pd_read_csv file_path "cp1252" = Some (inl ValueError).
Proof. intros Hread. unfold read_csv_file. simpl. by rewrite Hread. Qed.

(** X19.  [read_file] raises FileNotFoundError exactly when the path does
    not exist; for a path that exists it returns a frame or raises a
    ValueError, as it does for every extension other than .xlsx, .xlsm,
    .xls and .csv. *)
Theorem read_file_outcomes (file_path : string) :
  let result :=
    read_file path_exists splitext_lower pd_read_excel pd_read_csv file_path in
  (path_exists file_path = false → result = inl FileNotFoundError) ∧
  (path_exists file_path = true →
   (result = inl (Raised ValueError) ∨ ∃ df, result = inr (Some df)) ∧
   (splitext_lower file_path ∉ [".xlsx"; ".xlsm"; ".xls"; ".csv"] →
    result = inl (Raised ValueError))).
Proof.
  intros result. subst result.
  unfold read_file, detect_file_type, mbind, io_exn_bind.
  split; intros Hexists; rewrite Hexists; simpl; [done|].
  split.
  - destruct (bool_decide (splitext_lower file_path ∈ [".xlsx"; ".xlsm"])).
    { simpl. unfold read_excel_path.
      destruct (pd_read_excel file_path) as [df_raw|]; [|by left].
      destruct (read_excel_file df_raw) as [e|df] eqn:Hread; [|right; by eexists].
      apply read_excel_file_error in Hread as ->. by left. }
    destruct (splitext_lower file_path =? ".xls")%string.
    { simpl. unfold read_excel_path.
      destruct (pd_read_excel file_path) as [df_raw|]; [|by left].
      destruct (read_excel_file df_raw) as [e|df] eqn:Hread; [|right; by eexists].
      apply read_excel_file_error in Hread as ->. by left. }
    destruct (splitext_lower file_path =? ".csv")%string; [|by left].
    simpl.
    destruct (read_csv_file_total file_path "utf-8") as [[df ->] | ->];
      [right; by eexists | by left].
  - intros Hext.
    rewrite bool_decide_eq_false_2.
    2:{ intros Hin. apply Hext.
        apply elem_of_cons in Hin as [-> | Hin]; [by left|].
        apply elem_of_cons in Hin as [-> | Hin]; [right; by left|].
        by apply elem_of_nil in Hin. }
    destruct (splitext_lower file_path =? ".xls")%string eqn:Hxls.
    { apply String.eqb_eq in Hxls. exfalso. apply Hext. rewrite Hxls.
      do 2 apply list_elem_of_further. apply list_elem_of_here. }
    destruct (splitext_lower file_path =? ".csv")%string eqn:Hcsv; [|done].
    apply String.eqb_eq in Hcsv. exfalso. apply Hext. rewrite Hcsv.
    do 3 apply list_elem_of_further. apply list_elem_of_here.
Qed.

End ReaderFacts.

(** ** Cleaning a frame *)

Lemma label_positions_from_count (i : nat) (names : list string) (k : string) :
  length (label_positions_from i (PStr <$> names) k)
  = count_occ String.string_dec names k.
Proof.
  revert i. induction names as [|name names IH]; intros i; [done|].
  rewrite fmap_cons. cbn [label_positions_from py_eq_str count_occ].
  destruct (String.string_dec name k) as [-> | Hne].
  - rewrite String.eqb_refl. simpl. by rewrite IH.
  - apply String.eqb_neq in Hne. rewrite Hne. apply IH.
Qed.

Lemma label_positions_from_lookup (i j : nat) (names : list string)
    (k : string) :
  j ∈ label_positions_from i (PStr <$> names) k →
  ∃ j', j = i + j' ∧ names !! j' = Some k.
Proof.
  revert i. induction names as [|name names IH]; intros i.
  { intros Hin. by apply elem_of_nil in Hin. }
  rewrite fmap_cons. cbn [label_positions_from py_eq_str].
  destruct (name =? k)%string eqn:Hname.
  - apply String.eqb_eq in Hname as ->.
    intros [-> | Hin]%elem_of_cons.
    + exists 0. split; [lia | done].
    + destruct (IH _ Hin) as (j' & -> & Hj'). exists (S j').
      split; [lia | done].
  - intros Hin. destruct (IH _ Hin) as (j' & -> & Hj'). exists (S j').
    split; [lia | done].
Qed.

Lemma NoDup_count (names : list string) :
  NoDup names
  ↔ ∀ x, x ∈ names → count_occ String.string_dec names x = 1.
Proof.
  split.
  - intros Hnodup%NoDup_ListNoDup x Hx.
    apply (proj1 (NoDup_count_occ' String.string_dec names) Hnodup).
    by apply list_elem_of_In.
  - intros Hall. apply NoDup_ListNoDup.
    apply (proj2 (NoDup_count_occ' String.string_dec names)).
    intros x Hx. by apply Hall, list_elem_of_In.
Qed.

(** With distinct names, the label of column [j] is found at [j] only. *)
Lemma label_positions_unique (names : list string) (j : nat) (k : string) :
  NoDup names → names !! j = Some k →
  label_positions (PStr <$> names) k = [j].
Proof.
  intros Hnodup Hj. unfold label_positions.
  assert (Hcount : length (label_positions_from 0 (PStr <$> names) k) = 1).
  { rewrite label_positions_from_count.
    apply (proj1 (NoDup_count names) Hnodup).
    apply list_elem_of_lookup. eauto. }
  destruct (label_positions_from 0 (PStr <$> names) k) as [|p [|? ?]] eqn:Hp;
    try done.
  assert (Hin : p ∈ label_positions_from 0 (PStr <$> names) k)
    by (rewrite Hp; by left).
  apply label_positions_from_lookup in Hin as (j' & -> & Hj').
  simpl. f_equal. by eapply NoDup_lookup.
Qed.

Lemma frame_column_length (j : nat) (body : list (Z * list (option pyval))) :
  length (frame_column j body) = length body.
Proof. unfold frame_column. apply length_fmap. Qed.

Section CleanFacts.

Context (py_str : pyval → string) (series_dtype : series → string)
  (apply_result : series → series) (empty_index_str : Frame → bool).

#[local] Abbreviation clean_names_ := (clean_names py_str).
#[local] Abbreviation clean_dataframe_ :=
  (clean_dataframe py_str series_dtype apply_result empty_index_str).
#[local] Abbreviation strip_object_columns_ :=
  (strip_object_columns series_dtype apply_result).

(** Both branches of the renaming give the same names. *)
Lemma clean_names_labels (labels : list pyval) :
  clean_names_ labels = clean_label py_str <$> labels.
Proof.
  unfold clean_names.
  destruct (forallb is_str_label labels) eqn:Hall; [|done].
  induction labels as [|col labels IH]; [done|].
  simpl in Hall. apply andb_true_iff in Hall as [Hcol Hall].
  destruct col; try done.
  rewrite fmap_cons, <- (IH Hall). done.
Qed.

(** The loop ends when every label to visit occurs once among the names. *)
Lemma strip_object_columns_ok (names todo : list string)
    (body : list (Z * list (option pyval))) :
  Forall (λ col, count_occ String.string_dec names col = 1) todo →
  ∃ body', strip_object_columns_ (PStr <$> names) todo body = inr body'.
Proof.
  intros Hall. revert body.
  induction Hall as [|col todo Hcol _ IH]; intros body; simpl; [by eexists|].
  unfold label_positions.
  pose proof (label_positions_from_count 0 names col) as Hcount.
  rewrite Hcol in Hcount.
  destruct (label_positions_from 0 (PStr <$> names) col) as [|j [|? ?]];
    done.
Qed.

(** The loop raises when a label to visit occurs twice among the names. *)
Lemma strip_object_columns_duplicate (names todo : list string)
    (body : list (Z * list (option pyval))) :
  todo ⊆ names →
  ¬ Forall (λ col, count_occ String.string_dec names col = 1) todo →
  strip_object_columns_ (PStr <$> names) todo body = inl AttributeError.
Proof.
  revert body. induction todo as [|col todo IH]; intros body Hsub Hdup.
  { destruct Hdup. constructor. }
  simpl. unfold label_positions.
  pose proof (label_positions_from_count 0 names col) as Hcount.
  assert (Hin : 0 < count_occ String.string_dec names col).
  { apply count_occ_In, list_elem_of_In, Hsub. by left. }
  destruct (label_positions_from 0 (PStr <$> names) col) as [|j [|? ?]];
    simpl in Hcount; [lia | | done].
  apply IH.
  - intros x Hx. apply Hsub. by right.
  - intros Hall. apply Hdup. by constructor.
Qed.

(** With a column, the renaming itself raises nothing. *)
Lemma clean_dataframe_loop (df : Frame) :
  frame_columns df ≠ [] →
  clean_dataframe_ df
  = body ← strip_object_columns_ (PStr <$> clean_names_ (frame_columns df))
             (clean_names_ (frame_columns df)) (frame_rows df);
    mret (mkFrame (PStr <$> clean_names_ (frame_columns df))
            (filter (λ r, all_missing r.2 = false) body)).
Proof.
  intros Hcolumns. unfold clean_dataframe.
  by destruct (frame_columns df).
Qed.


(** A cell without text is as good as cleaned. *)
Lemma cleaned_cell_refl (c : option pyval) :
  is_str c = false → cleaned_cell c c.
Proof.
  intros Hc. split_and!; [done | |].
  - intros s ->. done.
  - intros s ->. done.
Qed.

(** The cell that the inference returns for a trimmed cell is the cell
    cleaned. *)
Lemma kept_cell_cleaned (c v : option pyval) :
  kept_cell (strip_cell c) v → cleaned_cell c v.
Proof.
  intros [Hnone Hstr]. split_and!.
  - rewrite <- Hnone. by destruct c as [[]|].
  - intros s ->. apply Hstr. by left.
  - intros s' ->.
    assert (Heq : Some (PStr s') = strip_cell c) by (apply Hstr; by right).
    destruct c as [[| | | |s| |]|]; simplify_eq/=. eauto.
Qed.

Lemma frame_column_lookup (j k : nat) (body : list (Z * list (option pyval)))
    (r : Z * list (option pyval)) :
  body !! k = Some r →
  frame_column j body !! k = Some (default None (r.2 !! j)).
Proof.
  intros Hk. unfold frame_column, series.
  by rewrite list_lookup_fmap, Hk.
Qed.

(** The loop over the columns from position [j] on. *)
Lemma strip_object_columns_cleans (names todo : list string) (j : nat)
    (body0 body : list (Z * list (option pyval))) :
  keeps_text apply_result →
  strings_are_objects series_dtype →
  NoDup names →
  drop j names = todo →
  Forall (λ r : Z * list (option pyval), length r.2 = length names) body0 →
  Forall2 (cleaned_upto j) body0 body →
  ∃ body',
    strip_object_columns_ (PStr <$> names) todo body = inr body' ∧
    Forall2 (cleaned_upto (length names)) body0 body'.
Proof.
  intros Hkeeps Hdtype Hnodup. revert j body.
  induction todo as [|col todo IH]; intros j body Hdrop Hshape Hupto.
  - exists body. split; [done|].
    assert (Hj : length names ≤ j).
    { destruct (decide (length names ≤ j)); [done|].
      assert (length (drop j names) = 0) as Hlen by (by rewrite Hdrop).
      rewrite length_drop in Hlen. lia. }
    apply Forall2_same_length_lookup in Hupto as [Hlength Hupto].
    apply Forall2_same_length_lookup. split; [done|].
    intros k r r' Hr Hr'.
    destruct (Hupto k r r' Hr Hr') as (Hidx & Hlen & Hcells).
    assert (Hrow : length r.2 = length names).
    { eapply Forall_forall in Hshape; [done|].
      by eapply list_elem_of_lookup_2. }
    split_and!; [done | done |].
    intros i c c' Hc Hc'. specialize (Hcells i c c' Hc Hc').
    apply lookup_lt_Some in Hc.
    rewrite decide_True in Hcells by lia. by rewrite decide_True by lia.
  - assert (Hj : names !! j = Some col).
    { rewrite <- (Nat.add_0_r j), <- lookup_drop, Hdrop. done. }
    assert (Hrest : drop (S j) names = todo).
    { rewrite (drop_S _ _ _ Hj) in Hdrop. by injection Hdrop. }
    assert (Hlt : j < length names) by (by eapply lookup_lt_Some).
    simpl. rewrite (label_positions_unique names j col Hnodup Hj).
    apply (IH (S j)); [done | done |].
    apply Forall2_same_length_lookup in Hupto as [Hlength Hupto].
    destruct (series_dtype (frame_column j body) =? "object")%string
      eqn:Hobject.
    + pose proof (Hkeeps (strip_cell <$> frame_column j body)) as Hkept.
      apply Forall2_same_length_lookup in Hkept as [Hklen Hkept].
      rewrite length_fmap, frame_column_length in Hklen.
      apply Forall2_same_length_lookup. split.
      { unfold set_frame_column. rewrite length_zip_with. lia. }
      intros k r y Hr Hy. unfold set_frame_column in Hy.
      apply lookup_zip_with_Some in Hy as (r' & v & -> & Hr' & Hv).
      destruct (Hupto k r r' Hr Hr') as (Hidx & Hlen & Hcells).
      assert (Hrow : length r.2 = length names).
      { eapply Forall_forall in Hshape; [done|].
        by eapply list_elem_of_lookup_2. }
      destruct (lookup_lt_is_Some_2 r.2 j) as [c Hc]; [lia|].
      destruct (lookup_lt_is_Some_2 r'.2 j) as [c0 Hc0]; [lia|].
      pose proof (Hcells j c c0 Hc Hc0) as Hsame.
      rewrite decide_False in Hsame by lia. subst c0.
      assert (Hcell : kept_cell (strip_cell c) v).
      { apply (Hkept k); [|done].
        pose proof (frame_column_lookup j k body r' Hr') as Hs.
        rewrite Hc0 in Hs. simpl in Hs.
        unfold series in *. rewrite list_lookup_fmap.
        by rewrite Hs. }
      split_and!; simpl; [done | by rewrite length_insert |].
      intros i x x' Hx Hx'.
      destruct (decide (i = j)) as [-> | Hne].
      * rewrite list_lookup_insert_eq in Hx' by lia.
        injection Hx' as <-. rewrite Hc in Hx. injection Hx as <-.
        rewrite decide_True by lia. by apply kept_cell_cleaned.
      * rewrite list_lookup_insert_ne in Hx' by done.
        specialize (Hcells i x x' Hx Hx').
        destruct (decide (i < j)), (decide (i < S j)); try done; lia.
    + apply String.eqb_neq, Hdtype in Hobject.
      apply Forall2_same_length_lookup. split; [done|].
      intros k r r' Hr Hr'.
      destruct (Hupto k r r' Hr Hr') as (Hidx & Hlen & Hcells).
      split_and!; [done | done |].
      intros i x x' Hx Hx'. specialize (Hcells i x x' Hx Hx').
      destruct (decide (i = j)) as [-> | Hne].
      * rewrite decide_False in Hcells by lia. subst x'.
        rewrite decide_True by lia. apply cleaned_cell_refl.
        eapply Forall_forall in Hobject; [done|].
        pose proof (frame_column_lookup j k body r' Hr') as Hs.
        rewrite Hx' in Hs. simpl in Hs.
        by eapply list_elem_of_lookup_2.
      * destruct (decide (i < j)), (decide (i < S j)); try done; lia.
Qed.

(** Cleaned rows are missing together. *)
Lemma cleaned_row_missing (r r' : Z * list (option pyval)) :
  cleaned_row r r' → all_missing r.2 = all_missing r'.2.
Proof.
  intros [_ Hcells]. unfold all_missing.
  induction Hcells as [|c c' row row' [Hnone _] _ IH]; [done|].
  simpl. rewrite IH. f_equal.
  destruct (decide (c = None)) as [Hc|Hc].
  - rewrite !bool_decide_eq_true_2; [done | by apply Hnone | done].
  - rewrite !bool_decide_eq_false_2; [done | by rewrite <- Hnone | done].
Qed.

Lemma cleaned_rows_filter (body body' : list (Z * list (option pyval))) :
  Forall2 cleaned_row body body' →
  Forall2 cleaned_row
    (filter (λ r, all_missing r.2 = false) body)
    (filter (λ r, all_missing r.2 = false) body').
Proof.
  induction 1 as [|r r' body body' Hrow _ IH]; [constructor|].
  rewrite !filter_cons, <- (cleaned_row_missing r r' Hrow).
  destruct (decide (all_missing r.2 = false)); [by constructor | done].
Qed.

(** What [clean_dataframe] returns, when it returns. *)
Lemma clean_dataframe_cleans (df df' : Frame) :
  keeps_text apply_result →
  strings_are_objects series_dtype →
  rectangular df →
  clean_dataframe_ df = inr df' →
  NoDup (clean_names_ (frame_columns df)) ∧
  frame_columns df' = PStr <$> (clean_label py_str <$> frame_columns df) ∧
  Forall2 cleaned_row
    (filter (λ r, all_missing r.2 = false) (frame_rows df)) (frame_rows df').
Proof.
  intros Hkeeps Hdtype Hshape Hclean.
  assert (Hloop :
    (body ← strip_object_columns_ (PStr <$> clean_names_ (frame_columns df))
              (clean_names_ (frame_columns df)) (frame_rows df);
     mret (mkFrame (PStr <$> clean_names_ (frame_columns df))
             (filter (λ r, all_missing r.2 = false) body))) = inr df').
  { revert Hclean. unfold clean_dataframe.
    destruct (frame_columns df); [|done].
    by destruct (empty_index_str df). }
  clear Hclean. unfold mbind, io_exn_bind, mret, io_exn_ret in Hloop.
  assert (Hnodup : NoDup (clean_names_ (frame_columns df))).
  { destruct (decide (NoDup (clean_names_ (frame_columns df))))
      as [?|Hdup]; [done|].
    rewrite strip_object_columns_duplicate in Hloop; [done | done |].
    intros Hall. apply Hdup. apply NoDup_count. intros col Hcol.
    by eapply Forall_forall in Hall. }
  split; [done|].
  destruct (strip_object_columns_cleans (clean_names_ (frame_columns df))
              (clean_names_ (frame_columns df)) 0 (frame_rows df)
              (frame_rows df) Hkeeps Hdtype Hnodup eq_refl)
    as (body' & Hrun & Hupto).
  { unfold rectangular in Hshape.
    by rewrite clean_names_labels, length_fmap. }
  { apply Forall2_same_length_lookup. split; [done|].
    intros k r r' Hr Hr'. rewrite Hr in Hr'. injection Hr' as <-.
    split_and!; [done | done |].
    intros i c c' Hc Hc'. rewrite Hc in Hc'. injection Hc' as <-.
    destruct (decide (i < 0)); [lia | done]. }
  rewrite Hrun in Hloop. injection Hloop as <-. simpl.
  split; [by rewrite clean_names_labels|].
  apply cleaned_rows_filter.
  apply Forall2_same_length_lookup in Hupto as [Hlength Hupto].
  apply Forall2_same_length_lookup. split; [done|].
  intros k r r' Hr Hr'.
  destruct (Hupto k r r' Hr Hr') as (Hidx & Hlen & Hcells).
  split; [done|].
  apply Forall2_same_length_lookup. split; [done|].
  intros i c c' Hc Hc'. specialize (Hcells i c c' Hc Hc').
  rewrite decide_True in Hcells; [done|].
  apply lookup_lt_Some in Hc.
  eapply Forall_forall in Hshape; [|by eapply list_elem_of_lookup_2].
  rewrite clean_names_labels, length_fmap. by rewrite <- Hshape.
Qed.

(** X21.  On a frame with at least one column, one cell per column in each
    row and distinct names, [clean_dataframe] renames every column by its
    trimmed label (the [str] of a label that is not a string), drops the
    rows without any value and keeps the others in their order with their
    index labels.  In the rows kept a missing cell stays missing and a
    value stays a value, every string is trimmed, and no cell becomes a
    string that was none; what becomes of a number is left to the inference
    of [Series.apply]. *)
Theorem clean_dataframe_trims_and_drops (df : Frame) :
  frame_columns df ≠ [] →
  keeps_text apply_result →
  strings_are_objects series_dtype →
  rectangular df →
  NoDup (clean_names_ (frame_columns df)) →
  ∃ df',
    clean_dataframe_ df = inr df' ∧
    frame_columns df' = PStr <$> (clean_label py_str <$> frame_columns df) ∧
    Forall2 cleaned_row
      (filter (λ r, all_missing r.2 = false) (frame_rows df))
      (frame_rows df').
Proof.
  intros Hcolumns Hkeeps Hdtype Hshape Hnodup.
  destruct (clean_dataframe_ df) as [e|df'] eqn:Hclean.
  - exfalso. rewrite (clean_dataframe_loop df Hcolumns) in Hclean.
    unfold mbind, io_exn_bind in Hclean.
    destruct (strip_object_columns_ok (clean_names_ (frame_columns df))
                (clean_names_ (frame_columns df)) (frame_rows df))
      as [body' Hrun].
    { apply Forall_forall. intros col Hcol.
      by apply (proj1 (NoDup_count _) Hnodup). }
    by rewrite Hrun in Hclean.
  - exists df'. split; [done|].
    by destruct (clean_dataframe_cleans df df' Hkeeps Hdtype Hshape Hclean)
      as (_ & ? & ?).
Qed.

(** The properties of a cleaned frame. *)
Lemma cleaned_frame (df df' : Frame) :
  rectangular df →
  NoDup (clean_names_ (frame_columns df)) →
  frame_columns df' = PStr <$> (clean_label py_str <$> frame_columns df) →
  Forall2 cleaned_row
    (filter (λ r, all_missing r.2 = false) (frame_rows df)) (frame_rows df') →
  Forall (λ col, is_str_label col = true) (frame_columns df') ∧
  NoDup (frame_columns df') ∧
  rectangular df' ∧
  Forall (λ r, all_missing r.2 = false ∧
               Forall (λ c, strip_cell c = c) r.2) (frame_rows df') ∧
  (frame_rows df').*1 `sublist_of` (frame_rows df).*1.
Proof.
  intros Hshape Hnodup Hlabels Hrows. split_and!.
  - rewrite Hlabels. apply Forall_forall. intros col Hcol.
    by apply list_elem_of_fmap in Hcol as (name & -> & _).
  - rewrite Hlabels. apply NoDup_fmap_2; [by intros ?? [=] |].
    by rewrite <- clean_names_labels.
  - unfold rectangular. rewrite Hlabels, !length_fmap.
    apply Forall_forall. intros r' Hr'.
    apply list_elem_of_lookup in Hr' as [k Hr'].
    destruct (Forall2_lookup_r _ _ _ _ _ Hrows Hr') as (r & Hr & _ & Hcells).
    rewrite <- (Forall2_length _ _ _ Hcells).
    apply list_elem_of_lookup_2, list_elem_of_filter in Hr as [_ Hr].
    by eapply Forall_forall in Hshape.
  - apply Forall_forall. intros r' Hr'.
    apply list_elem_of_lookup in Hr' as [k Hr'].
    destruct (Forall2_lookup_r _ _ _ _ _ Hrows Hr') as (r & Hr & Hrow).
    split.
    + rewrite <- (cleaned_row_missing r r' Hrow).
      by apply list_elem_of_lookup_2, list_elem_of_filter in Hr as [? _].
    + destruct Hrow as [_ Hcells].
      apply Forall_forall. intros c' Hc'.
      apply list_elem_of_lookup in Hc' as [i Hc'].
      destruct (Forall2_lookup_r _ _ _ _ _ Hcells Hc')
        as (c & _ & _ & _ & Hfrom).
      destruct c' as [[| | | |s'| |]|]; try done.
      destruct (Hfrom s' eq_refl) as (s & _ & ->). simpl.
      by rewrite strip_idem.
  - assert (Hindex : (frame_rows df').*1
                     = (filter (λ r, all_missing r.2 = false)
                          (frame_rows df)).*1).
    { clear -Hrows. induction Hrows as [|r r' l l' [Hidx _] _ IH]; [done|].
      rewrite !fmap_cons, IH. by f_equal. }
    rewrite Hindex. apply fmap_sublist, sublist_filter.
Qed.

(** X22.  Cleaning a cleaned frame changes no label, drops no row and
    changes no index label, no missing cell and no string, provided the
    [str] of each label that is not a string has no surrounding whitespace;
    only what the inference of [Series.apply] makes of the numbers is left
    open. *)
Theorem clean_dataframe_idempotent (df df' : Frame) :
  frame_columns df ≠ [] →
  keeps_text apply_result →
  strings_are_objects series_dtype →
  rectangular df →
  Forall (λ col, is_str_label col = false →
                 PyStr.strip (py_str col) = py_str col) (frame_columns df) →
  clean_dataframe_ df = inr df' →
  ∃ df'',
    clean_dataframe_ df' = inr df'' ∧
    frame_columns df'' = frame_columns df' ∧
    (frame_rows df'').*1 = (frame_rows df').*1 ∧
    Forall2 (λ r' r'', Forall2 kept_cell r'.2 r''.2)
      (frame_rows df') (frame_rows df'').
Proof.
  intros Hcolumns Hkeeps Hdtype Hshape Hlabels Hclean.
  destruct (clean_dataframe_cleans df df' Hkeeps Hdtype Hshape Hclean)
    as (Hnodup & Hnames & Hrows).
  destruct (cleaned_frame df df' Hshape Hnodup Hnames Hrows)
    as (_ & _ & Hshape' & Hvalues & _).
  assert (Hstable :
    clean_label py_str <$> frame_columns df'
    = clean_label py_str <$> frame_columns df).
  { rewrite Hnames, <- !list_fmap_compose. apply list_fmap_ext.
    intros _ col Hcol%list_elem_of_lookup_2. simpl.
    rewrite Forall_forall in Hlabels.
    destruct col; simpl; try apply strip_idem; by apply Hlabels. }
  assert (Hnodup' : NoDup (clean_names_ (frame_columns df'))).
  { by rewrite clean_names_labels, Hstable, <- clean_names_labels. }
  assert (Hcolumns' : frame_columns df' ≠ []).
  { rewrite Hnames. by destruct (frame_columns df). }
  destruct (clean_dataframe_ df') as [e|df''] eqn:Hclean'.
  { exfalso. rewrite (clean_dataframe_loop df' Hcolumns') in Hclean'.
    unfold mbind, io_exn_bind in Hclean'.
    destruct (strip_object_columns_ok (clean_names_ (frame_columns df'))
                (clean_names_ (frame_columns df')) (frame_rows df'))
      as [body' Hrun].
    { apply Forall_forall. intros col Hcol.
      by apply (proj1 (NoDup_count _) Hnodup'). }
    by rewrite Hrun in Hclean'. }
  destruct (clean_dataframe_cleans df' df'' Hkeeps Hdtype Hshape' Hclean')
    as (_ & Hnames' & Hrows').
  assert (Hall : filter (λ r, all_missing r.2 = false) (frame_rows df')
                 = frame_rows df').
  { clear -Hvalues. induction (frame_rows df') as [|r l IH]; [done|].
    apply Forall_cons in Hvalues as [[Hr _] Hl].
    by rewrite filter_cons_True, IH. }
  rewrite Hall in Hrows'. clear Hall.
  exists df''. split; [done|]. split_and!.
  - by rewrite Hnames', Hstable, Hnames.
  - clear -Hrows'. induction Hrows' as [|r r' l l' [Hidx _] _ IH]; [done|].
    rewrite !fmap_cons, IH. by f_equal.
  - apply Forall2_same_length_lookup.
    apply Forall2_same_length_lookup in Hrows' as [Hlength Hrows'].
    split; [done|]. intros k r' r'' Hr' Hr''.
    destruct (Hrows' k r' r'' Hr' Hr'') as [_ Hcells].
    assert (Htrimmed : Forall (λ c, strip_cell c = c) r'.2).
    { eapply Forall_forall in Hvalues; [|by eapply list_elem_of_lookup_2].
      by destruct Hvalues. }
    apply Forall2_same_length_lookup.
    apply Forall2_same_length_lookup in Hcells as [Hlen Hcells].
    split; [done|]. intros i c' c'' Hc' Hc''.
    destruct (Hcells i c' c'' Hc' Hc'') as (Hnone & Hto & Hfrom).
    split; [done|].
    assert (Hc : strip_cell c' = c').
    { eapply Forall_forall in Htrimmed; [done|].
      by eapply list_elem_of_lookup_2. }
    intros [Hstr | Hstr].
    + destruct c' as [[| | | |s| |]|]; try done.
      rewrite (Hto s eq_refl). exact Hc.
    + destruct c'' as [[| | | |s''| |]|]; try done.
      destruct (Hfrom s'' eq_refl) as (s & -> & ->).
      exact Hc.
Qed.

(** X23.  In a cleaned frame every label is a string, the labels are
    pairwise distinct, every row holds one cell per column and at least one
    value, every string cell is trimmed, and the index labels of the rows
    are those of the rows kept, in their order: the index is not reset. *)
Theorem clean_dataframe_invariants (df df' : Frame) :
  keeps_text apply_result →
  strings_are_objects series_dtype →
  rectangular df →
  clean_dataframe_ df = inr df' →
  Forall (λ col, is_str_label col = true) (frame_columns df') ∧
  NoDup (frame_columns df') ∧
  rectangular df' ∧
  Forall (λ r, all_missing r.2 = false ∧
               Forall (λ c, strip_cell c = c) r.2) (frame_rows df') ∧
  (frame_rows df').*1 `sublist_of` (frame_rows df).*1.
Proof.
  intros Hkeeps Hdtype Hshape Hclean.
  destruct (clean_dataframe_cleans df df' Hkeeps Hdtype Hshape Hclean)
    as (Hnodup & Hnames & Hrows).
  by apply (cleaned_frame df df').
Qed.

End CleanFacts.

(** ** Column metadata, row records and the summary *)

Lemma label_positions_from_elem (i j : nat) (labels : list pyval) (k : string) :
  j ∈ label_positions_from i labels k
  ↔ ∃ j', j = i + j' ∧ labels !! j' = Some (PStr k).
Proof.
  revert i. induction labels as [|l labels IH]; intros i.
  { split; [by intros ?%elem_of_nil | by intros (? & _ & ?)]. }
  cbn [label_positions_from].
  destruct (py_eq_str l k) eqn:Hl.
  - apply py_eq_str_true in Hl as ->. rewrite elem_of_cons, IH. split.
    + intros [-> | (j' & -> & Hj')].
      * exists 0. split; [lia | done].
      * exists (S j'). split; [lia | done].
    + intros ([|j'] & -> & Hj'); [left; lia | right].
      exists j'. split; [lia | done].
  - rewrite IH. split.
    + intros (j' & -> & Hj'). exists (S j'). split; [lia | done].
    + intros ([|j'] & -> & Hj').
      * injection Hj' as ->. simpl in Hl. by rewrite String.eqb_refl in Hl.
      * exists j'. split; [lia | done].
Qed.

(** No position: the string is not a label. *)
Lemma label_positions_nil (labels : list pyval) (k : string) :
  label_positions labels k = [] ↔ PStr k ∉ labels.
Proof.
  unfold label_positions. split.
  - intros Hnil [j Hj]%list_elem_of_lookup.
    assert (Hin : j ∈ label_positions_from 0 labels k).
    { apply label_positions_from_elem. exists j. split; [lia | done]. }
    rewrite Hnil in Hin. by apply elem_of_nil in Hin.
  - intros Hnot.
    destruct (label_positions_from 0 labels k) as [|p ps] eqn:Hp; [done|].
    assert (Hin : p ∈ label_positions_from 0 labels k)
      by (rewrite Hp; by left).
    apply label_positions_from_elem in Hin as (j' & _ & Hj').
    exfalso. apply Hnot. apply list_elem_of_lookup. eauto.
Qed.

Lemma label_positions_from_NoDup (i : nat) (labels : list pyval) (k : string) :
  NoDup labels → length (label_positions_from i labels k) ≤ 1.
Proof.
  revert i. induction labels as [|l labels IH]; intros i Hnodup; [simpl; lia|].
  apply NoDup_cons in Hnodup as [Hl Hnodup].
  cbn [label_positions_from]. destruct (py_eq_str l k) eqn:Hk; [|by apply IH].
  apply py_eq_str_true in Hk as ->.
  destruct (label_positions_from (S i) labels k) as [|p ps] eqn:Hp;
    [simpl; lia|].
  assert (Hin : p ∈ label_positions_from (S i) labels k)
    by (rewrite Hp; by left).
  apply label_positions_from_elem in Hin as (j' & _ & Hj').
  exfalso. apply Hl. apply list_elem_of_lookup. eauto.
Qed.

(** With distinct labels a label is found at its position only. *)
Lemma label_positions_NoDup (labels : list pyval) (j : nat) (k : string) :
  NoDup labels → labels !! j = Some (PStr k) →
  label_positions labels k = [j].
Proof.
  intros Hnodup Hj. unfold label_positions.
  pose proof (label_positions_from_NoDup 0 labels k Hnodup) as Hlen.
  assert (Hin : j ∈ label_positions_from 0 labels k).
  { apply label_positions_from_elem. exists j. split; [lia | done]. }
  destruct (label_positions_from 0 labels k) as [|p [|? ?]]; simpl in Hlen.
  - by apply elem_of_nil in Hin.
  - apply list_elem_of_singleton in Hin. by subst.
  - lia.
Qed.

Lemma dropna_missing_length (s : series) :
  length (dropna s) + length (filter (λ c, c = None) s) = length s.
Proof.
  unfold dropna, series in *. induction s as [|[v|] s IH]; [done | |].
  - rewrite filter_cons_False by done.
    change (omap id (Some v :: s)) with (v :: omap id s).
    cbn [length]. lia.
  - rewrite filter_cons_True by done.
    change (omap id (None :: s)) with (omap id s).
    cbn [length]. lia.
Qed.

Section MetadataFacts.

Context (py_str : pyval → string) (series_dtype : series → string)
  (series_sample : list pyval → nat → list pyval)
  (set_iter : gset string → list string)
  (series_nunique : series → nat)
  (iterrows_row : list (option pyval) → list (option pyval))
  (frame_memory_mb : Frame → Q).

#[local] Abbreviation extract_column_info_ :=
  (extract_column_info py_str series_dtype series_sample set_iter
     series_nunique).

(** X24.  In the metadata of a column, the values counted as present and
    those counted as missing add up to the rows of the frame; at most ten
    samples are listed, and one for each value when the column holds five
    values or fewer. *)
Theorem extract_column_info_counts (df : Frame) (column_name : string)
    (info : column_info) :
  extract_column_info_ df column_name = inr info →
  info_name info = column_name ∧
  non_null_count info + null_count info = length (frame_rows df) ∧
  length (sample_values info) ≤ 10 ∧
  (non_null_count info ≤ 5 →
   length (sample_values info) = non_null_count info).
Proof.
  unfold extract_column_info.
  destruct (label_positions (frame_columns df) column_name) as [|j [|? ?]];
    try done.
  intros [= <-]. simpl.
  set (values := dropna (frame_column j (frame_rows df))).
  split_and!.
  - done.
  - unfold values. by rewrite dropna_missing_length, frame_column_length.
  - destruct (decide (0 < length values)); [|simpl; lia].
    destruct (decide (5 < length values)).
    + rewrite length_take. lia.
    + rewrite length_fmap, length_take. lia.
  - intros Hfew. destruct (decide (0 < length values)); [|simpl; lia].
    rewrite decide_False by lia. rewrite length_fmap, length_take. lia.
Qed.

(** X25.  The samples of the metadata are those of the column classifier
    when the column holds more than five values: the same deduplicated set
    of first and drawn values.  With five values or fewer they differ: the
    metadata lists the values themselves, in their order and with their
    repetitions. *)
Theorem extract_column_info_samples (df : Frame) (column_name : string)
    (info : column_info) :
  extract_column_info_ df column_name = inr info →
  ∃ j, frame_columns df !! j = Some (PStr column_name) ∧
       let values := dropna (frame_column j (frame_rows df)) in
       non_null_count info = length values ∧
       (5 < length values →
        sample_values info
        = column_samples py_str series_sample set_iter values) ∧
       (length values ≤ 5 → sample_values info = py_str <$> values).
Proof.
  unfold extract_column_info.
  destruct (label_positions (frame_columns df) column_name)
    as [|j [|? ?]] eqn:Hpos; try done.
  intros [= <-]. exists j. simpl. split_and!.
  - assert (Hin : j ∈ label_positions_from 0 (frame_columns df) column_name).
    { fold (label_positions (frame_columns df) column_name).
      rewrite Hpos. by left. }
    by apply label_positions_from_elem in Hin as (j' & -> & Hj').
  - done.
  - intros Hmany. rewrite decide_True by lia. by rewrite decide_True by lia.
  - intros Hfew.
    destruct (decide (0 < length (dropna (frame_column j (frame_rows df)))))
      as [Hsome|Hnone].
    + rewrite decide_False by lia. by rewrite take_ge by lia.
    + by destruct (dropna (frame_column j (frame_rows df))); [|simpl in *; lia].
Qed.

(** X26.  [extract_column_info] raises [ValueError] exactly for a name that
    is not a label of the frame, and returns the metadata for every label
    of a frame whose labels are distinct. *)
Theorem extract_column_info_errors (df : Frame) (column_name : string) :
  (PStr column_name ∉ frame_columns df
   ↔ extract_column_info_ df column_name = inl (Raised ValueError)) ∧
  (NoDup (frame_columns df) → PStr column_name ∈ frame_columns df →
   ∃ info, extract_column_info_ df column_name = inr info).
Proof.
  split.
  - rewrite <- label_positions_nil. unfold extract_column_info.
    by destruct (label_positions (frame_columns df) column_name)
      as [|j [|? ?]].
  - intros Hnodup [j Hj]%list_elem_of_lookup. unfold extract_column_info.
    rewrite (label_positions_NoDup _ _ _ Hnodup Hj). eauto.
Qed.

Lemma row_field_read (labels : list pyval) (row : list (option pyval))
    (col : option string) :
  NoDup labels →
  ∃ v, row_field iterrows_row labels row col = inr v ∧
       field_read iterrows_row labels row col v.
Proof.
  intros Hnodup. destruct col as [name|]; [|by exists None].
  unfold row_field, field_read.
  destruct name as [|c name]; simpl.
  { exists None. by split_and!. }
  pose proof (label_positions_from_NoDup 0 labels (String c name) Hnodup)
    as Hlen. fold (label_positions labels (String c name)) in Hlen.
  destruct (label_positions labels (String c name)) as [|j [|? ?]] eqn:Hpos;
    simpl in Hlen; [| |lia].
  - exists None. split_and!; try done.
    intros _ j Hj. apply label_positions_nil in Hpos.
    exfalso. apply Hpos. apply list_elem_of_lookup. eauto.
  - eexists. split_and!; try done.
    + intros [? | Hnot]; [done|].
      apply label_positions_nil in Hnot. by rewrite Hnot in Hpos.
    + intros _ j' Hj'.
      rewrite (label_positions_NoDup _ _ _ Hnodup Hj') in Hpos.
      by injection Hpos as ->.
Qed.

(** X27.  On a frame with distinct labels [extract_row_data] raises nothing
    and returns one record per row, in the order of the rows and under
    their index labels; each field is the cell under the mapped column, and
    is absent when the role has no column, an empty name or a name that is
    not a label. *)
Theorem extract_row_data_rows (df : Frame)
    (title_col description_col department_col : option string) :
  NoDup (frame_columns df) →
  ∃ rows_data,
    extract_row_data iterrows_row df title_col description_col department_col
    = inr rows_data ∧
    row_index <$> rows_data = (frame_rows df).*1 ∧
    Forall2
      (λ r rd,
         field_read iterrows_row (frame_columns df) r.2 title_col
           (row_title rd) ∧
         field_read iterrows_row (frame_columns df) r.2 description_col
           (row_description rd) ∧
         field_read iterrows_row (frame_columns df) r.2 department_col
           (row_department rd))
      (frame_rows df) rows_data.
Proof.
  intros Hnodup. unfold extract_row_data.
  induction (frame_rows df) as [|[idx row] body IH].
  { exists []. by split_and!. }
  destruct IH as (rows_data & Hrows & Hindex & Hfields).
  destruct (row_field_read (frame_columns df) row title_col Hnodup)
    as (title & Htitle & ?).
  destruct (row_field_read (frame_columns df) row description_col Hnodup)
    as (description & Hdescription & ?).
  destruct (row_field_read (frame_columns df) row department_col Hnodup)
    as (department & Hdepartment & ?).
  exists (mkRowData idx title description department :: rows_data).
  split_and!.
  - cbn [extract_rows]. rewrite Htitle, Hdescription, Hdepartment. simpl.
    by rewrite Hrows.
  - by rewrite !fmap_cons, Hindex.
  - by constructor.
Qed.

Lemma missing_count_bound (row : list (option pyval)) :
  length (filter (λ c, c = None) row) ≤ length row ∧
  (all_missing row = false →
   length (filter (λ c, c = None) row) + 1 ≤ length row).
Proof.
  unfold all_missing. induction row as [|[v|] row [IH1 IH2]].
  - done.
  - rewrite filter_cons_False by done. simpl. split; [lia|]. intros _. lia.
  - rewrite filter_cons_True by done. simpl. split; [lia|].
    intros Hrow. specialize (IH2 Hrow). lia.
Qed.

(** X28.  In the summary, missing values are reported exactly when their
    count is positive; and in a frame such as [clean_dataframe] returns,
    with one cell per column and a value in every row, every row leaves at
    least one cell out of the count. *)
Theorem summary_missing_values (df : Frame) :
  let summary := get_dataframe_summary frame_memory_mb df in
  (has_missing_values summary = true ↔ 0 < total_missing_values summary) ∧
  (rectangular df →
   Forall (λ r, all_missing r.2 = false) (frame_rows df) →
   total_missing_values summary + total_rows summary
   ≤ total_rows summary * total_columns summary).
Proof.
  unfold get_dataframe_summary, rectangular. simpl.
  generalize (length (frame_columns df)). intros n.
  induction (frame_rows df) as [|[idx row] body [IH1 IH2]].
  { simpl. split; [split; [done | lia] | done]. }
  split.
  - cbn [existsb fmap list_fmap foldr snd]. rewrite orb_true_iff, IH1.
    assert (Hrow : existsb (λ c, bool_decide (c = None)) row = true
                   ↔ 0 < length (filter (λ c, c = None) row)).
    { clear. induction row as [|[v|] row IH].
      - simpl. split; [done | lia].
      - rewrite filter_cons_False by done. simpl. done.
      - rewrite filter_cons_True by done. simpl. split; [lia | done]. }
    rewrite Hrow. simpl. lia.
  - intros [Hlen Hshape]%Forall_cons [Hrow Hrows]%Forall_cons.
    specialize (IH2 Hshape Hrows). simpl in Hlen, Hrow.
    pose proof (proj2 (missing_count_bound row) Hrow).
    cbn [fmap list_fmap foldr snd length]. simpl in IH2. lia.
Qed.

End MetadataFacts.

(** ** The prompts *)

Lemma string_app_nil_l (b : string) : "" +:+ b = b.
Proof. done. Qed.

Lemma string_app_cons (x : Ascii.ascii) (a b : string) :
  String x a +:+ b = String x (a +:+ b).
Proof. done. Qed.

Lemma string_app_assoc (a b c : string) : (a +:+ b) +:+ c = a +:+ (b +:+ c).
Proof.
  induction a as [|x a IH]; [done|]. by rewrite !string_app_cons, IH.
Qed.

Lemma string_app_nil_r (a : string) : a +:+ "" = a.
Proof.
  induction a as [|x a IH]; [done|]. by rewrite string_app_cons, IH.
Qed.

Lemma prefix_app (n b : string) : String.prefix n (n +:+ b) = true.
Proof.
  induction n as [|x n IH]; [by destruct b|].
  rewrite string_app_cons. simpl. by destruct (Ascii.ascii_dec x x).
Qed.

Lemma prefix_split (n h : string) :
  String.prefix n h = true → ∃ b, h = n +:+ b.
Proof.
  revert h. induction n as [|x n IH]; intros h; simpl.
  { intros _. by exists h. }
  destruct h as [|y h]; [done|]. simpl.
  destruct (Ascii.ascii_dec x y) as [->|]; [|done].
  intros (b & ->)%IH. by exists b.
Qed.

(** [needle in hay]: the hay is the needle between two strings. *)
Lemma contains_split (needle hay : string) :
  PyStr.contains needle hay = true ↔ ∃ a b, hay = a +:+ needle +:+ b.
Proof.
  split.
  - induction hay as [|x hay IH]; cbn [PyStr.contains].
    + rewrite orb_false_r. intros (b & ->)%prefix_split. by exists "", b.
    + intros [(b & Hb)%prefix_split | (a & b & ->)%IH]%orb_true_iff.
      * by exists "", b.
      * by exists (String x a), b.
  - intros (a & b & ->). induction a as [|x a IH].
    + rewrite string_app_nil_l.
      destruct (needle +:+ b) eqn:Hnb; cbn [PyStr.contains];
        rewrite <- Hnb, prefix_app; done.
    + rewrite string_app_cons. cbn [PyStr.contains]. rewrite IH.
      apply orb_true_r.
Qed.

Lemma contains_trans (a b c : string) :
  PyStr.contains a b = true → PyStr.contains b c = true →
  PyStr.contains a c = true.
Proof.
  rewrite !contains_split. intros (a1 & a2 & ->) (b1 & b2 & ->).
  exists (b1 +:+ a1), (a2 +:+ b2). by rewrite !string_app_assoc.
Qed.

Lemma fstring_app (a b : list string) :
  Prompts.fstring (a ++ b) = Prompts.fstring a +:+ Prompts.fstring b.
Proof.
  unfold Prompts.fstring. induction a as [|x a IH]; simpl; [done|].
  by rewrite IH, string_app_assoc.
Qed.

Lemma endswith_split (a l : string) :
  endswith a l = true → ∃ l0, l = l0 +:+ a.
Proof.
  induction l as [|x l IH]; simpl.
  - rewrite orb_false_r. intros ->%String.eqb_eq. by exists "".
  - intros [->%String.eqb_eq | (l0 & ->)%IH]%orb_true_iff.
    + by exists "".
    + by exists (String x l0).
Qed.

(** An f-string contains each of its pieces. *)
Lemma contains_fstring_piece (pieces : list string) (x : string) :
  x ∈ pieces → PyStr.contains x (Prompts.fstring pieces) = true.
Proof.
  intros (before & after & ->)%list_elem_of_split.
  apply contains_split. exists (Prompts.fstring before), (Prompts.fstring after).
  by rewrite fstring_app.
Qed.

(** An f-string contains the end of a piece followed by the next pieces. *)
Lemma contains_fstring_from (pieces needle : list string) (i n : nat)
    (l a : string) :
  needle = a :: take n (drop (S i) pieces) →
  pieces !! i = Some l →
  endswith a l = true →
  PyStr.contains (Prompts.fstring needle) (Prompts.fstring pieces) = true.
Proof.
  intros -> Hl (l0 & ->)%endswith_split. apply contains_split.
  exists (Prompts.fstring (take i pieces) +:+ l0),
    (Prompts.fstring (drop n (drop (S i) pieces))).
  rewrite <- (take_drop_middle pieces i _ Hl) at 1.
  rewrite <- (take_drop n (drop (S i) pieces)) at 1.
  rewrite fstring_app. change (Prompts.fstring (?x :: ?r))
    with (x +:+ Prompts.fstring r).
  rewrite fstring_app.
  change (Prompts.fstring (a :: take n (drop (S i) pieces)))
    with (a +:+ Prompts.fstring (take n (drop (S i) pieces))).
  by rewrite !string_app_assoc.
Qed.

Lemma contains_join (sep x : string) (l : list string) :
  x ∈ l → PyStr.contains x (Prompts.join sep l) = true.
Proof.
  intros Hx. apply contains_split. induction l as [|y l IH].
  { by apply elem_of_nil in Hx. }
  apply elem_of_cons in Hx as [<- | Hx].
  - destruct l as [|z l].
    + exists "", "". simpl. by rewrite string_app_nil_r.
    + by exists "", (sep +:+ Prompts.join sep (z :: l)).
  - destruct (IH Hx) as (a & b & Hjoin). destruct l as [|z l].
    { by apply elem_of_nil in Hx. }
    exists (y +:+ sep +:+ a), b.
    change (Prompts.join sep (y :: z :: l))
      with (y +:+ sep +:+ Prompts.join sep (z :: l)).
    by rewrite Hjoin, !string_app_assoc.
Qed.

(** Every entry of a taxonomy is listed between single quotes. *)
Lemma contains_quoted_list (x : string) (l : list string) :
  x ∈ l →
  PyStr.contains (Prompts.fstring ["'"; x; "'"]) (Prompts.quoted_list l) = true.
Proof.
  intros Hx. apply contains_join.
  by apply (list_elem_of_fmap_2 (λ x, Prompts.fstring ["'"; x; "'"])).
Qed.

(** An f-string contains what a piece of it contains. *)
Lemma contains_fstring_nested (pieces : list string) (i : nat)
    (inner needle : string) :
  pieces !! i = Some inner →
  PyStr.contains needle inner = true →
  PyStr.contains needle (Prompts.fstring pieces) = true.
Proof.
  intros Hi%list_elem_of_lookup_2 Hneedle.
  eapply contains_trans; [done|]. by apply contains_fstring_piece.
Qed.

Ltac find_piece :=
  apply contains_fstring_piece;
  repeat first [apply list_elem_of_here | apply list_elem_of_further].

Ltac from_piece i n :=
  eapply (contains_fstring_from _ _ i n);
  [reflexivity | reflexivity | vm_compute; reflexivity].

Ltac inside_piece i :=
  eapply (contains_fstring_nested _ i); [reflexivity|]; cbv iota.

Section PromptFacts.

Context (json_dumps : list string → string).

(** X29.  The column prompt shows the header and the data type between
    double quotes, the samples as [json.dumps] renders them, and the list
    of the categories, in which every category stands between single
    quotes. *)
Theorem column_prompt_contents (header dtype : string)
    (sample_values categories : list string) :
  let prompt :=
    Prompts.create_column_prompt json_dumps header dtype sample_values
      categories in
  PyStr.contains
    (Prompts.fstring ["* Original Header: "; Prompts.dq; header; Prompts.dq])
    prompt = true ∧
  PyStr.contains
    (Prompts.fstring ["* Inferred Data Type: "; Prompts.dq; dtype; Prompts.dq])
    prompt = true ∧
  PyStr.contains
    (Prompts.fstring ["* Sampled Values: "; json_dumps sample_values])
    prompt = true ∧
  PyStr.contains
    (Prompts.fstring ["The only valid categories you can return are: ";
                      Prompts.quoted_list categories])
    prompt = true ∧
  (∀ cat, cat ∈ categories →
          PyStr.contains (Prompts.fstring ["'"; cat; "'"]) prompt = true).
Proof.
  intros prompt. subst prompt. unfold Prompts.create_column_prompt.
  split_and!.
  - from_piece 2 3.
  - from_piece 6 3.
  - from_piece 10 1.
  - from_piece 0 1.
  - intros cat Hcat.
    eapply contains_trans; [by apply contains_quoted_list|]. find_piece.
Qed.

End PromptFacts.

Section DepartmentPromptFacts.

Context (py_str : pyval → string).

(** X30.  The department prompt has two modes, chosen by the test that
    decides the source of the result.  With a department value that is true
    and whose text is not blank, it asks to normalize and map the value and
    shows its text.  Otherwise, also for a value such as the number 0, it
    asks to infer the department and shows the value as [[EMPTY]].  The
    title and the description are always shown: by their text when they
    are true, as [N/A] when they are nothing, empty or another false value.
    Every department of the list stands between single quotes. *)
Theorem department_prompt_contents
    (department_value title description : option pyval)
    (departments : list string) :
  let prompt :=
    Prompts.create_department_prompt py_str department_value title
      description departments in
  (department_present py_str department_value = true →
   ∃ x, department_value = Some x ∧
     PyStr.contains "Your task is to normalize and map" prompt = true ∧
     PyStr.contains
       (Prompts.fstring ["* Original Department Value: "; Prompts.dq;
                         py_str x; Prompts.dq])
       prompt = true) ∧
  (department_present py_str department_value = false →
   PyStr.contains "Your task is to infer from content" prompt = true ∧
   PyStr.contains "* Original Department Value: [EMPTY]" prompt = true) ∧
  PyStr.contains
    (Prompts.fstring ["* Audit Title: "; Prompts.dq;
                      Prompts.or_na py_str title; Prompts.dq])
    prompt = true ∧
  PyStr.contains
    (Prompts.fstring ["* Audit Description: "; Prompts.dq;
                      Prompts.or_na py_str description; Prompts.dq])
    prompt = true ∧
  (∀ value,
     (opt_truthy value = false → Prompts.or_na py_str value = "N/A") ∧
     (∀ x, value = Some x → py_truthy x = true →
           Prompts.or_na py_str value = py_str x)) ∧
  (∀ dept, dept ∈ departments →
           PyStr.contains (Prompts.fstring ["'"; dept; "'"]) prompt = true).
Proof.
  intros prompt. subst prompt. unfold Prompts.create_department_prompt.
  split_and!.
  - intros Hpresent. rewrite Hpresent.
    destruct department_value as [x|]; [|done]. exists x.
    split_and!; [done | |].
    + change "Your task is to normalize and map"
        with (Prompts.fstring ["Your task is to "; "normalize and map"]).
      from_piece 0 1.
    + inside_piece 5. from_piece 0 3.
  - intros Habsent. rewrite Habsent. split.
    + change "Your task is to infer from content"
        with (Prompts.fstring ["Your task is to "; "infer from content"]).
      from_piece 0 1.
    + inside_piece 5. inside_piece 0. vm_compute. reflexivity.
  - destruct (department_present py_str department_value); inside_piece 5;
      [from_piece 4 3 | from_piece 0 3].
  - destruct (department_present py_str department_value); inside_piece 5;
      [from_piece 8 3 | from_piece 4 3].
  - intros value. unfold Prompts.or_na. split.
    + by intros ->.
    + intros x -> Hx. simpl. by rewrite Hx.
  - intros dept Hdept.
    eapply contains_trans; [by apply contains_quoted_list|]. find_piece.
Qed.

End DepartmentPromptFacts.

(** ** The further statements on concrete inputs *)

Lemma client_payload_origin_witness :
  let v := PDict {[ "category" := PStr "title"; "confidence" := PFloat 0.9 ]} in
  (v = PDict {[ "category" := PStr "OTHER"; "confidence" := PFloat 0.0 ]} ∨
   ∃ content,
     demo_chat "confident-title" [] "prompt" = Some content ∧
     demo_loads content = Some v ∧
     py_in "category" v = inr true ∧ py_in "confidence" v = inr true) ∧
  (∀ d, v = PDict d → is_Some (d !! "category") ∧ is_Some (d !! "confidence")).
Proof.
  apply (client_payload_origin (demo_chat "confident-title") demo_loads
           "prompt" [] ["prompt"]).
  reflexivity.
Defined.

Lemma client_fallback_witness :
  classify_column (demo_chat "no-confidence") demo_loads "prompt" []
  = (inr (PDict {[ "category" := PStr "OTHER"; "confidence" := PFloat 0.0 ]}),
     ["prompt"]) ∧
  classify_department demo_chat_down demo_loads "prompt" []
  = (inr (PDict {[ "department" := PStr "OTHER"; "confidence" := PFloat 0.0 ]}),
     ["prompt"]).
Proof.
  split.
  - apply (proj1 (client_fallback (demo_chat "no-confidence") demo_loads
                    "prompt" [])).
    right. right. exists "no-confidence", {[ "category" := PStr "title" ]}.
    split_and!; [reflexivity | reflexivity | right; reflexivity].
  - apply (proj2 (client_fallback demo_chat_down demo_loads "prompt" [])).
    left. reflexivity.
Defined.

Lemma process_column_result_shape_witness :
  ∃ r w',
    process_column (demo_chat "unsure-title") demo_loads demo_str demo_dtype
      demo_sample elements demo_column_prompt [Some (PStr "Server down")]
      "Summary" COLUMN_CATEGORIES [] = (inr r, w') ∧
    ∃ d category confidence flag,
      r = PDict d ∧
      d !! "category" = Some category ∧
      d !! "confidence" = Some confidence ∧
      d !! "needs_manual_review" = Some (PBool flag) ∧
      (flag = true →
       category = PStr "OTHER" ∧ ∃ reason, d !! "reason" = Some (PStr reason)).
Proof.
  eexists _, _. split; [vm_compute; reflexivity|].
  eapply (process_column_result_shape (demo_chat "unsure-title") demo_loads
            demo_str demo_dtype demo_sample elements demo_column_prompt
            [Some (PStr "Server down")] "Summary" COLUMN_CATEGORIES []).
  vm_compute. reflexivity.
Defined.

Lemma department_result_shape_witness :
  ∃ r w',
    process_department (demo_chat "unsure-finance") demo_loads demo_str
      demo_department_prompt 3 (Some (PInt 0)) (Some (PStr "Budget review"))
      None FIXED_DEPARTMENTS [] = (inr r, w') ∧
    ∃ d source flag suggested,
      r = PDict d ∧
      d !! "row" = Some (PInt 3) ∧
      (opt_truthy (Some (PInt 0)) = true →
       ∃ x, Some (PInt 0) = Some x ∧ d !! "original" = Some x) ∧
      (opt_truthy (Some (PInt 0)) = false →
       d !! "original" = Some (PStr "")) ∧
      d !! "source" = Some (PStr source) ∧
      (source = "normalized" ∨ source = "inferred_from_content") ∧
      (source = "normalized" → opt_truthy (Some (PInt 0)) = true) ∧
      d !! "needs_manual_review" = Some (PBool flag) ∧
      d !! "suggested" = Some suggested ∧
      (flag = true → suggested = PStr "OTHER").
Proof.
  eexists _, _. split; [vm_compute; reflexivity|].
  eapply (department_result_shape (demo_chat "unsure-finance") demo_loads
            demo_str demo_department_prompt 3%Z (Some (PInt 0))
            (Some (PStr "Budget review")) None FIXED_DEPARTMENTS []).
  vm_compute. reflexivity.
Defined.

Lemma column_mapping_size_witness :
  ∃ column_mapping stats,
    build_column_mapping demo_classifications [] = inr column_mapping ∧
    report_statistics demo_classifications [] = inr stats ∧
    length column_mapping = 1 ∧ columns_classified stats = 2 ∧
    length column_mapping ≤ columns_classified stats ≤ stat_total_columns stats.
Proof.
  eexists _, _.
  split; [vm_compute; reflexivity|]. split; [vm_compute; reflexivity|].
  split; [reflexivity|]. split; [reflexivity|].
  eapply (column_mapping_size demo_classifications []);
    vm_compute; reflexivity.
Defined.

Lemma demo_classifications_well_classified :
  Forall well_classified demo_classifications.
Proof. repeat constructor; eexists _, _, _; split_and!; reflexivity. Qed.

Lemma unmapped_required_fields_witness :
  ∃ column_mapping,
    build_column_mapping demo_classifications [] = inr column_mapping ∧
    ("department" ∈ unmapped column_mapping
     ↔ "department" ∈ ["title"; "description"; "department"] ∧
       ∀ c, c ∈ demo_classifications →
            py_getitem c "category" ≠ inr (PStr "department")).
Proof.
  eexists. split; [vm_compute; reflexivity|].
  apply (unmapped_required_fields demo_classifications _ "department"
           demo_classifications_well_classified).
  vm_compute. reflexivity.
Defined.

Lemma output_file_replaces_extension_witness :
  output_file "reports/test_data.xlsx"
  = "reports/test_data_classification_results.json" ∧
  output_file "reports/test_data.xlsx" = output_file "reports/test_data.csv" ∧
  output_file "xlsx" = "xlsx_classification_results.json".
Proof.
  apply (output_file_replaces_extension "reports/test_data" "xlsx" "csv");
    reflexivity.
Defined.

Lemma department_counts_partition_witness :
  ∃ department_classifications w' stats,
    classify_departments (demo_chat "confident-finance") demo_loads demo_str
      demo_department_prompt demo_rows [] = (inr department_classifications, w') ∧
    report_statistics demo_classifications department_classifications
    = inr stats ∧
    departments_normalized stats = 1 ∧ departments_inferred stats = 2 ∧
    (departments_normalized stats + departments_inferred stats
     = total_rows_processed stats ∧
     total_rows_processed stats = length demo_rows ∧
     departments_needing_review stats ≤ total_rows_processed stats).
Proof.
  eexists _, _, _.
  split; [vm_compute; reflexivity|]. split; [vm_compute; reflexivity|].
  split; [reflexivity|]. split; [reflexivity|].
  eapply (department_counts_partition (demo_chat "confident-finance")
            demo_loads demo_str demo_department_prompt demo_rows []
            _ demo_classifications);
    vm_compute; reflexivity.
Defined.

Lemma column_counts_disjoint_witness :
  ∃ column_classifications w' stats,
    classify_columns (demo_chat "confident-title") demo_loads demo_str
      demo_dtype demo_sample elements demo_column_prompt demo_columns []
    = (inr column_classifications, w') ∧
    report_statistics column_classifications [] = inr stats ∧
    columns_classified stats = 1 ∧ columns_needing_review stats = 1 ∧
    (stat_total_columns stats = length demo_columns ∧
     columns_classified stats + columns_needing_review stats
     ≤ stat_total_columns stats).
Proof.
  eexists _, _, _.
  split; [vm_compute; reflexivity|]. split; [vm_compute; reflexivity|].
  split; [reflexivity|]. split; [reflexivity|].
  eapply (column_counts_disjoint (demo_chat "confident-title") demo_loads
            demo_str demo_dtype demo_sample elements demo_column_prompt
            demo_columns [] _ _ []);
    vm_compute; reflexivity.
Defined.

Lemma classify_columns_prompts_witness :
  ∃ column_classifications w',
    classify_columns (demo_chat "confident-title") demo_loads demo_str
      demo_dtype demo_sample elements demo_column_prompt demo_columns []
    = (inr column_classifications, w') ∧
    w' = ["column:Summary"] ∧
    (Forall2
       (λ (column : string * series) classification,
          ∃ d, classification = PDict d ∧
               d !! "original_name" = Some (PStr column.1))
       demo_columns column_classifications ∧
     ∃ prompts,
       w' = [] ++ prompts ∧
       length prompts
       = length (filter (λ column : string * series, dropna column.2 ≠ [])
                   demo_columns)).
Proof.
  eexists _, _.
  split; [vm_compute; reflexivity|]. split; [reflexivity|].
  eapply (classify_columns_prompts (demo_chat "confident-title") demo_loads
            demo_str demo_dtype demo_sample elements demo_column_prompt
            demo_columns []).
  vm_compute. reflexivity.
Defined.

Lemma read_excel_file_empty_sheet_witness :
  read_excel_file demo_empty_sheet = inl ValueError ∧
  ∃ df, read_excel_file demo_sheet = inr df.
Proof.
  split.
  - apply (proj1 (read_excel_file_empty_sheet demo_empty_sheet)). reflexivity.
  - apply (proj1 (proj2 (read_excel_file_empty_sheet demo_sheet))).
    discriminate.
Defined.

Lemma read_excel_file_rows_witness :
  ∃ df,
    read_excel_file demo_sheet = inr df ∧
    columns df = [PStr "Issue ID"; PStr "Summary"] ∧
    (rows df `sublist_of` rows demo_sheet ∧
     Forall (λ row, all_missing row = false) (rows df) ∧
     (columns df = columns demo_sheet ∧
      rows df = dropna_all (rows demo_sheet) ∨
      ∃ first_row,
        dropna_all (rows demo_sheet) = first_row :: rows df ∧
        length (columns df) = length first_row ∧
        Forall (λ name, ∃ s, name = PStr s ∧ s ≠ "") (columns df))).
Proof.
  eexists. split; [vm_compute; reflexivity|]. split; [reflexivity|].
  eapply (read_excel_file_rows demo_sheet). vm_compute. reflexivity.
Defined.

Lemma read_csv_file_first_decodable_witness :
  read_csv_file demo_read_csv "audit.csv" "utf-8"
  = Some (inr (mkDataFrame [PStr "Issue ID"] [[Some (PInt 1)]])).
Proof.
  apply (read_csv_file_first_decodable demo_read_csv "audit.csv" "utf-8"
           ["utf-8"] ["iso-8859-1"; "windows-1252"; "cp1252"] "latin-1").
  - discriminate.
  - reflexivity.
  - repeat constructor.
  - discriminate.
Defined.

Lemma read_csv_file_cp1252_no_fallback_witness :
  demo_read_csv "audit.csv" "latin-1"
  = CsvFrame (mkDataFrame [PStr "Issue ID"] [[Some (PInt 1)]]) ∧
  read_csv_file demo_read_csv "audit.csv" "cp1252" = Some (inl ValueError).
Proof.
  split; [reflexivity|].
  apply (read_csv_file_cp1252_no_fallback demo_read_csv "audit.csv").
  reflexivity.
Defined.

Lemma read_file_outcomes_witness :
  read_file (λ _, false) (λ _, ".csv") (λ _, None) demo_read_csv "audit.csv"
  = inl FileNotFoundError ∧
  read_file (λ _, true) (λ _, ".pdf") (λ _, None) demo_read_csv "audit.pdf"
  = inl (Raised ValueError).
Proof.
  split.
  - apply (proj1 (read_file_outcomes (λ _, false) (λ _, ".csv") (λ _, None)
                    demo_read_csv "audit.csv")).
    reflexivity.
  - apply (proj2 (read_file_outcomes (λ _, true) (λ _, ".pdf") (λ _, None)
                    demo_read_csv "audit.pdf")); [reflexivity|].
    intros Hext. by repeat (apply elem_of_cons in Hext as [? | Hext]);
      try by apply elem_of_nil in Hext.
Defined.


Lemma demo_series_dtype_objects : strings_are_objects demo_series_dtype.
Proof.
  intros s. unfold demo_series_dtype.
  destruct (existsb is_str s) eqn:Hs; [done|]. intros _.
  induction s as [|c s IH]; [done|].
  simpl in Hs. apply orb_false_iff in Hs as [Hc Hs]. constructor; auto.
Qed.

Lemma demo_apply_result_keeps_text : keeps_text demo_apply_result.
Proof.
  intros s. unfold demo_apply_result.
  assert (Hsame : Forall2 kept_cell s s).
  { apply Forall2_same_length_lookup. split; [done|].
    intros i c c' Hc Hc'. rewrite Hc in Hc'. injection Hc' as <-. by split. }
  destruct (existsb is_str s) eqn:Hs; [done|].
  destruct (existsb (λ c, bool_decide (c = None)) s); [|done].
  clear Hsame. induction s as [|c s IH]; [constructor|].
  simpl in Hs. apply orb_false_iff in Hs as [Hc Hs].
  rewrite fmap_cons. constructor; [|by apply IH].
  destruct c as [[| | | | | |]|]; try done; split; try done.
  intros [? | ?]; done.
Qed.

Lemma demo_frame_rectangular : rectangular demo_frame.
Proof. by repeat constructor. Qed.

Lemma demo_clean_frame_rectangular : rectangular demo_clean_frame.
Proof. by repeat constructor. Qed.

Lemma demo_clean_frame_NoDup : NoDup (frame_columns demo_clean_frame).
Proof.
  change (NoDup (PStr <$> ["Issue ID"; "Summary"; "Dept"; "2024"])).
  apply NoDup_fmap_2; [by intros ?? [=] |].
  apply (bool_decide_unpack _). vm_compute. exact I.
Qed.

Lemma demo_frame_names_NoDup :
  NoDup (clean_names demo_str (frame_columns demo_frame)).
Proof. apply (bool_decide_unpack _). vm_compute. exact I. Qed.

(** The sheet of the examples and what [clean_dataframe] returns for it. *)
Example clean_dataframe_demo :
  clean_dataframe demo_str demo_series_dtype demo_apply_result
    demo_empty_index_str demo_frame = inr demo_clean_frame ∧
  clean_dataframe demo_str demo_series_dtype demo_apply_result
    demo_empty_index_str (mkFrame [] []) = inl AttributeError.
Proof. split; vm_compute; reflexivity. Qed.

Lemma clean_dataframe_trims_and_drops_witness :
  ∃ df',
    clean_dataframe demo_str demo_series_dtype demo_apply_result
      demo_empty_index_str demo_frame = inr df' ∧
    frame_columns df'
    = PStr <$> (clean_label demo_str <$> frame_columns demo_frame) ∧
    Forall2 cleaned_row
      (filter (λ r, all_missing r.2 = false) (frame_rows demo_frame))
      (frame_rows df').
Proof.
  apply (clean_dataframe_trims_and_drops demo_str demo_series_dtype
           demo_apply_result demo_empty_index_str demo_frame);
    [discriminate | exact demo_apply_result_keeps_text
    | exact demo_series_dtype_objects
    | exact demo_frame_rectangular | exact demo_frame_names_NoDup].
Defined.

Lemma clean_dataframe_idempotent_witness :
  ∃ df'',
    clean_dataframe demo_str demo_series_dtype demo_apply_result
      demo_empty_index_str demo_clean_frame = inr df'' ∧
    frame_columns df'' = frame_columns demo_clean_frame ∧
    (frame_rows df'').*1 = (frame_rows demo_clean_frame).*1 ∧
    Forall2 (λ r' r'', Forall2 kept_cell r'.2 r''.2)
      (frame_rows demo_clean_frame) (frame_rows df'').
Proof.
  apply (clean_dataframe_idempotent demo_str demo_series_dtype
           demo_apply_result demo_empty_index_str demo_frame
           demo_clean_frame).
  - discriminate.
  - exact demo_apply_result_keeps_text.
  - exact demo_series_dtype_objects.
  - exact demo_frame_rectangular.
  - repeat constructor; intros; (done || reflexivity).
  - vm_compute. reflexivity.
Defined.

Lemma clean_dataframe_invariants_witness :
  Forall (λ col, is_str_label col = true) (frame_columns demo_clean_frame) ∧
  NoDup (frame_columns demo_clean_frame) ∧
  rectangular demo_clean_frame ∧
  Forall (λ r, all_missing r.2 = false ∧
               Forall (λ c, strip_cell c = c) r.2)
    (frame_rows demo_clean_frame) ∧
  (frame_rows demo_clean_frame).*1 `sublist_of` (frame_rows demo_frame).*1.
Proof.
  apply (clean_dataframe_invariants demo_str demo_series_dtype
           demo_apply_result demo_empty_index_str demo_frame
           demo_clean_frame demo_apply_result_keeps_text
           demo_series_dtype_objects demo_frame_rectangular).
  vm_compute. reflexivity.
Defined.

Lemma extract_column_info_counts_witness :
  ∃ info,
    extract_column_info demo_str demo_series_dtype demo_sample elements
      demo_nunique demo_clean_frame "Dept" = inr info ∧
    non_null_count info = 1 ∧ null_count info = 1 ∧
    (info_name info = "Dept" ∧
     non_null_count info + null_count info
     = length (frame_rows demo_clean_frame) ∧
     length (sample_values info) ≤ 10 ∧
     (non_null_count info ≤ 5 →
      length (sample_values info) = non_null_count info)).
Proof.
  eexists. split; [vm_compute; reflexivity|].
  split; [reflexivity|]. split; [reflexivity|].
  eapply (extract_column_info_counts demo_str demo_series_dtype demo_sample
            elements demo_nunique demo_clean_frame "Dept").
  vm_compute. reflexivity.
Defined.

Lemma extract_column_info_samples_witness :
  ∃ info,
    extract_column_info demo_str demo_series_dtype demo_sample elements
      demo_nunique demo_clean_frame "Summary" = inr info ∧
    sample_values info = ["Server down"; "Budget review"] ∧
    ∃ j, frame_columns demo_clean_frame !! j = Some (PStr "Summary") ∧
         let values := dropna (frame_column j (frame_rows demo_clean_frame)) in
         non_null_count info = length values ∧
         (5 < length values →
          sample_values info
          = column_samples demo_str demo_sample elements values) ∧
         (length values ≤ 5 → sample_values info = demo_str <$> values).
Proof.
  eexists. split; [vm_compute; reflexivity|]. split; [reflexivity|].
  eapply (extract_column_info_samples demo_str demo_series_dtype demo_sample
            elements demo_nunique demo_clean_frame "Summary").
  vm_compute. reflexivity.
Defined.

Lemma extract_column_info_errors_witness :
  extract_column_info demo_str demo_series_dtype demo_sample elements
    demo_nunique demo_clean_frame "Owner" = inl (Raised ValueError) ∧
  ∃ info,
    extract_column_info demo_str demo_series_dtype demo_sample elements
      demo_nunique demo_clean_frame "Dept" = inr info.
Proof.
  split.
  - apply (proj1 (proj1 (extract_column_info_errors demo_str
                           demo_series_dtype demo_sample elements
                           demo_nunique demo_clean_frame "Owner"))).
    intros Hin.
    by repeat (apply elem_of_cons in Hin as [? | Hin]);
      try by apply elem_of_nil in Hin.
  - apply (proj2 (extract_column_info_errors demo_str demo_series_dtype
                    demo_sample elements demo_nunique demo_clean_frame
                    "Dept") demo_clean_frame_NoDup).
    apply (list_elem_of_lookup_2 _ 2). reflexivity.
Defined.

Lemma extract_row_data_rows_witness :
  ∃ rows_data,
    extract_row_data demo_iterrows demo_clean_frame (Some "Summary") None
      (Some "Dept") = inr rows_data ∧
    row_index <$> rows_data = (frame_rows demo_clean_frame).*1 ∧
    Forall2
      (λ r rd,
         field_read demo_iterrows (frame_columns demo_clean_frame) r.2
           (Some "Summary") (row_title rd) ∧
         field_read demo_iterrows (frame_columns demo_clean_frame) r.2
           None (row_description rd) ∧
         field_read demo_iterrows (frame_columns demo_clean_frame) r.2
           (Some "Dept") (row_department rd))
      (frame_rows demo_clean_frame) rows_data.
Proof.
  exact (extract_row_data_rows demo_iterrows demo_clean_frame (Some "Summary")
           None (Some "Dept") demo_clean_frame_NoDup).
Defined.

Lemma summary_missing_values_witness :
  let summary := get_dataframe_summary demo_memory_mb demo_clean_frame in
  total_missing_values summary = 2 ∧
  total_rows summary = 2 ∧
  total_columns summary = 4 ∧
  has_missing_values summary = true ∧
  total_missing_values summary + total_rows summary
  ≤ total_rows summary * total_columns summary.
Proof.
  split; [reflexivity|]. split; [reflexivity|]. split; [reflexivity|].
  destruct (summary_missing_values demo_memory_mb demo_clean_frame)
    as [Hflag Hbound].
  split.
  - apply Hflag. vm_compute. lia.
  - apply Hbound; [exact demo_clean_frame_rectangular|].
    by repeat constructor.
Defined.

Lemma column_prompt_contents_witness :
  PyStr.contains "'priority'"
    (Prompts.create_column_prompt demo_dumps "Rating" "object"
       ["High"; "Low"] COLUMN_CATEGORIES) = true.
Proof.
  destruct (column_prompt_contents demo_dumps "Rating" "object"
              ["High"; "Low"] COLUMN_CATEGORIES) as (_ & _ & _ & _ & Hcat).
  apply (Hcat "priority"). apply (bool_decide_unpack _). vm_compute. exact I.
Defined.

Lemma department_prompt_contents_witness :
  (∃ x,
     Some (PStr "finance dept") = Some x ∧
     PyStr.contains "Your task is to normalize and map"
       (Prompts.create_department_prompt demo_str (Some (PStr "finance dept"))
          None None FIXED_DEPARTMENTS) = true ∧
     PyStr.contains
       (Prompts.fstring ["* Original Department Value: "; Prompts.dq;
                         demo_str x; Prompts.dq])
       (Prompts.create_department_prompt demo_str (Some (PStr "finance dept"))
          None None FIXED_DEPARTMENTS) = true) ∧
  (PyStr.contains "Your task is to infer from content"
     (Prompts.create_department_prompt demo_str (Some (PInt 0)) None None
        FIXED_DEPARTMENTS) = true ∧
   PyStr.contains "* Original Department Value: [EMPTY]"
     (Prompts.create_department_prompt demo_str (Some (PInt 0)) None None
        FIXED_DEPARTMENTS) = true) ∧
  Prompts.or_na demo_str (Some (PStr "")) = "N/A" ∧
  Prompts.or_na demo_str (Some (PInt 7)) = "7" ∧
  PyStr.contains "'Finance'"
    (Prompts.create_department_prompt demo_str None None None
       FIXED_DEPARTMENTS) = true.
Proof.
  split; [|split; [|split; [|split]]].
  - destruct (department_prompt_contents demo_str (Some (PStr "finance dept"))
                None None FIXED_DEPARTMENTS) as (Hpresent & _).
    apply Hpresent. reflexivity.
  - destruct (department_prompt_contents demo_str (Some (PInt 0)) None None
                FIXED_DEPARTMENTS) as (_ & Habsent & _).
    apply Habsent. reflexivity.
  - destruct (department_prompt_contents demo_str None None None
                FIXED_DEPARTMENTS) as (_ & _ & _ & _ & Hvalue & _).
    apply (Hvalue (Some (PStr ""))). reflexivity.
  - destruct (department_prompt_contents demo_str None None None
                FIXED_DEPARTMENTS) as (_ & _ & _ & _ & Hvalue & _).
    apply (proj2 (Hvalue (Some (PInt 7))) (PInt 7)); reflexivity.
  - destruct (department_prompt_contents demo_str None None None
                FIXED_DEPARTMENTS) as (_ & _ & _ & _ & _ & Hdept).
    apply (Hdept "Finance"). apply (bool_decide_unpack _). vm_compute. exact I.
Defined.
